(** * Knowbrow backend: source visibility, query gates and write-back workflow

    A shallow embedding of the FastAPI gateway
    ([src/knowbrow/backend/fastapi/main.py]) and of the Django write-back
    views ([src/knowbrow/backend/django/graphs/api_views.py]).

    Conventions of the embedding.
    - Python [str] values are Rocq [string]s read as sequences of code
      points below 256; the character tables below ([is_space], [lower_char],
      [is_word]) follow Python's tables on that range.
    - The text handed to the regular expressions of the query gates is a
      list of code points without that bound ([Uni.text]): there
      [re.IGNORECASE] and [str.lower] part ways.
    - JSON objects with a known shape ([source], [security_policy], ...)
      are records; a key that is absent or [null] is [None].
    - Handlers that raise [HTTPException] return [Err status detail].
    - Outbound HTTP calls are logged in a call trace, so that "no call was
      made" is a statement about that trace. *)

From stdpp Require Import gmap strings list sorting pretty.
From Stdlib Require Import Ascii String NArith ZArith QArith Qcanon.

Close Scope Qc_scope.
Close Scope Q_scope.
Local Open Scope string_scope.
Local Open Scope bool_scope.

(** ** Python string operations *)

Module PyStr.

Definition code (c : ascii) : N := N_of_ascii c.

(** [str.isspace] on one character. *)
Definition is_space (c : ascii) : bool :=
  let n := code c in
  ((9 <=? n) && (n <=? 13) || (28 <=? n) && (n <=? 32)
   || (n =? 133) || (n =? 160))%N.

(** [str.lower] on one character. *)
Definition lower_char (c : ascii) : ascii :=
  let n := code c in
  if ((65 <=? n) && (n <=? 90)
      || (192 <=? n) && (n <=? 222) && negb (n =? 215))%N
  then ascii_of_N (n + 32) else c.

(** [\w] of the [re] module for [str] patterns: alphanumerics and [_]. *)
Definition is_word (c : ascii) : bool :=
  let n := code c in
  ((48 <=? n) && (n <=? 57) || (65 <=? n) && (n <=? 90)
   || (97 <=? n) && (n <=? 122) || (n =? 95)
   || (n =? 170) || (n =? 178) || (n =? 179) || (n =? 181)
   || (n =? 185) || (n =? 186) || (188 <=? n) && (n <=? 190)
   || (192 <=? n) && (n <=? 214) || (216 <=? n) && (n <=? 246)
   || (248 <=? n) && (n <=? 255))%N.

Fixpoint map_chars (f : ascii -> ascii) (s : string) : string :=
  match s with
  | EmptyString => EmptyString
  | String c s' => String (f c) (map_chars f s')
  end.

Definition lower (s : string) : string := map_chars lower_char s.

Fixpoint lstrip (s : string) : string :=
  match s with
  | EmptyString => EmptyString
  | String c s' => if is_space c then lstrip s' else s
  end.

Fixpoint rstrip (s : string) : string :=
  match s with
  | EmptyString => EmptyString
  | String c s' =>
      match rstrip s' with
      | EmptyString => if is_space c then EmptyString else String c EmptyString
      | r => String c r
      end
  end.

Definition strip (s : string) : string := rstrip (lstrip s).

(** [s.replace(" ", "_")]. *)
Definition replace_space (s : string) : string :=
  map_chars (fun c => if Ascii.eqb c " " then "_"%char else c) s.

(** Python truthiness of a string. *)
Definition nonempty (s : string) : bool :=
  match s with EmptyString => false | _ => true end.

(** [needle in hay]. *)
Fixpoint contains (needle hay : string) : bool :=
  String.prefix needle hay ||
  match hay with
  | EmptyString => false
  | String _ hay' => contains needle hay'
  end.

(** [sep.join(l)]. *)
Definition join (sep : string) (l : list string) : string :=
  String.concat sep l.

(** Every character of [s] satisfies [p]. *)
Fixpoint all_chars (p : ascii -> bool) (s : string) : bool :=
  match s with
  | EmptyString => true
  | String c s' => p c && all_chars p s'
  end.

(** [(x or "")] for an optional string. *)
Definition or_empty (o : option string) : string :=
  match o with Some s => s | None => "" end.

End PyStr.

(** ** Text over all code points *)

Module Uni.

(** A Python [str] as the list of its code points. *)
Definition text : Type := list N.

Fixpoint of_string (s : string) : text :=
  match s with
  | EmptyString => []
  | String c s' => PyStr.code c :: of_string s'
  end.

(** [\s] of the [re] module for [str] patterns, which is [str.isspace]. *)
Definition is_space (c : N) : bool :=
  ((9 <=? c) && (c <=? 13) || (28 <=? c) && (c <=? 32)
   || (c =? 133) || (c =? 160) || (c =? 5760)
   || (8192 <=? c) && (c <=? 8202) || (c =? 8232) || (c =? 8233)
   || (c =? 8239) || (c =? 8287) || (c =? 12288))%N.

(** The code points from 256 on for which [str.isalnum] holds, as
    inclusive ranges (Unicode 14.0.0, the database of CPython 3.11). *)
Definition alnum_ranges : list (N * N) :=
  [(256, 705); (710, 721); (736, 740); (748, 748); (750, 750); (880, 884);
   (886, 887); (890, 893); (895, 895); (902, 902); (904, 906); (908, 908);
   (910, 929); (931, 1013); (1015, 1153); (1162, 1327); (1329, 1366);
   (1369, 1369); (1376, 1416); (1488, 1514); (1519, 1522); (1568, 1610);
   (1632, 1641); (1646, 1647); (1649, 1747); (1749, 1749); (1765, 1766);
   (1774, 1788); (1791, 1791); (1808, 1808); (1810, 1839); (1869, 1957);
   (1969, 1969); (1984, 2026); (2036, 2037); (2042, 2042); (2048, 2069);
   (2074, 2074); (2084, 2084); (2088, 2088); (2112, 2136); (2144, 2154);
   (2160, 2183); (2185, 2190); (2208, 2249); (2308, 2361); (2365, 2365);
   (2384, 2384); (2392, 2401); (2406, 2415); (2417, 2432); (2437, 2444);
   (2447, 2448); (2451, 2472); (2474, 2480); (2482, 2482); (2486, 2489);
   (2493, 2493); (2510, 2510); (2524, 2525); (2527, 2529); (2534, 2545);
   (2548, 2553); (2556, 2556); (2565, 2570); (2575, 2576); (2579, 2600);
   (2602, 2608); (2610, 2611); (2613, 2614); (2616, 2617); (2649, 2652);
   (2654, 2654); (2662, 2671); (2674, 2676); (2693, 2701); (2703, 2705);
   (2707, 2728); (2730, 2736); (2738, 2739); (2741, 2745); (2749, 2749);
   (2768, 2768); (2784, 2785); (2790, 2799); (2809, 2809); (2821, 2828);
   (2831, 2832); (2835, 2856); (2858, 2864); (2866, 2867); (2869, 2873);
   (2877, 2877); (2908, 2909); (2911, 2913); (2918, 2927); (2929, 2935);
   (2947, 2947); (2949, 2954); (2958, 2960); (2962, 2965); (2969, 2970);
   (2972, 2972); (2974, 2975); (2979, 2980); (2984, 2986); (2990, 3001);
   (3024, 3024); (3046, 3058); (3077, 3084); (3086, 3088); (3090, 3112);
   (3114, 3129); (3133, 3133); (3160, 3162); (3165, 3165); (3168, 3169);
   (3174, 3183); (3192, 3198); (3200, 3200); (3205, 3212); (3214, 3216);
   (3218, 3240); (3242, 3251); (3253, 3257); (3261, 3261); (3293, 3294);
   (3296, 3297); (3302, 3311); (3313, 3314); (3332, 3340); (3342, 3344);
   (3346, 3386); (3389, 3389); (3406, 3406); (3412, 3414); (3416, 3425);
   (3430, 3448); (3450, 3455); (3461, 3478); (3482, 3505); (3507, 3515);
   (3517, 3517); (3520, 3526); (3558, 3567); (3585, 3632); (3634, 3635);
   (3648, 3654); (3664, 3673); (3713, 3714); (3716, 3716); (3718, 3722);
   (3724, 3747); (3749, 3749); (3751, 3760); (3762, 3763); (3773, 3773);
   (3776, 3780); (3782, 3782); (3792, 3801); (3804, 3807); (3840, 3840);
   (3872, 3891); (3904, 3911); (3913, 3948); (3976, 3980); (4096, 4138);
   (4159, 4169); (4176, 4181); (4186, 4189); (4193, 4193); (4197, 4198);
   (4206, 4208); (4213, 4225); (4238, 4238); (4240, 4249); (4256, 4293);
   (4295, 4295); (4301, 4301); (4304, 4346); (4348, 4680); (4682, 4685);
   (4688, 4694); (4696, 4696); (4698, 4701); (4704, 4744); (4746, 4749);
   (4752, 4784); (4786, 4789); (4792, 4798); (4800, 4800); (4802, 4805);
   (4808, 4822); (4824, 4880); (4882, 4885); (4888, 4954); (4969, 4988);
   (4992, 5007); (5024, 5109); (5112, 5117); (5121, 5740); (5743, 5759);
   (5761, 5786); (5792, 5866); (5870, 5880); (5888, 5905); (5919, 5937);
   (5952, 5969); (5984, 5996); (5998, 6000); (6016, 6067); (6103, 6103);
   (6108, 6108); (6112, 6121); (6128, 6137); (6160, 6169); (6176, 6264);
   (6272, 6276); (6279, 6312); (6314, 6314); (6320, 6389); (6400, 6430);
   (6470, 6509); (6512, 6516); (6528, 6571); (6576, 6601); (6608, 6618);
   (6656, 6678); (6688, 6740); (6784, 6793); (6800, 6809); (6823, 6823);
   (6917, 6963); (6981, 6988); (6992, 7001); (7043, 7072); (7086, 7141);
   (7168, 7203); (7232, 7241); (7245, 7293); (7296, 7304); (7312, 7354);
   (7357, 7359); (7401, 7404); (7406, 7411); (7413, 7414); (7418, 7418);
   (7424, 7615); (7680, 7957); (7960, 7965); (7968, 8005); (8008, 8013);
   (8016, 8023); (8025, 8025); (8027, 8027); (8029, 8029); (8031, 8061);
   (8064, 8116); (8118, 8124); (8126, 8126); (8130, 8132); (8134, 8140);
   (8144, 8147); (8150, 8155); (8160, 8172); (8178, 8180); (8182, 8188);
   (8304, 8305); (8308, 8313); (8319, 8329); (8336, 8348); (8450, 8450);
   (8455, 8455); (8458, 8467); (8469, 8469); (8473, 8477); (8484, 8484);
   (8486, 8486); (8488, 8488); (8490, 8493); (8495, 8505); (8508, 8511);
   (8517, 8521); (8526, 8526); (8528, 8585); (9312, 9371); (9450, 9471);
   (10102, 10131); (11264, 11492); (11499, 11502); (11506, 11507);
   (11517, 11517); (11520, 11557); (11559, 11559); (11565, 11565);
   (11568, 11623); (11631, 11631); (11648, 11670); (11680, 11686);
   (11688, 11694); (11696, 11702); (11704, 11710); (11712, 11718);
   (11720, 11726); (11728, 11734); (11736, 11742); (11823, 11823);
   (12293, 12295); (12321, 12329); (12337, 12341); (12344, 12348);
   (12353, 12438); (12445, 12447); (12449, 12538); (12540, 12543);
   (12549, 12591); (12593, 12686); (12690, 12693); (12704, 12735);
   (12784, 12799); (12832, 12841); (12872, 12879); (12881, 12895);
   (12928, 12937); (12977, 12991); (13312, 19903); (19968, 42124);
   (42192, 42237); (42240, 42508); (42512, 42539); (42560, 42606);
   (42623, 42653); (42656, 42735); (42775, 42783); (42786, 42888);
   (42891, 42954); (42960, 42961); (42963, 42963); (42965, 42969);
   (42994, 43009); (43011, 43013); (43015, 43018); (43020, 43042);
   (43056, 43061); (43072, 43123); (43138, 43187); (43216, 43225);
   (43250, 43255); (43259, 43259); (43261, 43262); (43264, 43301);
   (43312, 43334); (43360, 43388); (43396, 43442); (43471, 43481);
   (43488, 43492); (43494, 43518); (43520, 43560); (43584, 43586);
   (43588, 43595); (43600, 43609); (43616, 43638); (43642, 43642);
   (43646, 43695); (43697, 43697); (43701, 43702); (43705, 43709);
   (43712, 43712); (43714, 43714); (43739, 43741); (43744, 43754);
   (43762, 43764); (43777, 43782); (43785, 43790); (43793, 43798);
   (43808, 43814); (43816, 43822); (43824, 43866); (43868, 43881);
   (43888, 44002); (44016, 44025); (44032, 55203); (55216, 55238);
   (55243, 55291); (63744, 64109); (64112, 64217); (64256, 64262);
   (64275, 64279); (64285, 64285); (64287, 64296); (64298, 64310);
   (64312, 64316); (64318, 64318); (64320, 64321); (64323, 64324);
   (64326, 64433); (64467, 64829); (64848, 64911); (64914, 64967);
   (65008, 65019); (65136, 65140); (65142, 65276); (65296, 65305);
   (65313, 65338); (65345, 65370); (65382, 65470); (65474, 65479);
   (65482, 65487); (65490, 65495); (65498, 65500); (65536, 65547);
   (65549, 65574); (65576, 65594); (65596, 65597); (65599, 65613);
   (65616, 65629); (65664, 65786); (65799, 65843); (65856, 65912);
   (65930, 65931); (66176, 66204); (66208, 66256); (66273, 66299);
   (66304, 66339); (66349, 66378); (66384, 66421); (66432, 66461);
   (66464, 66499); (66504, 66511); (66513, 66517); (66560, 66717);
   (66720, 66729); (66736, 66771); (66776, 66811); (66816, 66855);
   (66864, 66915); (66928, 66938); (66940, 66954); (66956, 66962);
   (66964, 66965); (66967, 66977); (66979, 66993); (66995, 67001);
   (67003, 67004); (67072, 67382); (67392, 67413); (67424, 67431);
   (67456, 67461); (67463, 67504); (67506, 67514); (67584, 67589);
   (67592, 67592); (67594, 67637); (67639, 67640); (67644, 67644);
   (67647, 67669); (67672, 67702); (67705, 67742); (67751, 67759);
   (67808, 67826); (67828, 67829); (67835, 67867); (67872, 67897);
   (67968, 68023); (68028, 68047); (68050, 68096); (68112, 68115);
   (68117, 68119); (68121, 68149); (68160, 68168); (68192, 68222);
   (68224, 68255); (68288, 68295); (68297, 68324); (68331, 68335);
   (68352, 68405); (68416, 68437); (68440, 68466); (68472, 68497);
   (68521, 68527); (68608, 68680); (68736, 68786); (68800, 68850);
   (68858, 68899); (68912, 68921); (69216, 69246); (69248, 69289);
   (69296, 69297); (69376, 69415); (69424, 69445); (69457, 69460);
   (69488, 69505); (69552, 69579); (69600, 69622); (69635, 69687);
   (69714, 69743); (69745, 69746); (69749, 69749); (69763, 69807);
   (69840, 69864); (69872, 69881); (69891, 69926); (69942, 69951);
   (69956, 69956); (69959, 69959); (69968, 70002); (70006, 70006);
   (70019, 70066); (70081, 70084); (70096, 70106); (70108, 70108);
   (70113, 70132); (70144, 70161); (70163, 70187); (70272, 70278);
   (70280, 70280); (70282, 70285); (70287, 70301); (70303, 70312);
   (70320, 70366); (70384, 70393); (70405, 70412); (70415, 70416);
   (70419, 70440); (70442, 70448); (70450, 70451); (70453, 70457);
   (70461, 70461); (70480, 70480); (70493, 70497); (70656, 70708);
   (70727, 70730); (70736, 70745); (70751, 70753); (70784, 70831);
   (70852, 70853); (70855, 70855); (70864, 70873); (71040, 71086);
   (71128, 71131); (71168, 71215); (71236, 71236); (71248, 71257);
   (71296, 71338); (71352, 71352); (71360, 71369); (71424, 71450);
   (71472, 71483); (71488, 71494); (71680, 71723); (71840, 71922);
   (71935, 71942); (71945, 71945); (71948, 71955); (71957, 71958);
   (71960, 71983); (71999, 71999); (72001, 72001); (72016, 72025);
   (72096, 72103); (72106, 72144); (72161, 72161); (72163, 72163);
   (72192, 72192); (72203, 72242); (72250, 72250); (72272, 72272);
   (72284, 72329); (72349, 72349); (72368, 72440); (72704, 72712);
   (72714, 72750); (72768, 72768); (72784, 72812); (72818, 72847);
   (72960, 72966); (72968, 72969); (72971, 73008); (73030, 73030);
   (73040, 73049); (73056, 73061); (73063, 73064); (73066, 73097);
   (73112, 73112); (73120, 73129); (73440, 73458); (73648, 73648);
   (73664, 73684); (73728, 74649); (74752, 74862); (74880, 75075);
   (77712, 77808); (77824, 78894); (82944, 83526); (92160, 92728);
   (92736, 92766); (92768, 92777); (92784, 92862); (92864, 92873);
   (92880, 92909); (92928, 92975); (92992, 92995); (93008, 93017);
   (93019, 93025); (93027, 93047); (93053, 93071); (93760, 93846);
   (93952, 94026); (94032, 94032); (94099, 94111); (94176, 94177);
   (94179, 94179); (94208, 100343); (100352, 101589); (101632, 101640);
   (110576, 110579); (110581, 110587); (110589, 110590); (110592, 110882);
   (110928, 110930); (110948, 110951); (110960, 111355); (113664, 113770);
   (113776, 113788); (113792, 113800); (113808, 113817); (119520, 119539);
   (119648, 119672); (119808, 119892); (119894, 119964); (119966, 119967);
   (119970, 119970); (119973, 119974); (119977, 119980); (119982, 119993);
   (119995, 119995); (119997, 120003); (120005, 120069); (120071, 120074);
   (120077, 120084); (120086, 120092); (120094, 120121); (120123, 120126);
   (120128, 120132); (120134, 120134); (120138, 120144); (120146, 120485);
   (120488, 120512); (120514, 120538); (120540, 120570); (120572, 120596);
   (120598, 120628); (120630, 120654); (120656, 120686); (120688, 120712);
   (120714, 120744); (120746, 120770); (120772, 120779); (120782, 120831);
   (122624, 122654); (123136, 123180); (123191, 123197); (123200, 123209);
   (123214, 123214); (123536, 123565); (123584, 123627); (123632, 123641);
   (124896, 124902); (124904, 124907); (124909, 124910); (124912, 124926);
   (124928, 125124); (125127, 125135); (125184, 125251); (125259, 125259);
   (125264, 125273); (126065, 126123); (126125, 126127); (126129, 126132);
   (126209, 126253); (126255, 126269); (126464, 126467); (126469, 126495);
   (126497, 126498); (126500, 126500); (126503, 126503); (126505, 126514);
   (126516, 126519); (126521, 126521); (126523, 126523); (126530, 126530);
   (126535, 126535); (126537, 126537); (126539, 126539); (126541, 126543);
   (126545, 126546); (126548, 126548); (126551, 126551); (126553, 126553);
   (126555, 126555); (126557, 126557); (126559, 126559); (126561, 126562);
   (126564, 126564); (126567, 126570); (126572, 126578); (126580, 126583);
   (126585, 126588); (126590, 126590); (126592, 126601); (126603, 126619);
   (126625, 126627); (126629, 126633); (126635, 126651); (127232, 127244);
   (130032, 130041); (131072, 173791); (173824, 177976); (177984, 178205);
   (178208, 183969); (183984, 191456); (194560, 195101); (196608, 201546)]%N.

(** [\w] of the [re] module for [str] patterns: alphanumerics and [_]. *)
Definition is_word (c : N) : bool :=
  if (c <? 256)%N then PyStr.is_word (ascii_of_N c)
  else existsb (fun r => (fst r <=? c) && (c <=? snd r))%N alnum_ranges.

(** The code points that match the pattern letter [p], a lower-case
    ASCII letter, under [re.IGNORECASE]: the letter, its upper-case form,
    and besides them U+0130 and U+0131 for [i], U+212A for [k] and U+017F
    for [s]. *)
Definition matches_letter (p : ascii) (c : N) : bool :=
  let n := PyStr.code p in
  ((c =? n) || (c =? n - 32)
   || (n =? 105) && ((c =? 304) || (c =? 305))
   || (n =? 107) && (c =? 8490)
   || (n =? 115) && (c =? 383))%N.

(** Match the keyword [kw], written in lower-case ASCII letters, at the
    head of [t] under [re.IGNORECASE]; the rest of [t] on success. *)
Fixpoint strip_keyword (kw : string) (t : text) : option text :=
  match kw with
  | EmptyString => Some t
  | String p kw' =>
      match t with
      | [] => None
      | c :: t' => if matches_letter p c then strip_keyword kw' t' else None
      end
  end.

(** What is left after a leading [\s*]. *)
Fixpoint lstrip (t : text) : text :=
  match t with
  | [] => []
  | c :: t' => if is_space c then lstrip t' else t
  end.

(** [\b] right after a keyword: end of text or a non-word character. *)
Definition at_word_end (rest : text) : bool :=
  match rest with
  | [] => true
  | c :: _ => negb (is_word c)
  end.

(** [re.match(r"^\s*kw\b", t, re.IGNORECASE)] for one keyword. *)
Definition match_keyword (kw : string) (t : text) : bool :=
  match strip_keyword kw (lstrip t) with
  | Some rest => at_word_end rest
  | None => false
  end.

Fixpoint prefix (p t : text) : bool :=
  match p, t with
  | [], _ => true
  | a :: p', c :: t' => (a =? c)%N && prefix p' t'
  | _ :: _, [] => false
  end.

(** [needle in hay]. *)
Fixpoint contains (needle hay : text) : bool :=
  prefix needle hay ||
  match hay with
  | [] => false
  | _ :: hay' => contains needle hay'
  end.

End Uni.

(** ** Source records and the public classification *)

Record security_policy := {
  is_public : option bool;
  query_domains : list string;
  admin_only_sparql_terms : list string;
  admin_only_table_patterns : list string
}.

Record ui_config := {
  ui_description : option string;
  ui_display_name : option string;
  ui_icon : option string;
  ui_color : option string
}.

Record source := {
  src_id : option Z;
  src_name : option string;
  src_type : option string;
  src_source_type : option string;
  src_security_policy : option security_policy;
  src_allow_write_back : bool;
  src_can_admin : bool;
  src_can_manage : bool;
  src_description : option string;
  src_ui_config : option ui_config;
  src_connection_config : list (string * string)
}.

Definition empty_policy : security_policy :=
  {| is_public := None; query_domains := [];
     admin_only_sparql_terms := []; admin_only_table_patterns := [] |}.

(** [x or y] on optional strings: the first one that is present and
    non-empty. *)
Definition or_str (a b : option string) : option string :=
  match a with
  | Some s => if PyStr.nonempty s then a else b
  | None => b
  end.

Definition _normalize_source_name (name : option string) : string :=
  PyStr.replace_space (PyStr.lower (PyStr.strip (PyStr.or_empty name))).

(** [source.get('security_policy') or {}]. *)
Definition policy_of (s : source) : security_policy :=
  match src_security_policy s with Some p => p | None => empty_policy end.

(** [(source.get('type') or source.get('source_type') or '').strip().lower()]. *)
Definition normalized_type (s : source) : string :=
  PyStr.lower (PyStr.strip
    (PyStr.or_empty (or_str (src_type s) (src_source_type s)))).

(** The set comprehension over [query_domains], as the list of its
    members. *)
Definition normalized_domains (p : security_policy) : list string :=
  map (fun d => PyStr.lower (PyStr.strip d))
      (filter (fun d => PyStr.nonempty (PyStr.strip d) = true) (query_domains p)).

Definition _is_public_source_record (s : source) : bool :=
  let source_type := normalized_type s in
  let policy := policy_of s in
  if match is_public policy with Some b => b | None => false end then true
  else
    let doms := normalized_domains policy in
    if bool_decide ("*" ∈ doms) || bool_decide ("public" ∈ doms) then true
    else if String.eqb source_type "ols" then
      match is_public policy with Some false => false | _ => true end
    else String.eqb (_normalize_source_name (src_name s)) "wikidata".

(** ** Responses, identities and the Django collaborator *)

(** A handler either returns a value or raises [HTTPException]. *)
Inductive result (A : Type) : Type :=
| Ok (a : A)
| Err (status : Z) (detail : string).
Arguments Ok {A} a.
Arguments Err {A} status detail.

(** Scalar JSON values found in the identity payload. *)
Inductive pyval : Type :=
| PNone
| PBool (b : bool)
| PInt (z : Z)
| PStr (s : string).

Definition truthy (v : pyval) : bool :=
  match v with
  | PNone => false
  | PBool b => b
  | PInt z => negb (z =? 0)%Z
  | PStr s => PyStr.nonempty s
  end.

(** The dict returned by the token validator, as its list of entries. *)
Definition user_payload : Type := list (string * pyval).

(** [d.get(k)] on such a dict; a missing key reads as [None]. *)
Fixpoint dict_get (k : string) (d : list (string * pyval)) : pyval :=
  match d with
  | [] => PNone
  | (k', v) :: d' => if String.eqb k k' then v else dict_get k d'
  end.

(** Python truthiness of an optional dict ([if not user_payload]). *)
Definition payload_truthy (p : option user_payload) : bool :=
  match p with
  | Some (_ :: _) => true
  | _ => false
  end.

(** The Django service as the gateway sees it over HTTP.
    [auth_validate token] is [None] when the answer is not a 200;
    [datasources_list hdr] is [None] when the answer is not a 200 or its
    body is not a list; [hdr] is the [X-User-ID] header, if sent. *)
Record django := {
  auth_validate : string -> option user_payload;
  datasources_list : option pyval -> option (list source)
}.

Definition _validate_user_token (W : django) (token : string)
  : result user_payload :=
  match auth_validate W token with
  | Some p => Ok p
  | None => Err 401 "Invalid token"
  end.

Definition _fetch_accessible_sources_for_user (W : django) (user_id : pyval)
  : list source :=
  let header := if truthy user_id then Some user_id else None in
  match datasources_list W header with
  | Some l => l
  | None => []
  end.

(** [authorization.split(" ", 1)] when the separator occurs. *)
Fixpoint split_first_space (s : string) : option (string * string) :=
  match s with
  | EmptyString => None
  | String c s' =>
      if Ascii.eqb c " " then Some (EmptyString, s')
      else match split_first_space s' with
           | Some (a, b) => Some (String c a, b)
           | None => None
           end
  end.

Definition _extract_bearer_token (authorization : option string)
  : option string :=
  match authorization with
  | None => None
  | Some a =>
      if negb (PyStr.nonempty a) then None
      else match split_first_space a with
           | Some (scheme, rest) =>
               if String.eqb (PyStr.lower scheme) "bearer"
                  && PyStr.nonempty (PyStr.strip rest)
               then Some (PyStr.strip rest)
               else None
           | None => None
           end
  end.

Definition _resolve_request_user (W : django) (authorization : option string)
  : result (option user_payload) :=
  match _extract_bearer_token authorization with
  | None => Ok None
  | Some token =>
      match _validate_user_token W token with
      | Ok p => Ok (Some p)
      | Err st d => Err st d
      end
  end.

(** ** The adapter registry *)

Inductive adapter_class : Type :=
| WikidataAdapter | OxigraphAdapter | OntopAdapter | DjangoDBAdapter | OLSAdapter.

(** [AdapterRegistry._adapter_classes.get]. *)
Definition _adapter_classes (source_type : option string)
  : option adapter_class :=
  match source_type with
  | None => None
  | Some t =>
      if String.eqb t "wikidata" then Some WikidataAdapter
      else if String.eqb t "oxigraph" then Some OxigraphAdapter
      else if String.eqb t "ontop" then Some OntopAdapter
      else if String.eqb t "django_db" then Some DjangoDBAdapter
      else if String.eqb t "ols" then Some OLSAdapter
      else None
  end.

Fixpoint assoc_get (k : string) (d : list (string * string)) : option string :=
  match d with
  | [] => None
  | (k', v) :: d' => if String.eqb k k' then Some v else assoc_get k d'
  end.

(** The dict handed to an adapter constructor: the source record, its
    connection parameters laid over it, and the three keys the registry
    sets itself. *)
Record adapter_config := {
  cfg_source : source;
  cfg_overrides : list (string * string);
  cfg_name : string;
  cfg_source_type : option string;
  cfg_endpoint_url : option string
}.

Record adapter := {
  ad_class : adapter_class;
  ad_config : adapter_config
}.

Definition _ensure_adapter_for_source
    (adapters : gmap string adapter) (s : source) : gmap string adapter :=
  let source_name := _normalize_source_name (src_name s) in
  if negb (PyStr.nonempty source_name) then adapters
  else match adapters !! source_name with
  | Some _ => adapters
  | None =>
      let source_type := or_str (src_type s) (src_source_type s) in
      let source_type :=
        match source_type with
        | Some t => if String.eqb t "fuseki" then Some "oxigraph" else Some t
        | None => None
        end in
      match _adapter_classes source_type with
      | None => adapters
      | Some cls =>
          let conn := src_connection_config s in
          let endpoint :=
            match assoc_get "endpoint_url" conn with
            | Some e => Some e
            | None => assoc_get "api_url" conn
            end in
          <[source_name :=
              {| ad_class := cls;
                 ad_config := {| cfg_source := s; cfg_overrides := conn;
                                 cfg_name := source_name;
                                 cfg_source_type := source_type;
                                 cfg_endpoint_url := endpoint |} |}]> adapters
      end
  end.

(** [for source in l: _ensure_adapter_for_source(source)]. *)
Definition ensure_all (adapters : gmap string adapter) (l : list source)
  : gmap string adapter :=
  foldl _ensure_adapter_for_source adapters l.

(** [sorted(s)] for a set of strings. *)
Definition sorted_set (s : gset string) : list string :=
  merge_sort String.le (elements s).

(** ** Resolving the sources of a request *)

(** [requested_sources] after normalization; [None] when the parameter
    is absent or empty. *)
Definition normalize_requested (requested_sources : option (list string))
  : option (list string) :=
  match requested_sources with
  | None | Some [] => None
  | Some l =>
      Some (map (fun s => _normalize_source_name (Some s))
                (filter (fun s => (PyStr.nonempty s
                                   && PyStr.nonempty (PyStr.strip s)) = true) l))
  end.

(** Names an anonymous caller may use: the non-empty normalized names of
    the public candidates. *)
Definition public_names_of (candidates : list source) : list string :=
  filter (fun n => PyStr.nonempty n = true)
    (map (fun s => _normalize_source_name (src_name s))
         (filter (fun s => _is_public_source_record s = true) candidates)).

(** Names an authenticated caller may use. *)
Definition accessible_names_of (accessible : list source) : gset string :=
  list_to_set
    (map (fun s => _normalize_source_name (src_name s))
         (filter (fun s => PyStr.nonempty (PyStr.or_empty (src_name s)) = true)
                 accessible)).

Definition check_requested (status : Z) (prefix : string)
    (allowed : gset string) (normalized_requested : option (list string))
  : result (list string) :=
  match normalized_requested with
  | Some req =>
      let forbidden := filter (fun n => n ∉ allowed) req in
      match forbidden with
      | _ :: _ => Err status (prefix ++ PyStr.join ", " forbidden)
      | [] => Ok (filter (fun n => n ∈ allowed) req)
      end
  | None => Ok (sorted_set allowed)
  end.

Definition _resolve_sources_for_request (W : django)
    (adapters : gmap string adapter)
    (requested_sources : option (list string))
    (authorization : option string)
  : result (list string) * gmap string adapter :=
  match _resolve_request_user W authorization with
  | Err st d => (Err st d, adapters)
  | Ok user_payload =>
      let normalized_requested := normalize_requested requested_sources in
      if negb (payload_truthy user_payload) then
        let candidates := _fetch_accessible_sources_for_user W PNone in
        let adapters' :=
          ensure_all adapters
            (filter (fun s => _is_public_source_record s = true) candidates) in
        let public_set : gset string := list_to_set (public_names_of candidates) in
        (check_requested 401 "Authentication required for sources: "
           public_set normalized_requested, adapters')
      else
        let uid := dict_get "user_id" (default [] user_payload) in
        let accessible := _fetch_accessible_sources_for_user W uid in
        let adapters' := ensure_all adapters accessible in
        (check_requested 403 "Access denied for sources: "
           (accessible_names_of accessible) normalized_requested, adapters')
  end.

(** ** Capability negotiation *)

Definition PLUGIN_CONTRACT_VERSION : string := "2026-02-16".

Record capability_features := {
  can_view_public : bool;
  can_view_private : bool;
  can_save_graphs : bool;
  can_share_graphs : bool;
  can_write_back : bool;
  can_manage_sources : bool
}.

Record capability_sources := {
  public : list string;
  private : list string;
  accessible : list string
}.

Record capabilities := {
  contract_version : string;
  authenticated : bool;
  mode : string;
  user : option (pyval * pyval);
  features : capability_features;
  sources : capability_sources
}.

Definition _sorted_unique (values : list string) : list string :=
  sorted_set (list_to_set (filter (fun v => PyStr.nonempty v = true) values)).

Definition list_nonempty {A} (l : list A) : bool :=
  match l with [] => false | _ => true end.

Definition get_capabilities (W : django) (authorization : option string)
  : result capabilities :=
  let validated : result (option user_payload) :=
    match _extract_bearer_token authorization with
    | Some token =>
        if PyStr.nonempty token then
          match _validate_user_token W token with
          | Ok p => Ok (Some p)
          | Err st d => Err st d
          end
        else Ok None
    | None => Ok None
    end in
  match validated with
  | Err st d => Err st d
  | Ok user_payload =>
      let accessible_sources :=
        _fetch_accessible_sources_for_user W
          (if payload_truthy user_payload
           then dict_get "user_id" (default [] user_payload) else PNone) in
      let accessible_names :=
        _sorted_unique
          (map (fun s => _normalize_source_name (src_name s)) accessible_sources) in
      let public_names :=
        _sorted_unique
          (map (fun s => _normalize_source_name (src_name s))
               (filter (fun s => _is_public_source_record s = true)
                       accessible_sources)) in
      let public_set : gset string := list_to_set public_names in
      let private_names :=
        _sorted_unique (filter (fun n => n ∉ public_set) accessible_names) in
      let can_wb :=
        existsb (fun s => src_allow_write_back s
                          && (src_can_admin s || src_can_manage s))
                accessible_sources in
      let can_manage :=
        existsb (fun s => src_can_admin s || src_can_manage s)
                accessible_sources in
      let is_auth := match user_payload with Some _ => true | None => false end in
      Ok {| contract_version := PLUGIN_CONTRACT_VERSION;
            authenticated := is_auth;
            mode := if is_auth then "integrated" else "demo";
            user := match user_payload with
                    | Some p => Some (dict_get "user_id" p, dict_get "username" p)
                    | None => None
                    end;
            features :=
              {| can_view_public := true;
                 can_view_private := is_auth && list_nonempty private_names;
                 can_save_graphs := is_auth;
                 can_share_graphs := is_auth;
                 can_write_back := is_auth && can_wb;
                 can_manage_sources := is_auth && can_manage |};
            sources :=
              {| public := public_names;
                 private := if is_auth then private_names else [];
                 accessible := if is_auth then accessible_names
                               else public_names |} |}
  end.

(** ** Adapters and the endpoints built on them *)

(** What calling into an adapter can do: return, raise [HTTPException],
    or raise any other exception. *)
Inductive outcome (A : Type) : Type :=
| Returned (a : A)
| RaisedHTTP (status : Z) (detail : string)
| Raised (message : string).
Arguments Returned {A} a.
Arguments RaisedHTTP {A} status detail.
Arguments Raised {A} message.

(** Modelled from the spec: the result classes of the [adapters] package
    ([QuickSearchResult], [MapNodeResult], [Relationship]) are not among the
    sources; the fields are those the endpoints read. Scores are finite
    floats, read as rationals. *)
Record QuickSearchResult := {
  qs_label : string;
  qs_id : string;
  qs_description : option string;
  qs_author : option string;
  confidence : option Qc;
  relevance_score : option Qc
}.

Record MapNodeResult := {
  node_id : string;
  node_label : string
}.

Record Relationship := {
  relation_type : string;
  target_node : MapNodeResult
}.

(** The methods of the adapter classes that the endpoints call. *)
Record adapter_api := {
  get_source_config : adapter -> option string;
  get_ui_config : adapter -> ui_config;
  adapter_search : adapter -> string -> nat -> outcome (list QuickSearchResult);
  get_node_details : adapter -> string -> outcome MapNodeResult;
  get_relationships : adapter -> string -> outcome (list Relationship)
}.

(** [AdapterRegistry.get_adapter]. *)
Definition get_adapter (adapters : gmap string adapter) (name : string)
  : outcome adapter :=
  match adapters !! name with
  | Some a => Returned a
  | None => RaisedHTTP 404 ("Data source '" ++ name ++ "' not found")
  end.

(** *** Search *)

Definition score (o : option Qc) : Qc :=
  match o with Some q => q | None => 0%Qc end.

(** The sort key [(x.confidence or 0, x.relevance_score or 0)]. *)
Definition sort_key (x : QuickSearchResult) : Qc * Qc :=
  (score (confidence x), score (relevance_score x)).

(** Python's [<] on such tuples. *)
Definition key_ltb (a b : Qc * Qc) : bool :=
  match (fst a ?= fst b)%Qc with
  | Lt => true
  | Gt => false
  | Eq => match (snd a ?= snd b)%Qc with Lt => true | _ => false end
  end.

Fixpoint insert_desc (x : QuickSearchResult) (l : list QuickSearchResult)
  : list QuickSearchResult :=
  match l with
  | [] => [x]
  | y :: l' =>
      if key_ltb (sort_key x) (sort_key y) then y :: insert_desc x l'
      else x :: l
  end.

(** [l.sort(key=..., reverse=True)]: descending and stable. *)
Definition sort_desc (l : list QuickSearchResult) : list QuickSearchResult :=
  foldr insert_desc [] l.

(** One turn of the fan-out loop: what the source adds to [all_results]. *)
Definition search_one (api : adapter_api) (adapters : gmap string adapter)
    (query : string) (limit : nat) (source_name : string)
  : list QuickSearchResult :=
  match get_adapter adapters source_name with
  | Returned a =>
      match adapter_search api a query limit with
      | Returned results => results
      | _ => []
      end
  | _ => []
  end.

Definition search (W : django) (api : adapter_api)
    (adapters : gmap string adapter) (query : string)
    (sources : option (list string)) (limit : nat)
    (authorization : option string)
  : result (list QuickSearchResult) * gmap string adapter :=
  match _resolve_sources_for_request W adapters sources authorization with
  | (Err st d, adapters') => (Err st d, adapters')
  | (Ok names, adapters') =>
      let all_results :=
        flat_map (search_one api adapters' query limit) names in
      (Ok (take limit (sort_desc all_results)), adapters')
  end.

(** *** Map nodes *)

Record bundled_edge := {
  relatedItemId : string;
  relatedItemLabel : string;
  originalIndex : string
}.

Record edge_bundle := {
  bundle_id : string;
  bundle_label : string;
  bundle_type : string;
  bundle_sourceNode : string;
  bundle_relationType : string;
  bundle_count : nat;
  bundle_bundledEdges : list bundled_edge
}.

Record MapNodeResponse := {
  primary_node : MapNodeResult;
  relationships : list Relationship;
  bundled_edges : list edge_bundle;
  metadata_source : string;
  metadata_query_time : string
}.

(** [relation_groups[rel.relation_type].append(rel)], keys in first-seen
    order. *)
Fixpoint group_add (rel : Relationship)
    (groups : list (string * list Relationship))
  : list (string * list Relationship) :=
  match groups with
  | [] => [(relation_type rel, [rel])]
  | (k, rels) :: groups' =>
      if String.eqb k (relation_type rel) then (k, (rels ++ [rel])%list) :: groups'
      else (k, rels) :: group_add rel groups'
  end.

Definition relation_groups (rels : list Relationship)
  : list (string * list Relationship) :=
  foldl (fun groups rel => group_add rel groups) [] rels.

Definition make_bundle (node : string) (group : string * list Relationship)
  : edge_bundle :=
  let '(rtype, rels) := group in
  {| bundle_id := "bundle_" ++ node ++ "_" ++ PyStr.replace_space rtype;
     bundle_label := rtype ++ " (" ++ pretty (List.length rels) ++ ")";
     bundle_type := "edge-bundle";
     bundle_sourceNode := node;
     bundle_relationType := rtype;
     bundle_count := List.length rels;
     bundle_bundledEdges :=
       imap (fun i rel =>
               {| relatedItemId := node_id (target_node rel);
                  relatedItemLabel := node_label (target_node rel);
                  originalIndex := pretty i |}) rels |}.

Definition make_bundles (node : string) (rels : list Relationship)
  : list edge_bundle :=
  map (make_bundle node)
      (filter (fun g => 1 < List.length (snd g)) (relation_groups rels)).

(** Run an adapter call inside the handler's [try]: an [HTTPException]
    passes through, any other exception becomes a 500. *)
Definition guarded {A B} (o : outcome A) (k : A -> result B) : result B :=
  match o with
  | Returned a => k a
  | RaisedHTTP st d => Err st d
  | Raised m => Err 500 ("Failed to get map nodes: " ++ m)
  end.

Definition get_map_nodes (W : django) (api : adapter_api)
    (adapters : gmap string adapter) (node : string)
    (sources : option (list string)) (authorization : option string)
    (now : string)
  : result MapNodeResponse * gmap string adapter :=
  match _resolve_sources_for_request W adapters sources authorization with
  | (Err st d, adapters') => (Err st d, adapters')
  | (Ok names, adapters') =>
      (if bool_decide (1 < List.length names) then
         Err 400 "Multiple sources not yet supported for map nodes"
       else
         match names with
         | [] => Err 500 "Failed to get map nodes: list index out of range"
         | src :: _ =>
             guarded (get_adapter adapters' src) (fun a =>
             guarded (get_node_details api a node) (fun primary =>
             guarded (get_relationships api a node) (fun rels =>
               Ok {| primary_node := primary;
                     relationships := rels;
                     bundled_edges := make_bundles node rels;
                     metadata_source := src;
                     metadata_query_time := now |})))
         end, adapters')
  end.

(** *** Listing the data sources *)

Record source_payload := {
  sp_id : option Z;
  sp_name : string;
  sp_type : string;
  sp_active : bool;
  sp_description : string;
  sp_display_name : string;
  sp_icon : string;
  sp_color : string;
  sp_can_manage : bool;
  sp_can_admin : bool;
  sp_connection_config : option (list (string * string));
  sp_security_policy : option security_policy
}.

(** The default icon, a chart emoji, as its UTF-8 bytes. *)
Definition default_icon : string :=
  String (ascii_of_N 240) (String (ascii_of_N 159)
    (String (ascii_of_N 147) (String (ascii_of_N 138) EmptyString))).

Definition empty_ui : ui_config :=
  {| ui_description := None; ui_display_name := None;
     ui_icon := None; ui_color := None |}.

(** The dict comprehension [{normalized name: source ...}]: a later
    source replaces an earlier one with the same key. *)
Definition source_records_of (l : list source) : gmap string source :=
  foldl (fun m s => <[_normalize_source_name (src_name s) := s]> m) ∅
        (filter (fun s => PyStr.nonempty (PyStr.or_empty (src_name s)) = true) l).

Definition make_source_payload (api : adapter_api)
    (adapters : gmap string adapter) (records : gmap string source)
    (source_name : string) : option source_payload :=
  match records !! source_name with
  | None => None
  | Some source_record =>
      let '(config_type, ui) :=
        match adapters !! source_name with
        | Some a => (get_source_config api a, get_ui_config api a)
        | None =>
            (Some (default "unknown"
                     (or_str (or_str (src_source_type source_record)
                                     (src_type source_record)) None)),
             default empty_ui (src_ui_config source_record))
        end in
      let can_manage := src_can_manage source_record in
      let is_ontop := bool_decide (source_name = "ontop") && can_manage in
      Some {|
        sp_id := src_id source_record;
        sp_name := source_name;
        sp_type := default (default "unknown" config_type)
                     (or_str (src_source_type source_record) None);
        sp_active := true;
        sp_description :=
          default (default (source_name ++ " data source") (ui_description ui))
                  (or_str (src_description source_record) None);
        sp_display_name :=
          default (default source_name (or_str (src_name source_record) None))
                  (ui_display_name ui);
        sp_icon := default default_icon (ui_icon ui);
        sp_color := default "#000000" (ui_color ui);
        sp_can_manage := can_manage;
        sp_can_admin := src_can_admin source_record;
        sp_connection_config :=
          if is_ontop then Some (src_connection_config source_record) else None;
        sp_security_policy :=
          if is_ontop then Some (policy_of source_record) else None
      |}
  end.

Definition get_data_sources (W : django) (api : adapter_api)
    (adapters : gmap string adapter) (authorization : option string)
  : result (list source_payload) * gmap string adapter :=
  match _resolve_request_user W authorization with
  | Err st d => (Err st d, adapters)
  | Ok user_payload =>
      let '(source_records, adapters') :=
        if payload_truthy user_payload then
          let accessible_sources :=
            _fetch_accessible_sources_for_user W
              (dict_get "user_id" (default [] user_payload)) in
          (source_records_of accessible_sources,
           ensure_all adapters accessible_sources)
        else
          let candidates := _fetch_accessible_sources_for_user W PNone in
          let public_sources :=
            filter (fun s => _is_public_source_record s = true) candidates in
          (source_records_of public_sources, ensure_all adapters public_sources)
      in
      let source_names := sorted_set (dom source_records) in
      (Ok (omap (make_source_payload api adapters' source_records) source_names),
       adapters')
  end.

(** ** Query classification and the per-backend gates *)

(** [re.match(r"^\s*(prefix|select|ask|construct|describe)\b", query_text,
    flags=re.IGNORECASE)]. *)
Definition _is_sparql_query (query_text : Uni.text) : bool :=
  existsb (fun kw => Uni.match_keyword kw query_text)
          ["prefix"; "select"; "ask"; "construct"; "describe"].

Definition _is_sql_select (query_text : Uni.text) : bool :=
  Uni.match_keyword "select" query_text
  && negb (Uni.contains (Uni.of_string ";") query_text).

Fixpoint remove_chars (drop : ascii -> bool) (s : string) : string :=
  match s with
  | EmptyString => EmptyString
  | String c s' =>
      if drop c then remove_chars drop s' else String c (remove_chars drop s')
  end.

Definition is_wildcard (c : ascii) : bool :=
  Ascii.eqb c "%" || Ascii.eqb c "*" || Ascii.eqb c "_".

Definition _to_term_from_pattern (pattern : string) : string :=
  remove_chars is_wildcard (PyStr.lower (PyStr.strip pattern)).

Definition _query_mentions_admin_term (query_text : string)
    (terms : list string) : bool :=
  let lowered := PyStr.lower query_text in
  existsb (fun term =>
             let normalized := PyStr.lower (PyStr.strip term) in
             PyStr.nonempty normalized && PyStr.contains normalized lowered)
          terms.

(** *** Outbound calls *)

Inductive http_request : Type :=
| PostSql (url : string) (sql : Uni.text) (user_id : pyval)
| PostSparql (url query : string).

Definition row : Type := list (string * option string).

(** The parts of a decoded response body that the handlers read. *)
Record json_body := {
  sql_results : option (list row);
  sql_total : option Z;
  sparql_bindings : list row
}.

Record http_response := {
  status_code : Z;
  text : string;
  content_type : string;
  json : json_body + string
}.

(** The HTTP client: a response, or the message of the exception raised. *)
Definition http_client : Type := http_request -> http_response + string.

Inductive envelope : Type :=
| ErrorEnvelope (error detail : string)
| SuccessEnvelope (results : list row) (total : Z) (source_type : string).

Definition DJANGO_API_URL : string := "http://django:8000".

(** Each query handler returns its envelope with the outbound calls it
    made, in order. The [execution_time] entry, a wall-clock difference,
    is left out. The relational handler does nothing with its query text
    but classify it and pass it on, so that text ranges over all code
    points. *)
Definition query_django_db (client : http_client) (sql : Uni.text)
    (user_info : user_payload) : envelope * list http_request :=
  if negb (_is_sql_select sql) then
    (ErrorEnvelope "Unsupported query"
       "Only single SELECT SQL is supported for django_db", [])
  else
    let req := PostSql (DJANGO_API_URL ++ "/api/internal/sql-query/") sql
                 (dict_get "user_id" user_info) in
    (match client req with
     | inr message => ErrorEnvelope "Django query failed" message
     | inl response =>
         if negb (status_code response =? 200)%Z then
           ErrorEnvelope "Query failed" (text response)
         else
           match json response with
           | inr message => ErrorEnvelope "Django query failed" message
           | inl data =>
               SuccessEnvelope (default [] (sql_results data))
                               (default 0%Z (sql_total data)) "django_db"
           end
     end, [req]).

(** [s.rstrip("/")]. *)
Fixpoint rstrip_slash (s : string) : string :=
  match s with
  | EmptyString => EmptyString
  | String c s' =>
      match rstrip_slash s' with
      | EmptyString => if Ascii.eqb c "/" then EmptyString else String c EmptyString
      | r => String c r
      end
  end.

Definition ends_with (suffix s : string) : bool :=
  String.prefix (String.rev suffix) (String.rev s).

(** [a.get(k1) or a.get(k2) or ...] on a connection dict. *)
Fixpoint first_truthy (keys : list string) (d : list (string * string))
  : option string :=
  match keys with
  | [] => None
  | k :: keys' =>
      match or_str (assoc_get k d) None with
      | Some v => Some v
      | None => first_truthy keys' d
      end
  end.

(** The terms [query_ontop] checks: the explicit list when it is not
    empty, otherwise the non-empty terms derived from the patterns. *)
Definition admin_only_terms_of (p : security_policy) : list string :=
  if list_nonempty (admin_only_sparql_terms p) then admin_only_sparql_terms p
  else
    filter (fun term => PyStr.nonempty term = true)
           (map _to_term_from_pattern (admin_only_table_patterns p)).

Definition query_ontop (client : http_client) (sparql : string)
    (user_info : user_payload) (source_data : source)
  : envelope * list http_request :=
  if negb (_is_sparql_query (Uni.of_string sparql)) then
    (ErrorEnvelope "Unsupported query" "Ontop expects SPARQL query text", [])
  else
    let admin_only_terms := admin_only_terms_of (policy_of source_data) in
    if list_nonempty admin_only_terms && negb (src_can_admin source_data)
       && _query_mentions_admin_term sparql admin_only_terms
    then
      (ErrorEnvelope "Ontop policy restriction"
         "This query targets admin-only mapped tables and requires datasource admin rights.",
       [])
    else
      let ontop_endpoint :=
        default "http://ontop:8080/sparql"
          (first_truthy ["endpoint"; "endpoint_url"; "api_url"]
             (src_connection_config source_data)) in
      let query_url := rstrip_slash ontop_endpoint in
      let query_url :=
        if negb (ends_with "/sparql" query_url)
           && negb (ends_with "/query" query_url)
        then query_url ++ "/sparql" else query_url in
      let req := PostSparql query_url sparql in
      (match client req with
       | inr message => ErrorEnvelope "Ontop query failed" message
       | inl response =>
           if negb (status_code response =? 200)%Z then
             ErrorEnvelope "Ontop query failed" (text response)
           else if String.prefix "application/sparql-results+json"
                     (content_type response) then
             match json response with
             | inr message => ErrorEnvelope "Ontop query failed" message
             | inl data =>
                 SuccessEnvelope (sparql_bindings data)
                   (Z.of_nat (List.length (sparql_bindings data))) "ontop"
             end
           else SuccessEnvelope [] 0%Z "ontop"
       end, [req]).

(** ** The write-back workflow (Django views) *)

Module Workflow.

(** A decoded JSON value. A float is given by the text [str] prints for
    it; an object by its entries, one for each key. *)
#[local] Unset Elimination Schemes.
Inductive json_value : Type :=
| JNull
| JBool (b : bool)
| JNum (z : Z)
| JFloat (printed : string)
| JStr (s : string)
| JArr (l : list json_value)
| JObj (l : list (string * json_value)).
#[local] Set Elimination Schemes.

(** [isinstance(v, dict)]. *)
Definition is_dict (v : json_value) : bool :=
  match v with JObj _ => true | _ => false end.

Record User := {
  user_pk : Z;
  user_username : string;
  is_superuser : bool
}.

Record DataSource := {
  ds_pk : Z;
  ds_name : string;
  ds_is_active : bool;
  ds_allow_write_back : bool
}.

Record DataSourcePermission := {
  perm_data_source : Z;
  perm_user : Z;
  permission : string
}.

(** A stored request. [wb_primary_key] is the value the view hands to
    the field, as it came with the body. *)
Record WriteBackRequest := {
  wb_id : Z;
  wb_data_source : Z;
  wb_requested_by : Z;
  wb_operation : string;
  wb_table_name : string;
  wb_primary_key : json_value;
  wb_old_values : option json_value;
  wb_new_values : json_value;
  wb_status : string;
  wb_approved_by : option Z;
  wb_approved_at : option Z;
  wb_rejection_reason : string
}.

(** The tables the views read and write; [next_id] is the primary-key
    sequence of the request table. *)
Record database := {
  data_sources : list DataSource;
  permissions : list DataSourcePermission;
  write_back_requests : list WriteBackRequest;
  next_id : Z
}.

(** How the ORM reads a value given as primary key in a lookup: as an
    integer key, as a value no row can have, or not at all, raising an
    exception. *)
Inductive pk_reading : Type :=
| PkKey (z : Z)
| PkNoRow
| PkRefused.

(** What the creation view takes from outside the sources: [repr_rest v]
    is the text [str] prints for the list or dict [v] after its opening
    bracket, and [orm_pk v] is the ORM's reading of the value [v] given as
    [pk] to [DataSource.objects.get]. *)
Record runtime := {
  repr_rest : json_value -> string;
  orm_pk : json_value -> pk_reading
}.

(** [str(v)]. *)
Definition py_str (rt : runtime) (v : json_value) : string :=
  match v with
  | JNull => "None"
  | JBool true => "True"
  | JBool false => "False"
  | JNum z => pretty z
  | JFloat printed => printed
  | JStr s => s
  | JArr _ => "[" ++ repr_rest rt v
  | JObj _ => "{" ++ repr_rest rt v
  end.

Record approve_body := {
  body_action : option string;
  body_reason : option string
}.

(** A JSON answer of a view, or the server error that an exception
    escaping the view ends in. *)
Inductive response : Type :=
| JsonError (status : Z) (error : string)
| JsonCreated (id : Z) (status operation : string)
| JsonTransition (id : Z) (status approved_by : string) (approved_at : Z)
| ServerError.

Definition is_ident_start (c : ascii) : bool :=
  let n := PyStr.code c in
  ((65 <=? n) && (n <=? 90) || (97 <=? n) && (n <=? 122) || (n =? 95))%N.

Definition is_ident_char (c : ascii) : bool :=
  let n := PyStr.code c in
  is_ident_start c || ((48 <=? n) && (n <=? 57))%N.

(** [re.fullmatch(r'[A-Za-z_][A-Za-z0-9_]*', s)]. *)
Definition is_identifier (s : string) : bool :=
  match s with
  | EmptyString => false
  | String c s' => is_ident_start c && PyStr.all_chars is_ident_char s'
  end.

Definition valid_operation (op : string) : bool :=
  String.eqb op "insert" || String.eqb op "update" || String.eqb op "delete".

(** [payload.get(key)] on a dict. *)
Fixpoint obj_get (key : string) (entries : list (string * json_value))
  : option json_value :=
  match entries with
  | [] => None
  | (k, v) :: entries' =>
      if String.eqb k key then Some v else obj_get key entries'
  end.

(** [field in payload], by the kind of value the body decoded to: a key
    of a dict, an element of a list, a part of a string. [None] stands
    for the [TypeError] that any other value raises. *)
Definition has_field (payload : json_value) (field : string) : option bool :=
  match payload with
  | JObj entries => Some (if obj_get field entries is Some _ then true else false)
  | JArr items =>
      Some (existsb (fun v => if v is JStr s then String.eqb s field else false)
                    items)
  | JStr s => Some (PyStr.contains field s)
  | _ => None
  end.

Definition required : list string :=
  ["source_id"; "operation"; "table_name"; "new_values"].

(** [[field for field in required if field not in payload]]. *)
Definition missing_fields (payload : json_value) : option (list string) :=
  match has_field payload "" with
  | None => None
  | Some _ =>
      Some (List.filter
              (fun field => negb (default false (has_field payload field)))
              required)
  end.

(** [DataSourcePermission.objects.filter(data_source=.., user=..,
    permission__in=kinds).exists()]. *)
Definition has_permission (db : database) (source_pk user : Z)
    (kinds : list string) : bool :=
  existsb (fun p => (perm_data_source p =? source_pk)%Z
                    && (perm_user p =? user)%Z
                    && existsb (String.eqb (permission p)) kinds)
          (permissions db).

Definition find_active_source (db : database) (pk : Z) : option DataSource :=
  find (fun d => (ds_pk d =? pk)%Z && ds_is_active d) (data_sources db).

(** [payload.get('old_values')], with JSON [null] read as [None]. *)
Definition get_old_values (entries : list (string * json_value))
  : option json_value :=
  match obj_get "old_values" entries with
  | Some JNull | None => None
  | Some v => Some v
  end.

(** The operation and the table name as the view checks and stores
    them. *)
Definition operation_of (rt : runtime) (entries : list (string * json_value))
  : string :=
  PyStr.lower (PyStr.strip
    (py_str rt (default (JStr "") (obj_get "operation" entries)))).

Definition table_name_of (rt : runtime)
    (entries : list (string * json_value)) : string :=
  PyStr.strip (py_str rt (default (JStr "") (obj_get "table_name" entries))).

(** The view from the first use of [payload.get] on, for a body that is
    a dict with the required keys. *)
Definition create_from_dict (rt : runtime) (db : database) (user : User)
    (entries : list (string * json_value)) : response * database :=
  let operation := operation_of rt entries in
  let table_name := table_name_of rt entries in
  let new_values := default JNull (obj_get "new_values" entries) in
  if negb (valid_operation operation) then
    (JsonError 400 "Invalid operation", db)
  else if negb (is_identifier table_name) then
    (JsonError 400 "Invalid table_name", db)
  else if negb (is_dict new_values) then
    (JsonError 400 "new_values must be an object", db)
  else if match get_old_values entries with
          | Some v => negb (is_dict v)
          | None => false
          end then
    (JsonError 400 "old_values must be an object", db)
  else
    match orm_pk rt (default JNull (obj_get "source_id" entries)) with
    | PkRefused => (ServerError, db)
    | PkNoRow => (JsonError 404 "Data source not found", db)
    | PkKey pk =>
        match find_active_source db pk with
        | None => (JsonError 404 "Data source not found", db)
        | Some src =>
            if negb (ds_allow_write_back src) then
              (JsonError 403 "Write-back not enabled for this source", db)
            else if negb (is_superuser user
                          || has_permission db (ds_pk src) (user_pk user)
                               ["write_back"; "admin"]) then
              (JsonError 403 "Permission denied", db)
            else
              let request_obj :=
                {| wb_id := next_id db;
                   wb_data_source := ds_pk src;
                   wb_requested_by := user_pk user;
                   wb_operation := operation;
                   wb_table_name := table_name;
                   wb_primary_key :=
                     default (JStr "") (obj_get "primary_key" entries);
                   wb_old_values := get_old_values entries;
                   wb_new_values := new_values;
                   wb_status := "pending";
                   wb_approved_by := None;
                   wb_approved_at := None;
                   wb_rejection_reason := "" |} in
              (JsonCreated (wb_id request_obj) (wb_status request_obj)
                 (wb_operation request_obj),
               {| data_sources := data_sources db;
                  permissions := permissions db;
                  write_back_requests :=
                    (write_back_requests db ++ [request_obj])%list;
                  next_id := (next_id db + 1)%Z |})
        end
    end.

(** [body] is what [_parse_json_body] returns: [None] when decoding the
    request body raises [JSONDecodeError], the decoded value otherwise. [user] is the
    effective user of the request, as [_get_effective_user] resolves it.
    A body that is no dict passes the test for missing fields when it is
    a list or a string that holds the four names, and then fails at
    [payload.get]. *)
Definition create_write_back_request (rt : runtime) (db : database)
    (user : User) (body : option json_value) : response * database :=
  match body with
  | None | Some JNull => (JsonError 400 "Invalid JSON", db)
  | Some payload =>
      match missing_fields payload with
      | None => (ServerError, db)
      | Some [] =>
          match payload with
          | JObj entries => create_from_dict rt db user entries
          | _ => (ServerError, db)
          end
      | Some missing =>
          (JsonError 400
             ("Missing required fields: " ++ PyStr.join ", " missing), db)
      end
  end.

Definition find_request (db : database) (pk : Z) : option WriteBackRequest :=
  find (fun r => (wb_id r =? pk)%Z) (write_back_requests db).

(** [req.save(update_fields=[...])]: the row with this key takes the
    new field values. *)
Definition save_request (db : database) (r : WriteBackRequest) : database :=
  {| data_sources := data_sources db;
     permissions := permissions db;
     write_back_requests :=
       map (fun r' => if (wb_id r' =? wb_id r)%Z then r else r')
           (write_back_requests db);
     next_id := next_id db |}.

(** [body] is [None] when the request body is not valid JSON. [now] is
    the clock reading used for [approved_at]. *)
Definition approve_write_back_request (db : database) (user : User)
    (request_id : Z) (body : option approve_body) (now : Z)
  : response * database :=
  match find_request db request_id with
  | None => (JsonError 404 "Request not found", db)
  | Some req =>
      if negb (is_superuser user
               || has_permission db (wb_data_source req) (user_pk user)
                    ["admin"]) then
        (JsonError 403 "Permission denied", db)
      else
        let payload :=
          default {| body_action := None; body_reason := None |} body in
        let action :=
          PyStr.lower (default "approve" (or_str (body_action payload) None)) in
        if negb (String.eqb (wb_status req) "pending"
                 || String.eqb (wb_status req) "approved") then
          (JsonError 400
             ("Cannot process request in status " ++ wb_status req), db)
        else
          let '(new_status, new_reason) :=
            if String.eqb action "reject"
            then ("rejected", default "Rejected by approver" (body_reason payload))
            else ("approved", "") in
          let req' :=
            {| wb_id := wb_id req;
               wb_data_source := wb_data_source req;
               wb_requested_by := wb_requested_by req;
               wb_operation := wb_operation req;
               wb_table_name := wb_table_name req;
               wb_primary_key := wb_primary_key req;
               wb_old_values := wb_old_values req;
               wb_new_values := wb_new_values req;
               wb_status := new_status;
               wb_approved_by := Some (user_pk user);
               wb_approved_at := Some now;
               wb_rejection_reason := new_reason |} in
          (JsonTransition (wb_id req') (wb_status req') (user_username user) now,
           save_request db req')
  end.


End Workflow.

(** ** More string operations *)

Module PyMore.

(** [str.upper] on one character. The upper-case forms of the code
    points 181, 223 and 255 lie outside the range (or are two characters);
    these three are kept, which no comparison with ASCII text can see. *)
Definition upper_char (c : ascii) : ascii :=
  let n := PyStr.code c in
  if ((97 <=? n) && (n <=? 122)
      || (224 <=? n) && (n <=? 254) && negb (n =? 247))%N
  then ascii_of_N (n - 32) else c.

Definition upper (s : string) : string := PyStr.map_chars upper_char s.

(** [s.startswith(p)]. *)
Definition starts_with (p s : string) : bool := String.prefix p s.

(** [s.replace(old, new)] for a non-empty [old]: occurrences are taken
    from the left and do not overlap; [skip] counts the characters of the
    occurrence just replaced that are still to be passed over. *)
Fixpoint replace_go (old new : string) (skip : nat) (s : string) : string :=
  match s with
  | EmptyString => EmptyString
  | String c s' =>
      match skip with
      | S k => replace_go old new k s'
      | O =>
          if String.prefix old s
          then new ++ replace_go old new (String.length old - 1) s'
          else String c (replace_go old new 0 s')
      end
  end.

Definition replace (old new s : string) : string := replace_go old new 0 s.

(** [s.split(sep, 1)] for a one-character separator that occurs in
    [s]: the text before and the text after its first occurrence. *)
Fixpoint split_first (sep : ascii) (s : string) : option (string * string) :=
  match s with
  | EmptyString => None
  | String c s' =>
      if Ascii.eqb c sep then Some (EmptyString, s')
      else match split_first sep s' with
           | Some (a, b) => Some (String c a, b)
           | None => None
           end
  end.

End PyMore.

(** ** The remaining query handlers *)

Definition query_oxigraph (client : http_client) (sparql : string)
    (user_info : user_payload) (source_data : source)
  : envelope * list http_request :=
  if negb (_is_sparql_query (Uni.of_string sparql)) then
    (ErrorEnvelope "Unsupported query" "Oxigraph expects SPARQL query text", [])
  else
    let oxigraph_endpoint :=
      default "http://oxigraph:7878/query"
        (first_truthy ["endpoint"; "endpoint_url"; "api_url"]
           (src_connection_config source_data)) in
    let query_url := rstrip_slash oxigraph_endpoint in
    let query_url :=
      if negb (ends_with "/sparql" query_url)
         && negb (ends_with "/query" query_url)
      then query_url ++ "/query" else query_url in
    let req := PostSparql query_url sparql in
    (match client req with
     | inr message => ErrorEnvelope "Oxigraph query failed" message
     | inl response =>
         if negb (status_code response =? 200)%Z then
           ErrorEnvelope "Oxigraph query failed" (text response)
         else
           let source_type :=
             default "oxigraph"
               (or_str (or_str (src_type source_data)
                               (src_source_type source_data)) None) in
           let source_type :=
             if String.eqb source_type "fuseki" then "oxigraph"
             else source_type in
           if String.prefix "application/sparql-results+json"
                (content_type response) then
             match json response with
             | inr message => ErrorEnvelope "Oxigraph query failed" message
             | inl data =>
                 SuccessEnvelope (sparql_bindings data)
                   (Z.of_nat (List.length (sparql_bindings data))) source_type
             end
           else SuccessEnvelope [] 0%Z source_type
     end, [req]).

(** What the unified query endpoint answers: an error, rows of a
    structured query, or the hits of an adapter search. *)
Inductive reply : Type :=
| ReplyError (error : string) (detail : option string)
| ReplyRows (results : list row) (total : Z) (source_type : string)
| ReplyHits (results : list QuickSearchResult) (total : Z)
    (source_type : option string).

Definition reply_of_envelope (e : envelope) : reply :=
  match e with
  | ErrorEnvelope error detail => ReplyError error (Some detail)
  | SuccessEnvelope results total source_type =>
      ReplyRows results total source_type
  end.

(** [str(exc)] for an exception raised by an adapter call; [render] is
    the text of an [HTTPException], which the framework defines. *)
Definition exception_text {A} (render : Z -> string -> string)
    (o : outcome A) : string :=
  match o with
  | Returned _ => ""
  | RaisedHTTP status detail => render status detail
  | Raised message => message
  end.

(** A call to a query backend: an HTTP request of a handler, or a search
    run through an adapter. *)
Inductive backend_call : Type :=
| Http (request : http_request)
| AdapterSearch (a : adapter) (text : string) (limit : nat).

(** The handler returns its reply and the backend calls it made, in
    order. *)
Definition query_external_api (api : adapter_api)
    (render : Z -> string -> string) (adapters : gmap string adapter)
    (client : http_client) (sparql : string) (user_info : user_payload)
    (source_data : source) : reply * list backend_call :=
  let connection_config := src_connection_config source_data in
  let source_name :=
    PyStr.lower (PyStr.or_empty (or_str (src_name source_data) None)) in
  let api_url := default "" (assoc_get "api_url" connection_config) in
  let is_wikidata :=
    PyStr.contains "wikidata" source_name || PyStr.contains "wikidata" api_url in
  if is_wikidata && _is_sparql_query (Uni.of_string sparql) then
    let wd_sparql :=
      PyMore.replace "knowbrow:" "http://www.wikidata.org/entity/" sparql in
    let sparql_url :=
      default "https://query.wikidata.org/sparql"
        (assoc_get "sparql_url" connection_config) in
    let req := PostSparql sparql_url wd_sparql in
    (match client req with
     | inr message => ReplyError "External API query failed" (Some message)
     | inl response =>
         if negb (status_code response =? 200)%Z then
           ReplyError "External API query failed" (Some (text response))
         else
           match json response with
           | inr message => ReplyError "External API query failed" (Some message)
           | inl data =>
               ReplyRows (sparql_bindings data)
                 (Z.of_nat (List.length (sparql_bindings data))) "external_api"
           end
     end, [Http req])
  else if is_wikidata then
    match get_adapter adapters "wikidata" with
    | Returned a =>
        (match adapter_search api a sparql 20 with
         | Returned results =>
             ReplyHits results (Z.of_nat (List.length results))
               (Some "external_api")
         | failure =>
             ReplyError "External API query failed"
               (Some (exception_text render failure))
         end, [AdapterSearch a sparql 20])
    | failure =>
        (ReplyError "External API query failed"
           (Some (exception_text render failure)), [])
    end
  else
    (ReplyError "Unsupported API"
       (Some "Only Wikidata external API is currently supported"), []).

(** ** The unified query endpoint *)

(** Modelled from the spec: the request class [QueryRequest] of
    [multi_source] is not among the sources; the fields are those
    [unified_query] reads. *)
Record QueryRequest := {
  rq_token : string;
  rq_source_id : Z;
  rq_query : string;
  rq_query_type : string
}.

(** [detail_endpoint id hdr] is Django's answer to the detail request for
    source [id] sent with the [X-User-ID] header [hdr]; [None] when it is not
    a 200. *)
Definition _fetch_data_source_for_user
    (detail_endpoint : Z -> option pyval -> option source)
    (source_id : Z) (user_id : pyval) : result source :=
  let header := if truthy user_id then Some user_id else None in
  match detail_endpoint source_id header with
  | Some s => Ok s
  | None =>
      Err 404 ("Data source " ++ pretty source_id ++ " not found or inaccessible")
  end.

(** The request asks for the adapter's free-text search. *)
Definition wants_search (request : QueryRequest) : bool :=
  String.eqb (PyMore.upper (rq_query_type request)) "SEARCH"
  || PyMore.starts_with "search:" (PyStr.lower (rq_query request)).

(** The text handed to the adapter; [None] stands for the [IndexError]
    of [split(":", 1)[1]]. *)
Definition search_text_of (request : QueryRequest) : option string :=
  if PyMore.starts_with "search:" (PyStr.lower (rq_query request)) then
    match PyMore.split_first ":" (rq_query request) with
    | Some (_, rest) => Some (PyStr.strip rest)
    | None => None
    end
  else Some (rq_query request).

(** [str(source_type)] in the message for an unsupported type. *)
Definition str_opt (o : option string) : string :=
  match o with Some s => s | None => "None" end.

Definition type_in (source_type : option string) (kinds : list string) : bool :=
  match source_type with
  | Some t => existsb (String.eqb t) kinds
  | None => false
  end.

(** The endpoint returns its reply, the adapter registry it leaves and
    the calls it made to the query backends, in order; its two requests to
    Django, for the token and for the source, are not among them. A source
    record whose name is [None] is read as one without a name key.
    Transport failures towards Django itself are outside the model. *)
Definition unified_query (W : django)
    (detail_endpoint : Z -> option pyval -> option source)
    (api : adapter_api) (render : Z -> string -> string)
    (client : http_client) (adapters : gmap string adapter)
    (request : QueryRequest)
  : reply * gmap string adapter * list backend_call :=
  match _validate_user_token W (rq_token request) with
  | Err _ detail => (ReplyError detail None, adapters, [])
  | Ok user_payload =>
      let user_id := dict_get "user_id" user_payload in
      match _fetch_data_source_for_user detail_endpoint
              (rq_source_id request) user_id with
      | Err _ detail => (ReplyError detail None, adapters, [])
      | Ok source_data =>
          let adapters' := _ensure_adapter_for_source adapters source_data in
          let source_type :=
            or_str (src_type source_data) (src_source_type source_data) in
          if wants_search request then
            match search_text_of request with
            | None =>
                (ReplyError "Internal error" (Some "list index out of range"),
                 adapters', [])
            | Some search_text =>
                let source_name :=
                  _normalize_source_name (src_name source_data) in
                match get_adapter adapters' source_name with
                | Returned a =>
                    (match adapter_search api a search_text 20 with
                     | Returned results =>
                         ReplyHits results (Z.of_nat (List.length results))
                           source_type
                     | failure =>
                         ReplyError "Search failed"
                           (Some (exception_text render failure))
                     end, adapters', [AdapterSearch a search_text 20])
                | failure =>
                    (ReplyError "Search failed"
                       (Some (exception_text render failure)), adapters', [])
                end
            end
          else if type_in source_type ["django_db"] then
            let '(e, calls) :=
              query_django_db client (Uni.of_string (rq_query request))
                user_payload in
            (reply_of_envelope e, adapters', map Http calls)
          else if type_in source_type ["fuseki"; "oxigraph"] then
            let '(e, calls) :=
              query_oxigraph client (rq_query request) user_payload source_data in
            (reply_of_envelope e, adapters', map Http calls)
          else if type_in source_type ["external_api"] then
            let '(r, calls) :=
              query_external_api api render adapters' client
                (rq_query request) user_payload source_data in
            (r, adapters', calls)
          else if type_in source_type ["ontop"] then
            let '(e, calls) :=
              query_ontop client (rq_query request) user_payload source_data in
            (reply_of_envelope e, adapters', map Http calls)
          else
            (ReplyError "Unsupported source"
               (Some ("Source type " ++ str_opt source_type ++ " not supported")),
             adapters', [])
      end
  end.

(** ** More Django views *)

Module Views.

(** A row of the user table: the user and its [is_active] flag. *)
Record account := {
  acct_user : Workflow.User;
  acct_active : bool
}.

(** [User.objects.filter(pk=pk, is_active=True).first()]. *)
Definition find_active_user (users : list account) (pk : Z)
  : option Workflow.User :=
  acct_user <$>
    find (fun a => (Workflow.user_pk (acct_user a) =? pk)%Z && acct_active a)
         users.

(** [parse_int] stands for Python's [int] on a header value; [None] is
    its [ValueError]. *)
Definition _get_effective_user (parse_int : string -> option Z)
    (users : list account) (request_user : Workflow.User)
    (x_user_id : option string) : Workflow.User :=
  match x_user_id with
  | Some requested_user_id =>
      if PyStr.nonempty requested_user_id
         && Workflow.is_superuser request_user then
        match parse_int requested_user_id with
        | Some pk =>
            match find_active_user users pk with
            | Some user => user
            | None => request_user
            end
        | None => request_user
        end
      else request_user
  | None => request_user
  end.

Inductive detail_response : Type :=
| DetailError (status : Z) (error : string)
| DetailOk (req : Workflow.WriteBackRequest).

(** [user] is the effective user. The answer carries the stored
    request; the names read through its foreign keys are left out. *)
Definition write_back_request_detail (db : Workflow.database)
    (user : Workflow.User) (request_id : Z) : detail_response :=
  match Workflow.find_request db request_id with
  | None => DetailError 404 "Request not found"
  | Some req =>
      if Workflow.is_superuser user
         || (Workflow.wb_requested_by req =? Workflow.user_pk user)%Z
         || Workflow.has_permission db (Workflow.wb_data_source req)
              (Workflow.user_pk user) ["admin"]
      then DetailOk req
      else DetailError 403 "Permission denied"
  end.

(** [expected] is the [INTERNAL_API_KEY] of the environment, [provided]
    the [X-Internal-API-Key] header, empty when absent. *)
Definition _has_valid_internal_key (expected provided : string) : bool :=
  if negb (PyStr.nonempty expected) then false
  else String.eqb provided expected.

(** *** The read-only SQL endpoint *)

(** The pieces the blocked patterns are made of: a literal text, a run
    of at least [min] white-space characters, and a word boundary. *)
Inductive atom : Type :=
| Lit (s : string)
| Blanks (min : nat)
| Boundary.

Definition blocked_patterns : list (list atom) :=
  [ [Boundary; Lit "pg_read_file"; Blanks 0; Lit "("];
    [Boundary; Lit "pg_ls_dir"; Blanks 0; Lit "("];
    [Boundary; Lit "pg_sleep"; Blanks 0; Lit "("];
    [Boundary; Lit "dblink"; Blanks 0; Lit "("];
    [Boundary; Lit "copy"; Boundary];
    [Boundary; Lit "into"; Blanks 1; Lit "outfile"; Boundary] ].

Definition word_at (c : option ascii) : bool :=
  match c with Some c => PyStr.is_word c | None => false end.

Definition head_char (s : string) : option ascii :=
  match s with String c _ => Some c | EmptyString => None end.

(** Match the literal [l] at the head of [s]; the last character
    passed and the rest of [s]. *)
Fixpoint strip_exact (l : string) (prev : option ascii) (s : string)
  : option (option ascii * string) :=
  match l with
  | EmptyString => Some (prev, s)
  | String a l' =>
      match s with
      | EmptyString => None
      | String c s' =>
          if Ascii.eqb a c then strip_exact l' (Some c) s' else None
      end
  end.

(** Pass over [min] or more white-space characters, then go on with
    [k]; every number of characters is tried. *)
Fixpoint blanks_then (k : option ascii -> string -> bool) (min : nat)
    (prev : option ascii) (s : string) : bool :=
  (match min with O => k prev s | S _ => false end)
  || match s with
     | EmptyString => false
     | String c s' =>
         PyStr.is_space c && blanks_then k (Nat.pred min) (Some c) s'
     end.

(** The pattern matches at the head of [s]; [prev] is the character
    before it. *)
Fixpoint match_here (atoms : list atom) (prev : option ascii) (s : string)
  : bool :=
  match atoms with
  | [] => true
  | Lit l :: rest =>
      match strip_exact l prev s with
      | Some (prev', s') => match_here rest prev' s'
      | None => false
      end
  | Blanks min :: rest => blanks_then (match_here rest) min prev s
  | Boundary :: rest =>
      xorb (word_at prev) (word_at (head_char s)) && match_here rest prev s
  end.

(** [re.search(pattern, s)], from the position after [prev]. *)
Fixpoint search_from (atoms : list atom) (prev : option ascii) (s : string)
  : bool :=
  match_here atoms prev s
  || match s with
     | EmptyString => false
     | String c s' => search_from atoms (Some c) s'
     end.

(** [re.sub(r'\s+', ' ', s)]. [in_run] says that the character before
    was white space. *)
Fixpoint collapse_blanks (in_run : bool) (s : string) : string :=
  match s with
  | EmptyString => EmptyString
  | String c s' =>
      if PyStr.is_space c then
        if in_run then collapse_blanks true s'
        else String " " (collapse_blanks true s')
      else String c (collapse_blanks false s')
  end.

Inductive statement : Type :=
| SetStatementTimeout (milliseconds : Z)
| Execute (sql : string).

Inductive sql_response : Type :=
| SqlError (status : Z) (error : string)
| SqlRows (results : list row) (total : Z).

(** The request as the view reads it: the key header, and the [sql]
    entry of the body; a body that is not JSON is [None], a body without
    [sql] has [Some None]. *)
Record sql_request := {
  sq_key : string;
  sq_body : option (option string)
}.

(** [run] is the database: the rows a statement returns, or the text
    of the exception it raises. The view returns its answer and the
    statements it sent, in order. *)
Definition sql_query (expected_key : string)
    (run : string -> list row + string) (request : sql_request)
  : sql_response * list statement :=
  if negb (_has_valid_internal_key expected_key (sq_key request)) then
    (SqlError 403 "Forbidden", [])
  else
    match sq_body request with
    | None => (SqlError 400 "Invalid JSON", [])
    | Some payload =>
        let sql := PyStr.strip (PyStr.or_empty (or_str payload None)) in
        if negb (PyStr.nonempty sql) then (SqlError 400 "Missing SQL", [])
        else
          let lowered := PyStr.lower sql in
          if negb (PyMore.starts_with "select" lowered) then
            (SqlError 400 "Only SELECT queries are allowed", [])
          else if PyStr.contains ";" sql then
            (SqlError 400 "Multiple statements are not allowed", [])
          else
            let normalized := collapse_blanks false lowered in
            if existsb (fun pattern => search_from pattern None normalized)
                 blocked_patterns then
              (SqlError 400 "Query contains blocked SQL pattern", [])
            else
              (match run sql with
               | inl rows => SqlRows rows (Z.of_nat (List.length rows))
               | inr message => SqlError 400 message
               end,
               [SetStatementTimeout 5000; Execute sql])
    end.

(** *** The list of requests *)

(** [DataSourcePermission.objects.filter(user=user, permission='admin')
    .values_list('data_source_id', flat=True)]. *)
Definition admin_source_ids (db : Workflow.database) (user : Workflow.User)
  : list Z :=
  map Workflow.perm_data_source
    (List.filter
            (fun p => (Workflow.perm_user p =? Workflow.user_pk user)%Z
                      && String.eqb (Workflow.permission p) "admin")
            (Workflow.permissions db)).

(** One entry of the list; the names read through the foreign keys and
    the creation time are left out. *)
Record list_row := {
  row_id : Z;
  row_source_id : Z;
  row_operation : string;
  row_table_name : string;
  row_status : string;
  row_approved_at : option Z
}.

Definition row_of (req : Workflow.WriteBackRequest) : list_row :=
  {| row_id := Workflow.wb_id req;
     row_source_id := Workflow.wb_data_source req;
     row_operation := Workflow.wb_operation req;
     row_table_name := Workflow.wb_table_name req;
     row_status := Workflow.wb_status req;
     row_approved_at := Workflow.wb_approved_at req |}.

(** [user] is the effective user; [newest_first] stands for
    [order_by('-created_at')], the creation time not being part of the
    modelled row. *)
Definition write_back_requests_list
    (newest_first : list Workflow.WriteBackRequest ->
                    list Workflow.WriteBackRequest)
    (db : Workflow.database) (user : Workflow.User) : list list_row :=
  let queryset :=
    if Workflow.is_superuser user then Workflow.write_back_requests db
    else
      let admin_source_ids := admin_source_ids db user in
      List.filter
        (fun req =>
           (Workflow.wb_requested_by req =? Workflow.user_pk user)%Z
           || existsb (Z.eqb (Workflow.wb_data_source req)) admin_source_ids)
        (Workflow.write_back_requests db) in
  map row_of (take 200 (newest_first queryset)).

End Views.

(** ** Vocabulary of the statements *)

(** The classification as the specification words it: four alternatives,
    the last one being the well-known name. *)
Definition public_as_specified (s : source) : Prop :=
  is_public (policy_of s) = Some true
  ∨ ("*" ∈ normalized_domains (policy_of s)
     ∨ "public" ∈ normalized_domains (policy_of s))
  ∨ (normalized_type s = "ols" ∧ is_public (policy_of s) ≠ Some false)
  ∨ _normalize_source_name (src_name s) = "wikidata".

(** The set of names a caller may request: the public names for an
    anonymous caller, the names of the sources listed for the user
    otherwise. *)
Definition allowed_names (W : django) (caller : option user_payload)
  : gset string :=
  if payload_truthy caller then
    accessible_names_of
      (_fetch_accessible_sources_for_user W
         (dict_get "user_id" (default [] caller)))
  else
    list_to_set (public_names_of (_fetch_accessible_sources_for_user W PNone)).

(** The requested names that survive normalization: blank entries are
    dropped before the check. *)
Definition requested_names (requested : list string) : list string :=
  map (fun s => _normalize_source_name (Some s))
      (filter (fun s => PyStr.strip s ≠ "") requested).

(** The status the specification asks for when a request names a
    forbidden source. *)
Definition status_as_specified (anonymous offender_visible_when_authenticated : bool)
  : Z :=
  if anonymous && offender_visible_when_authenticated then 401%Z else 403%Z.

(** [x] is ranked at least as high as [y] by the sort key of [search]. *)
Definition ranked_before (x y : QuickSearchResult) : Prop :=
  key_ltb (sort_key x) (sort_key y) = false.

(** [x] has at least the confidence of [y]. *)
Definition confidence_ge (x y : QuickSearchResult) : Prop :=
  (score (confidence y) <= score (confidence x))%Qc.

(** The backend call for [name] fails: there is no adapter under that
    name, or its [search] raises. *)
Definition source_fails (api : adapter_api) (adapters : gmap string adapter)
    (query : string) (limit : nat) (name : string) : Prop :=
  ¬ ∃ a l, adapters !! name = Some a
           ∧ adapter_search api a query limit = Returned l.

(** The text [t] reads [kw] when case is ignored: code point by code
    point it matches the letters of [kw] the way [re.IGNORECASE] matches
    them, which for the letters of SELECT is the letter in either case and,
    for S, the long s (U+017F), as in Unicode case folding. *)
Definition reads_ignoring_case (kw : string) (t : Uni.text) : Prop :=
  Forall2 (fun p c => Uni.matches_letter p c = true)
          (list_ascii_of_string kw) t.

(** The text begins with SELECT, in any case, after optional white
    space. *)
Definition begins_with_select (q : Uni.text) : Prop :=
  ∃ ws kw rest, q = (ws ++ kw ++ rest)%list
                ∧ forallb Uni.is_space ws = true
                ∧ reads_ignoring_case "select" kw.

Definition has_semicolon (q : Uni.text) : Prop :=
  ∃ a b, q = (a ++ Uni.of_string ";" ++ b)%list.


(** [term] is one of the admin-only terms in force under the policy [p]:
    an explicit term, or, when the policy gives no explicit term, the term
    derived from one of its table patterns. *)
Definition term_in_force (p : security_policy) (term : string) : Prop :=
  term ∈ admin_only_sparql_terms p
  ∨ (admin_only_sparql_terms p = []
     ∧ ∃ pattern, pattern ∈ admin_only_table_patterns p
                  ∧ term = _to_term_from_pattern pattern).

(** What a creation request must satisfy, on the entries of its body
    and the tables [db], for the caller [user]. The operation is read
    through [str], trimmed and in lower case, the table name through [str]
    and trimmed, as the view checks and stores them; the source is the
    active one the ORM finds for the [source_id] entry. *)
Definition creation_allowed (rt : Workflow.runtime) (db : Workflow.database)
    (user : Workflow.User) (entries : list (string * Workflow.json_value))
    (src : Workflow.DataSource) : Prop :=
  let entry key fallback := default fallback (Workflow.obj_get key entries) in
  let operation :=
    PyStr.lower (PyStr.strip
      (Workflow.py_str rt (entry "operation" (Workflow.JStr "")))) in
  let table_name :=
    PyStr.strip (Workflow.py_str rt (entry "table_name" (Workflow.JStr ""))) in
  (∀ field, field ∈ Workflow.required →
            is_Some (Workflow.obj_get field entries))
  ∧ (∃ pk, Workflow.orm_pk rt (entry "source_id" Workflow.JNull)
           = Workflow.PkKey pk
           ∧ Workflow.find_active_source db pk = Some src)
  ∧ Workflow.ds_allow_write_back src = true
  ∧ (Workflow.is_superuser user = true
     ∨ Workflow.has_permission db (Workflow.ds_pk src)
         (Workflow.user_pk user) ["write_back"; "admin"] = true)
  ∧ operation ∈ ["insert"; "update"; "delete"]
  ∧ Workflow.is_identifier table_name = true
  ∧ (∃ fields, Workflow.obj_get "new_values" entries
               = Some (Workflow.JObj fields))
  ∧ (Workflow.get_old_values entries = None
     ∨ ∃ fields, Workflow.obj_get "old_values" entries
                 = Some (Workflow.JObj fields)).

(** The caller may decide on requests against the source [source_pk]. *)
Definition may_approve (db : Workflow.database) (user : Workflow.User)
    (source_pk : Z) : Prop :=
  Workflow.is_superuser user = true
  ∨ Workflow.has_permission db source_pk (Workflow.user_pk user) ["admin"]
    = true.


(** Strict order of strings by code points, the order of Python's
    [sorted] on distinct strings. *)
Definition precedes (a b : string) : Prop := String.ltb a b = true.

(** Calling [_ensure_adapter_for_source] for [s] would leave the
    registry [adapters] as it is. *)
Definition settled (adapters : gmap string adapter) (s : source) : Prop :=
  _normalize_source_name (src_name s) = ""
  ∨ is_Some (adapters !! _normalize_source_name (src_name s))
  ∨ _adapter_classes
      (match or_str (src_type s) (src_source_type s) with
       | Some t => if String.eqb t "fuseki" then Some "oxigraph" else Some t
       | None => None
       end) = None.

(** ** Concrete inputs used by the examples below *)

Module Demo.

Definition mk_source (name type : string) (p : option security_policy)
  : source :=
  {| src_id := None; src_name := Some name; src_type := Some type;
     src_source_type := None; src_security_policy := p;
     src_allow_write_back := false; src_can_admin := false;
     src_can_manage := false; src_description := None;
     src_ui_config := None; src_connection_config := [] |}.

(** An OLS source called "wikidata" that was explicitly made private. *)
Definition ols_wikidata_private : source :=
  mk_source "wikidata" "ols"
    (Some {| is_public := Some false; query_domains := [];
             admin_only_sparql_terms := [];
             admin_only_table_patterns := [] |}).

(** A Django service that knows no token and lists no source. *)
Definition empty_django : django :=
  {| auth_validate := fun _ => None;
     datasources_list := fun _ => Some [] |}.

Definition policy_with_domains (domains : list string) : security_policy :=
  {| is_public := None; query_domains := domains;
     admin_only_sparql_terms := []; admin_only_table_patterns := [] |}.

Definition open_terms : source := mk_source "Open Terms" "ols" None.

Definition wikidata : source :=
  mk_source "Wikidata" "wikidata" (Some (policy_with_domains ["public"])).

Definition private_ontop : source :=
  mk_source "Private Ontop" "ontop" (Some (policy_with_domains ["internal"])).

Definition alice : user_payload :=
  [("user_id", PInt 7); ("username", PStr "alice")].

(** A Django service with one known token and three sources. *)
Definition demo_django : django :=
  {| auth_validate :=
       fun token => if String.eqb token "token123" then Some alice else None;
     datasources_list :=
       fun _ => Some [wikidata; open_terms; private_ontop] |}.

(** A Django service whose only source is private. *)
Definition private_only_django : django :=
  {| auth_validate := fun _ => None;
     datasources_list := fun _ => Some [private_ontop] |}.

Definition hit (label : string) (c : option Qc) : QuickSearchResult :=
  {| qs_label := label; qs_id := label; qs_description := None;
     qs_author := None; confidence := c; relevance_score := None |}.

Definition hit_a : QuickSearchResult := hit "a" (Some (Q2Qc (1 # 2))).
Definition hit_b : QuickSearchResult := hit "b" (Some (Q2Qc (9 # 10))).
Definition hit_c : QuickSearchResult := hit "c" None.

(** Adapters whose Wikidata backend is unreachable and whose OLS
    backend returns three hits. *)
Definition demo_api : adapter_api :=
  {| get_source_config := fun a => cfg_source_type (ad_config a);
     get_ui_config := fun _ => empty_ui;
     adapter_search :=
       fun a _ _ =>
         match ad_class a with
         | WikidataAdapter => Raised "connection refused"
         | OLSAdapter => Returned [hit_a; hit_b; hit_c]
         | _ => Returned []
         end;
     get_node_details :=
       fun _ node => Returned {| node_id := node; node_label := node |};
     get_relationships := fun _ _ => Returned [] |}.

(** An Ontop source whose policy gives both explicit terms and table
    patterns. *)
Definition mixed_policy_ontop : source :=
  mk_source "ontop" "ontop"
    (Some {| is_public := None; query_domains := ["internal"];
             admin_only_sparql_terms := ["secret"];
             admin_only_table_patterns := ["admin_%"] |}).

(** An Ontop source whose policy gives table patterns only. *)
Definition pattern_policy_ontop : source :=
  mk_source "ontop" "ontop"
    (Some {| is_public := None; query_domains := ["internal"];
             admin_only_sparql_terms := [];
             admin_only_table_patterns := ["admin_%"] |}).

Definition admin_query : string :=
  "SELECT ?s WHERE { ?s a <http://example.org/Admin_Users> }".

Definition secret_query : string :=
  "SELECT ?s WHERE { ?s a <http://example.org/Secret> }".

(** A backend that answers every call with an empty result set. *)
Definition ok_client : http_client :=
  fun _ =>
    inl {| status_code := 200; text := "";
           content_type := "application/sparql-results+json";
           json := inl {| sql_results := Some []; sql_total := Some 0%Z;
                          sparql_bindings := [] |} |}.

Definition root : Workflow.User :=
  {| Workflow.user_pk := 1; Workflow.user_username := "root";
     Workflow.is_superuser := true |}.

Definition request_in (status : string) : Workflow.WriteBackRequest :=
  {| Workflow.wb_id := 1; Workflow.wb_data_source := 5;
     Workflow.wb_requested_by := 2; Workflow.wb_operation := "update";
     Workflow.wb_table_name := "graphs_node";
     Workflow.wb_primary_key := Workflow.JStr "7";
     Workflow.wb_old_values := None;
     Workflow.wb_new_values := Workflow.JObj [("label", Workflow.JStr "x")];
     Workflow.wb_status := status; Workflow.wb_approved_by := None;
     Workflow.wb_approved_at := None; Workflow.wb_rejection_reason := "" |}.

(** Tables with one source open to write-back and one request in the
    given status. *)
Definition tables_with (status : string) : Workflow.database :=
  {| Workflow.data_sources :=
       [{| Workflow.ds_pk := 5; Workflow.ds_name := "ontop";
           Workflow.ds_is_active := true;
           Workflow.ds_allow_write_back := true |}];
     Workflow.permissions := [];
     Workflow.write_back_requests := [request_in status];
     Workflow.next_id := 2 |}.


(** A runtime for bodies made of strings, integers and [null]: an
    integer is read as the key it is; other values are not looked at in
    the examples. *)
Definition plain_runtime : Workflow.runtime :=
  {| Workflow.repr_rest := fun _ => "]";
     Workflow.orm_pk :=
       fun v => match v with
                | Workflow.JNum z => Workflow.PkKey z
                | Workflow.JNull => Workflow.PkNoRow
                | _ => Workflow.PkRefused
                end |}.

Definition body_with (operation table_name : Workflow.json_value)
  : Workflow.json_value :=
  Workflow.JObj
    [("source_id", Workflow.JNum 5);
     ("operation", operation);
     ("table_name", table_name);
     ("new_values", Workflow.JObj [("label", Workflow.JStr "y")])].

Definition insert_body : Workflow.json_value :=
  body_with (Workflow.JStr "insert") (Workflow.JStr "graphs_node").

Definition listed_names (answer : result (list source_payload))
  : option (list string) :=
  match answer with
  | Ok payloads => Some (map sp_name payloads)
  | Err _ _ => None
  end.

(** The same body with the operation and the table name padded and in
    another case. *)
Definition padded_body : Workflow.json_value :=
  body_with (Workflow.JStr " INSERT ") (Workflow.JStr " graphs_node ").

(** A body whose table name is JSON [null]. *)
Definition null_table_body : Workflow.json_value :=
  body_with (Workflow.JStr "insert") Workflow.JNull.

(** The query [ſelect 1], written with a long s (U+017F). *)
Definition long_s_select : Uni.text :=
  (383 :: Uni.of_string "elect 1")%N.

End Demo.

(** ** Vocabulary of the further statements *)

(** A string without leading or trailing white space. *)
Definition trimmed (u : string) : Prop :=
  PyStr.lstrip u = u ∧ PyStr.rstrip u = u.

(** No character of [s] is the space character. *)
Definition no_blank (s : string) : Prop :=
  PyStr.all_chars (fun c => negb (Ascii.eqb c " ")) s = true.

(** The keywords [_is_sparql_query] looks for. *)
Definition sparql_keywords : list string :=
  ["prefix"; "select"; "ask"; "construct"; "describe"].

(** The sources Django lists for the caller of a request: the listing
    for the user id of the identity when the token gave one, the anonymous
    listing otherwise. *)
Definition listed_for (W : django) (caller : option user_payload)
  : list source :=
  _fetch_accessible_sources_for_user W
    (if payload_truthy caller then dict_get "user_id" (default [] caller)
     else PNone).

(** The relationships of one relation type, in their original order. *)
Definition rels_of_type (k : string) (rels : list Relationship)
  : list Relationship :=
  filter (fun r => relation_type r = k) rels.

(** The group stored for a relation type, if any. *)
Fixpoint group_lookup (k : string) (g : list (string * list Relationship))
  : option (list Relationship) :=
  match g with
  | [] => None
  | (k', rs) :: g' => if String.eqb k' k then Some rs else group_lookup k g'
  end.

(** The groups hold, for each relation type seen, the relationships of
    that type in their order; no type has two groups. *)
Definition groups_of (rels : list Relationship)
    (g : list (string * list Relationship)) : Prop :=
  NoDup (map fst g)
  ∧ ∀ k, group_lookup k g
         = match rels_of_type k rels with
           | [] => None
           | rs => Some rs
           end.

(** Every stored request has an id below the next id of the sequence. *)
Definition fresh_ids (db : Workflow.database) : Prop :=
  ∀ r, r ∈ Workflow.write_back_requests db →
       (Workflow.wb_id r < Workflow.next_id db)%Z.

(** Two requests ask for the same change: they agree on everything but
    the decision fields (status, approver, time and rejection reason). *)
Definition same_proposal (r r' : Workflow.WriteBackRequest) : Prop :=
  Workflow.wb_id r = Workflow.wb_id r'
  ∧ Workflow.wb_data_source r = Workflow.wb_data_source r'
  ∧ Workflow.wb_requested_by r = Workflow.wb_requested_by r'
  ∧ Workflow.wb_operation r = Workflow.wb_operation r'
  ∧ Workflow.wb_table_name r = Workflow.wb_table_name r'
  ∧ Workflow.wb_primary_key r = Workflow.wb_primary_key r'
  ∧ Workflow.wb_old_values r = Workflow.wb_old_values r'
  ∧ Workflow.wb_new_values r = Workflow.wb_new_values r'.

(** No two stored requests share an id. *)
Definition unique_ids (db : Workflow.database) : Prop :=
  NoDup (map Workflow.wb_id (Workflow.write_back_requests db)).

(** ** Further concrete inputs *)

Module Demo2.

(** A Wikidata source reached through the external API handler. *)
Definition wikidata_api : source :=
  {| src_id := Some 3%Z; src_name := Some "Wikidata";
     src_type := Some "external_api"; src_source_type := None;
     src_security_policy := None; src_allow_write_back := false;
     src_can_admin := false; src_can_manage := false;
     src_description := None; src_ui_config := None;
     src_connection_config :=
       [("api_url", "https://www.wikidata.org/w/api.php")] |}.

(** Django's detail endpoint for three sources. *)
Definition detail_endpoint (source_id : Z) (_ : option pyval)
  : option source :=
  if (source_id =? 1)%Z then Some Demo.pattern_policy_ontop
  else if (source_id =? 2)%Z then Some Demo.open_terms
  else if (source_id =? 3)%Z then Some wikidata_api
  else None.

Definition render (status : Z) (detail : string) : string :=
  pretty status ++ ": " ++ detail.

Definition search_request : QueryRequest :=
  {| rq_token := "token123"; rq_source_id := 2;
     rq_query := "Search: heart "; rq_query_type := "SPARQL" |}.

(** A source with write-back enabled that the caller may manage. *)
Definition managed_ontop : source :=
  {| src_id := Some 1%Z; src_name := Some "ontop";
     src_type := Some "ontop"; src_source_type := None;
     src_security_policy := None; src_allow_write_back := true;
     src_can_admin := false; src_can_manage := true;
     src_description := None; src_ui_config := None;
     src_connection_config :=
       [("endpoint_url", "http://ontop:8080/sparql")] |}.

Definition managed_django : django :=
  {| auth_validate :=
       fun token => if String.eqb token "token123" then Some Demo.alice else None;
     datasources_list := fun _ => Some [Demo.wikidata; managed_ontop] |}.

(** The adapter the registry builds for [Demo.wikidata]. *)
Definition wikidata_adapter : adapter :=
  {| ad_class := WikidataAdapter;
     ad_config := {| cfg_source := Demo.wikidata; cfg_overrides := [];
                     cfg_name := "wikidata";
                     cfg_source_type := Some "wikidata";
                     cfg_endpoint_url := None |} |}.

(** A registry that holds one adapter from before, under another
    name. *)
Definition legacy_registry : gmap string adapter :=
  {["legacy" := wikidata_adapter]}.

Definition rel (kind target : string) : Relationship :=
  {| relation_type := kind;
     target_node := {| node_id := target; node_label := target |} |}.

Definition some_rels : list Relationship :=
  [rel "part of" "Q1"; rel "instance of" "Q2"; rel "part of" "Q3"].

Definition bob : Workflow.User :=
  {| Workflow.user_pk := 2; Workflow.user_username := "bob";
     Workflow.is_superuser := false |}.

Definition carol : Workflow.User :=
  {| Workflow.user_pk := 3; Workflow.user_username := "carol";
     Workflow.is_superuser := false |}.

Definition users : list Views.account :=
  [{| Views.acct_user := Demo.root; Views.acct_active := true |};
   {| Views.acct_user := bob; Views.acct_active := true |};
   {| Views.acct_user := carol; Views.acct_active := false |}].

(** Reads the decimal numbers used below. *)
Definition parse_small (s : string) : option Z :=
  if String.eqb s "1" then Some 1%Z
  else if String.eqb s "2" then Some 2%Z
  else if String.eqb s "3" then Some 3%Z
  else None.

Definition db_rows (sql : string) : list row + string :=
  inl [[("id", Some "1")]].

End Demo2.

(** * Properties *)

(** ** Public classification *)

Lemma eqb_string_true (a b : string) : String.eqb a b = true ↔ a = b.
Proof. apply String.eqb_eq. Qed.

Lemma eqb_string_false (a b : string) : String.eqb a b = false ↔ a ≠ b.
Proof. apply String.eqb_neq. Qed.

(** C4, as stated, fails: an OLS source that is explicitly not public is
    private even when its name is the well-known one. *)
Lemma public_as_specified_counterexample :
  public_as_specified Demo.ols_wikidata_private
  ∧ _is_public_source_record Demo.ols_wikidata_private = false.
Proof.
  split; [| reflexivity].
  right; right; right. reflexivity.
Qed.

(** C4 (amended): a source record is classified public exactly when its
    policy sets [is_public] to true, or its query domains contain ["*"] or
    ["public"] after trimming and lower-casing, or its type is [ols] and
    [is_public] is not false, or its type is not [ols] and its normalized
    name is ["wikidata"]. *)
Theorem is_public_source_record_spec (s : source) :
  _is_public_source_record s = true ↔
    is_public (policy_of s) = Some true
    ∨ ("*" ∈ normalized_domains (policy_of s)
       ∨ "public" ∈ normalized_domains (policy_of s))
    ∨ (normalized_type s = "ols" ∧ is_public (policy_of s) ≠ Some false)
    ∨ (normalized_type s ≠ "ols"
       ∧ _normalize_source_name (src_name s) = "wikidata").
Proof.
  unfold _is_public_source_record.
  destruct (is_public (policy_of s)) as [[|]|] eqn:Hpub.
  - split; [intros _; by left | done].
  - destruct (bool_decide ("*" ∈ _)) eqn:Hstar; simpl.
    { apply bool_decide_eq_true in Hstar. split; [intros _; right; left; by left | done]. }
    apply bool_decide_eq_false in Hstar.
    destruct (bool_decide ("public" ∈ _)) eqn:Hp; simpl.
    { apply bool_decide_eq_true in Hp. split; [intros _; right; left; by right | done]. }
    apply bool_decide_eq_false in Hp.
    destruct (String.eqb (normalized_type s) "ols") eqn:Ht.
    + apply eqb_string_true in Ht. split; [done |].
      intros [?|[[?|?]|[[_ ?]|[? _]]]]; congruence.
    + apply eqb_string_false in Ht. rewrite eqb_string_true.
      split; [intros ?; by right; right; right |].
      intros [?|[[?|?]|[[? _]|[_ ?]]]]; congruence.
  - destruct (bool_decide ("*" ∈ _)) eqn:Hstar; simpl.
    { apply bool_decide_eq_true in Hstar. split; [intros _; right; left; by left | done]. }
    apply bool_decide_eq_false in Hstar.
    destruct (bool_decide ("public" ∈ _)) eqn:Hp; simpl.
    { apply bool_decide_eq_true in Hp. split; [intros _; right; left; by right | done]. }
    apply bool_decide_eq_false in Hp.
    destruct (String.eqb (normalized_type s) "ols") eqn:Ht.
    + apply eqb_string_true in Ht. split; [| done].
      intros _. right; right; left. split; [done | congruence].
    + apply eqb_string_false in Ht. rewrite eqb_string_true.
      split; [intros ?; by right; right; right |].
      intros [?|[[?|?]|[[? _]|[_ ?]]]]; congruence.
Qed.

(** ** Facts on strings *)

Section string_facts.
Implicit Types n a b s : string.

Lemma contains_unfold n s :
  PyStr.contains n s =
    String.prefix n s
    || match s with
       | EmptyString => false
       | String _ s' => PyStr.contains n s'
       end.
Proof. by destruct s. Qed.

Lemma prefix_app_same n b : String.prefix n (n ++ b) = true.
Proof.
  induction n as [|c n IH]; simpl; [by destruct b |].
  by destruct (ascii_dec c c).
Qed.

Lemma prefix_app_l n a b :
  String.prefix n a = true → String.prefix n (a ++ b) = true.
Proof.
  revert a. induction n as [|c n IH]; intros a; simpl.
  - intros _. by destruct (a ++ b).
  - destruct a as [|c' a]; simpl; [done |].
    destruct (ascii_dec c c'); [apply IH | done].
Qed.

Lemma contains_app_l n a b :
  PyStr.contains n a = true → PyStr.contains n (a ++ b) = true.
Proof.
  induction a as [|c a IH]; intros H.
  - destruct n; [by destruct b | done].
  - rewrite contains_unfold in H.
    rewrite (contains_unfold n (String c a ++ b)).
    apply orb_true_iff in H as [H|H]; apply orb_true_iff.
    + left. exact (prefix_app_l _ _ _ H).
    + right. exact (IH H).
Qed.

Lemma contains_app_r n a b :
  PyStr.contains n b = true → PyStr.contains n (a ++ b) = true.
Proof.
  intros H. induction a as [|c a IH]; simpl; [done |].
  rewrite IH. apply orb_true_r.
Qed.

Lemma contains_self_app n b : PyStr.contains n (n ++ b) = true.
Proof. rewrite contains_unfold, prefix_app_same. reflexivity. Qed.

Lemma contains_refl n : PyStr.contains n n = true.
Proof.
  rewrite contains_unfold.
  assert (String.prefix n n = true) as ->; [| done].
  induction n as [|c n IH]; simpl; [done |].
  by destruct (ascii_dec c c).
Qed.

Lemma contains_join n sep (l : list string) :
  n ∈ l → PyStr.contains n (PyStr.join sep l) = true.
Proof.
  unfold PyStr.join. induction l as [|x l IH]; [by intros ?%elem_of_nil |].
  intros [Heq|Hin]%elem_of_cons; simpl.
  - subst x. destruct l; [apply contains_refl | apply contains_self_app].
  - destruct l as [|y l]; [by apply elem_of_nil in Hin |].
    apply contains_app_r, contains_app_r. by apply IH.
Qed.

Lemma strip_nonempty s :
  PyStr.nonempty s && PyStr.nonempty (PyStr.strip s) = true
  ↔ PyStr.strip s ≠ "".
Proof.
  destruct s as [|c s]; [simpl; split; [done | by intros []] |].
  simpl PyStr.nonempty at 1. rewrite andb_true_l.
  destruct (PyStr.strip (String c s)); simpl; split; done.
Qed.
End string_facts.

(** ** Capabilities of anonymous callers *)

Lemma extracted_token_nonempty (authorization : option string)
    (token : string) :
  _extract_bearer_token authorization = Some token →
  PyStr.nonempty token = true.
Proof.
  unfold _extract_bearer_token.
  destruct authorization as [a|]; [| done].
  destruct (negb (PyStr.nonempty a)); [done |].
  destruct (split_first_space a) as [[scheme rest]|]; [| done].
  destruct (String.eqb (PyStr.lower scheme) "bearer"); [| done].
  cbn [andb].
  destruct (PyStr.nonempty (PyStr.strip rest)) eqn:Hrest; [| done].
  by intros [= <-].
Qed.

(** C5, as stated, fails for a token that is not valid: a request with a
    well-formed bearer token that the validator rejects gets no snapshot at
    all, but the 401 error of the validation. *)
Lemma capabilities_invalid_token_counterexample :
  _extract_bearer_token (Some "Bearer expired") = Some "expired"
  ∧ auth_validate Demo.demo_django "expired" = None
  ∧ get_capabilities Demo.demo_django (Some "Bearer expired")
    = Err 401 "Invalid token".
Proof. repeat split. Qed.

(** C5 (amended): when no bearer token is extracted from the request (no
    [Authorization] header, another scheme, or a blank token), the
    capability snapshot is in demo mode, unauthenticated, without a user and
    without private sources; its accessible sources are its public ones,
    and neither write-back nor source management is offered. When a bearer
    token is extracted and the validator rejects it, there is no snapshot:
    the request fails with 401. *)
Theorem capabilities_without_token (W : django) (authorization : option string) :
  (_extract_bearer_token authorization = None →
   ∃ c, get_capabilities W authorization = Ok c
        ∧ mode c = "demo"
        ∧ authenticated c = false
        ∧ user c = None
        ∧ private (sources c) = []
        ∧ accessible (sources c) = public (sources c)
        ∧ can_write_back (features c) = false
        ∧ can_manage_sources (features c) = false)
  ∧ (∀ token, _extract_bearer_token authorization = Some token →
       auth_validate W token = None →
       get_capabilities W authorization = Err 401 "Invalid token").
Proof.
  split.
  - intros Htoken. unfold get_capabilities. rewrite Htoken.
    eexists. split; [reflexivity |]. simpl. done.
  - intros token Htoken Hval.
    unfold get_capabilities, _validate_user_token. rewrite Htoken, Hval.
    by rewrite (extracted_token_nonempty _ _ Htoken).
Qed.

Lemma capabilities_without_token_witness :
  ∃ c, get_capabilities Demo.demo_django (Some "Basic dXNlcjpwdw==") = Ok c
       ∧ mode c = "demo"
       ∧ authenticated c = false
       ∧ user c = None
       ∧ private (sources c) = []
       ∧ accessible (sources c) = public (sources c)
       ∧ can_write_back (features c) = false
       ∧ can_manage_sources (features c) = false.
Proof.
  apply (proj1 (capabilities_without_token Demo.demo_django
                  (Some "Basic dXNlcjpwdw=="))).
  reflexivity.
Defined.

(** The snapshot of that request: the two public sources of the three
    that Django lists. *)
Example capabilities_anonymous_snapshot :
  (λ c, (mode c, public (sources c), private (sources c),
         accessible (sources c)))
    <$> (match get_capabilities Demo.demo_django (Some "Basic dXNlcjpwdw==")
         with Ok c => Some c | Err _ _ => None end)
  = Some ("demo", ["open_terms"; "wikidata"], [], ["open_terms"; "wikidata"]).
Proof. by vm_compute. Qed.

(** ** Requests that name a forbidden source *)

Lemma normalize_requested_names (requested : list string) :
  requested ≠ [] →
  normalize_requested (Some requested) = Some (requested_names requested).
Proof.
  intros Hne. destruct requested as [|s l]; [done |].
  unfold normalize_requested, requested_names. do 2 f_equal.
  apply list_filter_iff. intros x. apply strip_nonempty.
Qed.

Lemma check_requested_forbidden (status : Z) (prefix : string)
    (allowed : gset string) (req : list string) :
  (∃ n, n ∈ req ∧ n ∉ allowed) →
  check_requested status prefix allowed (Some req)
  = Err status (prefix ++ PyStr.join ", " (filter (λ n, n ∉ allowed) req)).
Proof.
  intros (n & Hin & Hout). unfold check_requested.
  destruct (filter (λ n, n ∉ allowed) req) as [|x l] eqn:Hf; [| done].
  assert (n ∈ filter (λ n, n ∉ allowed) req) as Hn
    by (apply list_elem_of_filter; done).
  rewrite Hf in Hn. by apply elem_of_nil in Hn.
Qed.

(** C1, as stated, fails: an anonymous caller that names a source nobody
    can see is answered 401, where the stated rule gives 403. *)
Lemma resolve_status_counterexample :
  (∀ user_id, _fetch_accessible_sources_for_user Demo.empty_django user_id = [])
  ∧ (_resolve_sources_for_request Demo.empty_django ∅ (Some ["ghost"]) None).1
    = Err 401 "Authentication required for sources: ghost"
  ∧ 401%Z ≠ status_as_specified true false.
Proof.
  split; [| split]; [| reflexivity | discriminate].
  intros user_id. unfold _fetch_accessible_sources_for_user. simpl.
  by destruct (truthy user_id).
Qed.

(** C1 (amended): if a request names at least one non-blank source whose
    normalized name is outside the caller's accessible set, resolution
    fails with one error whose detail lists every such name, in request
    order; the status is 401 whenever the caller is anonymous and 403
    whenever the caller is authenticated. *)
Theorem resolve_rejects_every_offender (W : django)
    (adapters : gmap string adapter) (requested : list string)
    (authorization : option string) (caller : option user_payload) :
  _resolve_request_user W authorization = Ok caller →
  (∃ s, s ∈ requested ∧ PyStr.strip s ≠ ""
        ∧ _normalize_source_name (Some s) ∉ allowed_names W caller) →
  let forbidden :=
    filter (λ n, n ∉ allowed_names W caller) (requested_names requested) in
  let detail :=
    (if payload_truthy caller then "Access denied for sources: "
     else "Authentication required for sources: ")
    ++ PyStr.join ", " forbidden in
  (_resolve_sources_for_request W adapters (Some requested) authorization).1
  = Err (if payload_truthy caller then 403 else 401)%Z detail
  ∧ ∀ s, s ∈ requested → PyStr.strip s ≠ "" →
         _normalize_source_name (Some s) ∉ allowed_names W caller →
         _normalize_source_name (Some s) ∈ forbidden
         ∧ PyStr.contains (_normalize_source_name (Some s)) detail = true.
Proof.
  intros Huser (s0 & Hin0 & Hblank0 & Hout0) forbidden detail.
  assert (∀ s, s ∈ requested → PyStr.strip s ≠ "" →
               _normalize_source_name (Some s) ∉ allowed_names W caller →
               _normalize_source_name (Some s) ∈ forbidden) as Hnamed.
  { intros s Hin Hblank Hout. apply list_elem_of_filter. split; [done |].
    unfold requested_names. apply list_elem_of_fmap. exists s. split; [done |].
    by apply list_elem_of_filter. }
  assert (_normalize_source_name (Some s0) ∈ requested_names requested) as Hreq0.
  { unfold requested_names. apply list_elem_of_fmap. exists s0. split; [done |].
    by apply list_elem_of_filter. }
  split.
  - unfold _resolve_sources_for_request. rewrite Huser.
    rewrite normalize_requested_names by (intros ->; by apply elem_of_nil in Hin0).
    unfold detail, forbidden. revert Hout0. unfold allowed_names.
    destruct (payload_truthy caller); intros Hout0; cbn [negb fst];
      apply check_requested_forbidden; eauto.
  - intros s Hin Hblank Hout. split; [by apply Hnamed |].
    unfold detail. apply contains_app_r, contains_join. by apply Hnamed.
Qed.

(** ** Multi-source search *)

Section ranking.
Implicit Types x y : QuickSearchResult.
Implicit Types l : list QuickSearchResult.

Lemma key_ltb_asym (a b : Qc * Qc) : key_ltb a b = true → key_ltb b a = false.
Proof.
  unfold key_ltb.
  destruct (fst a ?= fst b)%Qc eqn:H1; [| | done].
  - apply Qceq_alt in H1. rewrite <- H1.
    assert ((fst a ?= fst a)%Qc = Eq) as -> by by apply Qceq_alt.
    destruct (snd a ?= snd b)%Qc eqn:H2; [done | | done].
    intros _. apply Qclt_alt in H2.
    destruct (snd b ?= snd a)%Qc eqn:H3; [done | | done].
    apply Qclt_alt in H3. exfalso.
    exact (Qclt_not_le _ _ H2 (Qclt_le_weak _ _ H3)).
  - intros _. apply Qclt_alt in H1.
    destruct (fst b ?= fst a)%Qc eqn:H3; [| | done].
    + apply Qceq_alt in H3. exfalso.
      exact (Qclt_not_eq _ _ H1 (eq_sym H3)).
    + apply Qclt_alt in H3. exfalso.
      exact (Qclt_not_le _ _ H1 (Qclt_le_weak _ _ H3)).
Qed.

Lemma ranked_before_confidence x y : ranked_before x y → confidence_ge x y.
Proof.
  unfold ranked_before, confidence_ge, key_ltb, sort_key. simpl.
  destruct (score (confidence x) ?= score (confidence y))%Qc eqn:H1.
  - intros _. apply Qceq_alt in H1. rewrite H1. apply Qcle_refl.
  - done.
  - intros _. apply Qcgt_alt in H1. by apply Qclt_le_weak.
Qed.

Global Instance confidence_ge_trans : Transitive confidence_ge.
Proof. intros x y z Hxy Hyz. unfold confidence_ge in *. by eapply Qcle_trans. Qed.

Lemma insert_desc_Permutation x l : insert_desc x l ≡ₚ x :: l.
Proof.
  induction l as [|y l IH]; simpl; [done |].
  destruct (key_ltb _ _); [| done].
  rewrite IH. apply Permutation_swap.
Qed.

Lemma HdRel_insert_desc y x l :
  ranked_before y x → HdRel ranked_before y l →
  HdRel ranked_before y (insert_desc x l).
Proof.
  intros Hyx Hl. destruct l as [|z l]; simpl; [by constructor |].
  destruct (key_ltb _ _); constructor; [| done].
  by inversion Hl.
Qed.

Lemma insert_desc_Sorted x l :
  Sorted ranked_before l → Sorted ranked_before (insert_desc x l).
Proof.
  induction 1 as [|y l Hl IH Hhd]; simpl; [by repeat constructor |].
  destruct (key_ltb (sort_key x) (sort_key y)) eqn:Hlt.
  - constructor; [done |]. apply HdRel_insert_desc; [| done].
    by apply key_ltb_asym.
  - constructor; [by constructor |]. by constructor.
Qed.

Lemma sort_desc_Permutation l : sort_desc l ≡ₚ l.
Proof.
  unfold sort_desc. induction l as [|x l IH]; simpl; [done |].
  by rewrite insert_desc_Permutation, IH.
Qed.

Lemma sort_desc_Sorted l : Sorted ranked_before (sort_desc l).
Proof.
  unfold sort_desc. induction l as [|x l IH]; simpl; [constructor |].
  by apply insert_desc_Sorted.
Qed.

Lemma Sorted_weaken {A} (R S : relation A) (l : list A) :
  (∀ a b, R a b → S a b) → Sorted R l → Sorted S l.
Proof.
  intros HRS. induction 1 as [|a l Hl IH Hhd]; constructor; [done |].
  destruct Hhd; constructor; auto.
Qed.

Lemma StronglySorted_take {A} (R : relation A) (n : nat) (l : list A) :
  StronglySorted R l → StronglySorted R (take n l).
Proof.
  intros Hl. revert n. induction Hl as [|a l Hl IH Hall]; intros [|n]; simpl;
    try constructor; [apply IH |].
  apply Forall_take. exact Hall.
Qed.

Lemma sort_desc_by_confidence l : StronglySorted confidence_ge (sort_desc l).
Proof.
  apply Sorted_StronglySorted; [apply _ |].
  eapply Sorted_weaken; [apply ranked_before_confidence | apply sort_desc_Sorted].
Qed.
End ranking.

Lemma search_one_fails (api : adapter_api) (adapters : gmap string adapter)
    (query : string) (limit : nat) (name : string) :
  source_fails api adapters query limit name →
  search_one api adapters query limit name = [].
Proof.
  unfold source_fails, search_one, get_adapter. intros Hfail.
  destruct (adapters !! name) as [a|]; [| done].
  destruct (adapter_search api a query limit) as [l| |] eqn:Hs; [| done..].
  exfalso. apply Hfail. eauto.
Qed.

Lemma search_one_returns (api : adapter_api) (adapters : gmap string adapter)
    (query : string) (limit : nat) (name : string) (a : adapter)
    (l : list QuickSearchResult) :
  adapters !! name = Some a →
  adapter_search api a query limit = Returned l →
  search_one api adapters query limit name = l.
Proof. intros Ha Hs. unfold search_one, get_adapter. by rewrite Ha, Hs. Qed.

(** C7: once the sources of a search are resolved, the search never
    fails as a whole. Its answer is the first [limit] entries of a ranking
    that is sorted by confidence, highest first, and that holds exactly the
    results returned by the sources whose backend call succeeded; a source
    whose call fails adds nothing to it. *)
Theorem search_folds_backend_failures (W : django) (api : adapter_api)
    (adapters : gmap string adapter) (query : string)
    (sources : option (list string)) (limit : nat)
    (authorization : option string)
    (names : list string) (adapters' : gmap string adapter) :
  _resolve_sources_for_request W adapters sources authorization
  = (Ok names, adapters') →
  ∃ ranked,
    (search W api adapters query sources limit authorization).1
    = Ok (take limit ranked)
    ∧ ranked ≡ₚ flat_map (search_one api adapters' query limit) names
    ∧ StronglySorted confidence_ge ranked
    ∧ StronglySorted confidence_ge (take limit ranked)
    ∧ (∀ n, source_fails api adapters' query limit n →
            search_one api adapters' query limit n = [])
    ∧ (∀ n a l, adapters' !! n = Some a →
                adapter_search api a query limit = Returned l →
                search_one api adapters' query limit n = l).
Proof.
  intros Hres.
  exists (sort_desc (flat_map (search_one api adapters' query limit) names)).
  split; [| split; [| split; [| split; [| split]]]].
  - unfold search. by rewrite Hres.
  - apply sort_desc_Permutation.
  - apply sort_desc_by_confidence.
  - apply StronglySorted_take, sort_desc_by_confidence.
  - apply search_one_fails.
  - apply search_one_returns.
Qed.

Lemma search_folds_backend_failures_witness :
  ∃ ranked,
    (search Demo.demo_django Demo.demo_api ∅ "term" None 10 None).1
    = Ok (take 10 ranked)
    ∧ ranked ≡ₚ flat_map
                  (search_one Demo.demo_api
                     (_resolve_sources_for_request Demo.demo_django ∅ None None).2
                     "term" 10)
                  ["open_terms"; "wikidata"]
    ∧ StronglySorted confidence_ge ranked
    ∧ StronglySorted confidence_ge (take 10 ranked)
    ∧ (∀ n, source_fails Demo.demo_api
              (_resolve_sources_for_request Demo.demo_django ∅ None None).2
              "term" 10 n →
            search_one Demo.demo_api
              (_resolve_sources_for_request Demo.demo_django ∅ None None).2
              "term" 10 n = [])
    ∧ (∀ n a l,
         (_resolve_sources_for_request Demo.demo_django ∅ None None).2 !! n
         = Some a →
         adapter_search Demo.demo_api a "term" 10 = Returned l →
         search_one Demo.demo_api
           (_resolve_sources_for_request Demo.demo_django ∅ None None).2
           "term" 10 n = l).
Proof.
  apply (search_folds_backend_failures Demo.demo_django Demo.demo_api
           ∅ "term" None 10 None ["open_terms"; "wikidata"]).
  vm_compute. reflexivity.
Defined.

(** The scenario of the specification: of two accessible sources one is
    unreachable and the other returns three hits; with [limit = 10] the
    answer is those three hits, highest confidence first. *)
Example search_one_source_down :
  (search Demo.demo_django Demo.demo_api ∅ "term" None 10 None).1
  = Ok [Demo.hit_b; Demo.hit_a; Demo.hit_c].
Proof. vm_compute. reflexivity. Qed.

(** ** Map nodes and the number of resolved sources *)

Lemma sorted_set_empty : sorted_set ∅ = [].
Proof. unfold sorted_set. by rewrite elements_empty. Qed.

Lemma filter_none {A} (P : A → Prop) `{∀ x, Decision (P x)} (l : list A) :
  (∀ x, x ∈ l → ¬ P x) → filter P l = [].
Proof.
  induction l as [|x l IH]; intros Hl; [done |].
  rewrite filter_cons_False by (apply Hl; left).
  apply IH. intros y Hy. apply Hl. by right.
Qed.

(** An anonymous caller that names no source, when no listed source is
    public, resolves to the empty list. *)
Lemma resolve_anonymous_without_public (W : django)
    (adapters : gmap string adapter) (authorization : option string) :
  _extract_bearer_token authorization = None →
  (∀ s, s ∈ _fetch_accessible_sources_for_user W PNone →
        _is_public_source_record s = false) →
  _resolve_sources_for_request W adapters None authorization = (Ok [], adapters).
Proof.
  intros Htoken Hprivate.
  unfold _resolve_sources_for_request, _resolve_request_user.
  rewrite Htoken. cbn [payload_truthy negb normalize_requested].
  unfold public_names_of.
  rewrite (filter_none (λ s, _is_public_source_record s = true)).
  - cbn. by rewrite sorted_set_empty.
  - intros s Hs. rewrite (Hprivate s Hs). discriminate.
Qed.

(** C10: with the sources of a map-nodes request resolved to [names]:
    an empty [names] makes the handler fail on [sources[0]] and answer
    500; more than one name is answered 400; and with at most one name a
    400 can only come from the adapter itself. *)
Theorem get_map_nodes_by_source_count (W : django) (api : adapter_api)
    (adapters : gmap string adapter) (node : string)
    (sources : option (list string)) (authorization : option string)
    (now : string) (names : list string) (adapters' : gmap string adapter) :
  _resolve_sources_for_request W adapters sources authorization
  = (Ok names, adapters') →
  let answer :=
    (get_map_nodes W api adapters node sources authorization now).1 in
  (names = [] →
   answer = Err 500 "Failed to get map nodes: list index out of range")
  ∧ ((1 < List.length names)%nat →
     answer = Err 400 "Multiple sources not yet supported for map nodes")
  ∧ (∀ detail, (List.length names ≤ 1)%nat → answer = Err 400 detail →
       ∃ src a, names = [src] ∧ adapters' !! src = Some a
                ∧ (get_node_details api a node = RaisedHTTP 400 detail
                   ∨ get_relationships api a node = RaisedHTTP 400 detail)).
Proof.
  intros Hres answer. subst answer. unfold get_map_nodes. rewrite Hres.
  cbn [fst]. split; [| split].
  - intros ->. reflexivity.
  - intros Hlen. by rewrite bool_decide_eq_true_2.
  - intros detail Hlen. rewrite bool_decide_eq_false_2 by lia.
    destruct names as [|src [|? ?]]; [done | | simpl in Hlen; lia].
    unfold get_adapter, guarded.
    destruct (adapters' !! src) as [a|] eqn:Ha; [| done].
    destruct (get_node_details api a node) as [primary|st d|m] eqn:Hnode.
    + destruct (get_relationships api a node) as [rels|st d|m] eqn:Hrel;
        [done | | done].
      intros [= -> ->]. exists src, a. eauto.
    + intros [= -> ->]. exists src, a. eauto.
    + done.
Qed.

Lemma get_map_nodes_by_source_count_witness :
  (get_map_nodes Demo.private_only_django Demo.demo_api ∅ "Q42"
     None None "2026-02-16T00:00:00").1
  = Err 500 "Failed to get map nodes: list index out of range".
Proof.
  refine (proj1 (get_map_nodes_by_source_count Demo.private_only_django
                   Demo.demo_api ∅ "Q42" None None "2026-02-16T00:00:00"
                   [] ∅ _) eq_refl).
  apply resolve_anonymous_without_public; [reflexivity |].
  vm_compute. intros s Hs.
  apply list_elem_of_singleton in Hs. by subst s.
Defined.

(** ** The SELECT gate of the internal relational backend *)

Section select_gate.
Implicit Types q t ws k rest : Uni.text.
Implicit Types s kw : string.

Lemma lstrip_split s :
  ∃ w : string, s = w ++ PyStr.lstrip s
                ∧ PyStr.all_chars PyStr.is_space w = true.
Proof.
  induction s as [|c s (w & Hs & Hw)]; [by exists "" |].
  simpl. destruct (PyStr.is_space c) eqn:Hc.
  - exists (String c w). split.
    + change (String c w ++ PyStr.lstrip s)
        with (String c (w ++ PyStr.lstrip s)). by rewrite <- Hs.
    + simpl. by rewrite Hc, Hw.
  - by exists "".
Qed.

Lemma text_lstrip_split q :
  ∃ ws, q = (ws ++ Uni.lstrip q)%list ∧ forallb Uni.is_space ws = true.
Proof.
  induction q as [|c q (ws & Hq & Hws)]; [by exists [] |].
  simpl. destruct (Uni.is_space c) eqn:Hc.
  - exists (c :: ws). split.
    + simpl. by rewrite <- Hq.
    + simpl. by rewrite Hc, Hws.
  - by exists [].
Qed.

Lemma strip_keyword_split kw t rest :
  Uni.strip_keyword kw t = Some rest →
  ∃ k, t = (k ++ rest)%list ∧ reads_ignoring_case kw k.
Proof.
  unfold reads_ignoring_case.
  revert t. induction kw as [|p kw IH]; intros t; simpl.
  - intros [= ->]. exists []. split; [done | constructor].
  - destruct t as [|c t]; [done |].
    destruct (Uni.matches_letter p c) eqn:Hc; [| done].
    intros (k & -> & Hk)%IH. exists (c :: k). split; [done |].
    by constructor.
Qed.

Lemma match_keyword_select q :
  Uni.match_keyword "select" q = true → begins_with_select q.
Proof.
  unfold Uni.match_keyword.
  destruct (Uni.strip_keyword "select" (Uni.lstrip q)) as [rest|] eqn:Hkw;
    [| done].
  intros _. apply strip_keyword_split in Hkw as (k & Hk & Hlow).
  destruct (text_lstrip_split q) as (ws & Hq & Hws).
  exists ws, k, rest. by rewrite <- Hk.
Qed.

Lemma text_prefix_app (p t : Uni.text) :
  Uni.prefix p (p ++ t)%list = true.
Proof. induction p as [|a p IH]; [done |]. simpl. by rewrite N.eqb_refl. Qed.

Lemma text_contains_app_r (needle a b : Uni.text) :
  Uni.contains needle b = true → Uni.contains needle (a ++ b)%list = true.
Proof.
  intros Hb. induction a as [|c a IH]; [done |].
  simpl. rewrite IH. apply orb_true_r.
Qed.

Lemma contains_semicolon q :
  has_semicolon q → Uni.contains (Uni.of_string ";") q = true.
Proof.
  intros (a & b & ->). apply text_contains_app_r.
  destruct b; simpl; by rewrite ?orb_true_l.
Qed.

Lemma is_sql_select_sound q :
  _is_sql_select q = true → begins_with_select q ∧ ¬ has_semicolon q.
Proof.
  unfold _is_sql_select. intros [Hkw Hsemi]%andb_true_iff. split.
  - by apply match_keyword_select.
  - intros Hq%contains_semicolon. by rewrite Hq in Hsemi.
Qed.
End select_gate.

(** C6: the internal relational backend is called only for a query that
    begins with SELECT (any case, after optional white space) and holds no
    semicolon; any other query is answered "Unsupported query" without a
    backend call, and so is
    ["SELECT * FROM users; DROP TABLE users;"]. The query text ranges over
    all code points, and case is ignored the way the regular expression
    ignores it. *)
Theorem django_db_accepts_only_single_select (client : http_client)
    (sql : Uni.text) (user_info : user_payload) :
  ((query_django_db client sql user_info).2 ≠ [] →
   begins_with_select sql ∧ ¬ has_semicolon sql)
  ∧ (¬ begins_with_select sql ∨ has_semicolon sql →
     query_django_db client sql user_info
     = (ErrorEnvelope "Unsupported query"
          "Only single SELECT SQL is supported for django_db", []))
  ∧ query_django_db client
      (Uni.of_string "SELECT * FROM users; DROP TABLE users;") user_info
    = (ErrorEnvelope "Unsupported query"
         "Only single SELECT SQL is supported for django_db", []).
Proof.
  split; [| split]; [| | reflexivity].
  - unfold query_django_db.
    destruct (_is_sql_select sql) eqn:Hsel; [| done].
    intros _. by apply is_sql_select_sound.
  - unfold query_django_db.
    destruct (_is_sql_select sql) eqn:Hsel; [| done].
    apply is_sql_select_sound in Hsel as [Hb Hs]. intros [?|?]; done.
Qed.

Lemma django_db_accepts_only_single_select_witness :
  begins_with_select (Uni.of_string "  select id from graphs_node")
  ∧ ¬ has_semicolon (Uni.of_string "  select id from graphs_node").
Proof.
  apply (proj1 (django_db_accepts_only_single_select Demo.ok_client
                  (Uni.of_string "  select id from graphs_node") [])).
  vm_compute. discriminate.
Defined.

(** Where the regular expression and [str.lower] part ways: [ſelect 1],
    written with a long s, is accepted and sent on as it is. *)
Example django_db_long_s :
  query_django_db Demo.ok_client Demo.long_s_select []
  = (SuccessEnvelope [] 0 "django_db",
     [PostSql "http://django:8000/api/internal/sql-query/"
        Demo.long_s_select PNone]).
Proof. reflexivity. Qed.

(** ** The admin-only terms of a virtual-RDF source *)




Lemma checked_term_in_force (p : security_policy) (term : string) :
  term ∈ admin_only_terms_of p → term_in_force p term.
Proof.
  unfold admin_only_terms_of, term_in_force.
  destruct (admin_only_sparql_terms p) as [|t ts]; cbn [list_nonempty].
  - intros [_ (pattern & -> & Hin)%list_elem_of_fmap]%list_elem_of_filter.
    right. split; [done |]. by exists pattern.
  - by left.
Qed.




(** The same gate with a policy that gives table patterns only. *)
Example ontop_pattern_terms_gate :
  query_ontop Demo.ok_client Demo.admin_query [] Demo.pattern_policy_ontop
  = (ErrorEnvelope "Ontop policy restriction"
       "This query targets admin-only mapped tables and requires datasource admin rights.",
     []).
Proof. reflexivity. Qed.

(** ** The write-back workflow *)

Section write_back.
Import Workflow.
Implicit Types db : database.
Implicit Types r req : WriteBackRequest.

Lemma valid_operation_elem (op : string) :
  valid_operation op = true ↔ op ∈ ["insert"; "update"; "delete"].
Proof.
  unfold valid_operation. rewrite !orb_true_iff, !eqb_string_true.
  rewrite !elem_of_cons, elem_of_nil. tauto.
Qed.

Lemma find_request_id db pk req :
  find_request db pk = Some req → wb_id req = pk.
Proof.
  unfold find_request. intros [_ H]%find_some. by apply Z.eqb_eq in H.
Qed.


Lemma is_dict_obj (v : json_value) :
  is_dict v = true ↔ ∃ fields, v = JObj fields.
Proof.
  destruct v; simpl; split; try done; try (by intros [? ?]); eauto.
Qed.
End write_back.





(** A request that was rejected stays rejected: the second decision is
    refused. *)
Example rejected_request_is_final :
  Workflow.approve_write_back_request (Demo.tables_with "rejected")
    Demo.root 1 None 100
  = (Workflow.JsonError 400 "Cannot process request in status rejected",
     Demo.tables_with "rejected").
Proof. reflexivity. Qed.

Section creation.
Import Workflow.
Implicit Types (rt : runtime) (db : database) (user : User).
Implicit Types entries : list (string * json_value).

Lemma missing_fields_none entries :
  missing_fields (JObj entries) = Some []
  ↔ ∀ field, field ∈ required → is_Some (obj_get field entries).
Proof.
  assert (∀ P : string → Prop,
            (∀ field, field ∈ required → P field)
            ↔ P "source_id" ∧ P "operation" ∧ P "table_name"
              ∧ P "new_values") as ->.
  { intros P. unfold required. split.
    - intros H. repeat split; apply H; set_solver.
    - intros (? & ? & ? & ?) f.
      rewrite !elem_of_cons, elem_of_nil. intros [->|[->|[->|[->|[]]]]]; done. }
  unfold missing_fields, required. cbn [has_field List.filter default].
  destruct (obj_get "source_id" entries), (obj_get "operation" entries),
    (obj_get "table_name" entries), (obj_get "new_values" entries);
    cbn [negb]; split; try done;
    try (intros (H1 & H2 & H3 & H4);
         first [by destruct H1 | by destruct H2
               | by destruct H3 | by destruct H4]).
Qed.

Lemma creation_allowed_checks rt db user entries (src : DataSource) :
  creation_allowed rt db user entries src ↔
    missing_fields (JObj entries) = Some []
    ∧ valid_operation (operation_of rt entries) = true
    ∧ is_identifier (table_name_of rt entries) = true
    ∧ is_dict (default JNull (obj_get "new_values" entries)) = true
    ∧ match get_old_values entries with
      | Some v => negb (is_dict v)
      | None => false
      end = false
    ∧ (∃ pk, orm_pk rt (default JNull (obj_get "source_id" entries))
             = PkKey pk
             ∧ find_active_source db pk = Some src)
    ∧ ds_allow_write_back src = true
    ∧ is_superuser user
      || has_permission db (ds_pk src) (user_pk user)
           ["write_back"; "admin"] = true.
Proof.
  unfold creation_allowed, operation_of, table_name_of. cbv zeta.
  rewrite valid_operation_elem, orb_true_iff, missing_fields_none.
  assert ((∃ fields, obj_get "new_values" entries = Some (JObj fields))
          ↔ is_dict (default JNull (obj_get "new_values" entries)) = true)
    as Hnew.
  { rewrite is_dict_obj. destruct (obj_get "new_values" entries); simpl.
    - split; intros [f Hf]; exists f; congruence.
    - split; intros [f Hf]; discriminate. }
  assert ((get_old_values entries = None
           ∨ ∃ fields, obj_get "old_values" entries = Some (JObj fields))
          ↔ match get_old_values entries with
            | Some v => negb (is_dict v)
            | None => false
            end = false) as Hold.
  { unfold get_old_values.
    destruct (obj_get "old_values" entries) as [[]|]; simpl;
      split; try done; try (intros _; by left);
      try (intros _; right; by eexists).
    all: intros [?|[? ?]]; done. }
  rewrite Hnew, Hold. tauto.
Qed.

(** A body that is no dict never gets as far as creating a request. *)
Lemma create_not_a_dict rt db user (payload : json_value) :
  is_dict payload = false →
  (create_write_back_request rt db user (Some payload)).2 = db
  ∧ ((create_write_back_request rt db user (Some payload)).1 = ServerError
     ∨ ∃ status error,
         (create_write_back_request rt db user (Some payload)).1
         = JsonError status error).
Proof.
  intros Hdict. unfold create_write_back_request.
  destruct payload; try done; try (split; [done |]; right; by eauto);
    destruct (missing_fields _) as [[|m ms]|]; cbn [fst snd]; eauto.
Qed.

(** What the view does with a dict that has the required keys. *)
Lemma create_from_dict_cases rt db user entries :
  missing_fields (JObj entries) = Some [] →
  (∃ src, creation_allowed rt db user entries src
          ∧ ∃ req,
              create_from_dict rt db user entries
              = (JsonCreated (next_id db) "pending" (wb_operation req),
                 {| data_sources := data_sources db;
                    permissions := permissions db;
                    write_back_requests :=
                      (write_back_requests db ++ [req])%list;
                    next_id := (next_id db + 1)%Z |})
              ∧ wb_id req = next_id db
              ∧ wb_status req = "pending"
              ∧ wb_requested_by req = user_pk user)
  ∨ ((∀ src, ¬ creation_allowed rt db user entries src)
     ∧ (create_from_dict rt db user entries).2 = db
     ∧ ((create_from_dict rt db user entries).1 = ServerError
        ∨ ∃ status error,
            (create_from_dict rt db user entries).1
            = JsonError status error)).
Proof.
  intros Hmiss. unfold create_from_dict.
  destruct (valid_operation _) eqn:Hop; cycle 1.
  { right. split; [| by eauto]. intros src.
    intros (_ & ? & _)%creation_allowed_checks. congruence. }
  destruct (is_identifier _) eqn:Htab; cycle 1.
  { right. split; [| by eauto]. intros src.
    intros (_ & _ & ? & _)%creation_allowed_checks. congruence. }
  destruct (is_dict _) eqn:Hnew; cycle 1.
  { right. split; [| by eauto]. intros src.
    intros (_ & _ & _ & ? & _)%creation_allowed_checks. congruence. }
  cbn [negb].
  destruct (match get_old_values entries with
            | Some v => negb (is_dict v)
            | None => false
            end) eqn:Hold.
  { right. split; [| by eauto]. intros src.
    intros (_ & _ & _ & _ & ? & _)%creation_allowed_checks. congruence. }
  destruct (orm_pk rt _) as [pk| |] eqn:Hpk; cycle 1.
  { right. split; [| by eauto]. intros src.
    intros (_ & _ & _ & _ & _ & (? & ? & _) & _)%creation_allowed_checks.
    congruence. }
  { right. split; [| by eauto]. intros src.
    intros (_ & _ & _ & _ & _ & (? & ? & _) & _)%creation_allowed_checks.
    congruence. }
  destruct (find_active_source db pk) as [src|] eqn:Hsrc; cycle 1.
  { right. split; [| by eauto]. intros src.
    intros (_ & _ & _ & _ & _ & (? & ? & ?) & _)%creation_allowed_checks.
    congruence. }
  destruct (ds_allow_write_back src) eqn:Hwb; cycle 1.
  { right. split; [| by eauto]. intros src'.
    intros (_ & _ & _ & _ & _ & (? & ? & ?) & ? & _)%creation_allowed_checks.
    congruence. }
  cbn [negb].
  destruct (is_superuser user || _) eqn:Hperm; cycle 1.
  { right. split; [| by eauto]. intros src'.
    intros (_ & _ & _ & _ & _ & (? & ? & ?) & _ & ?)%creation_allowed_checks.
    assert (src' = src) as -> by congruence. congruence. }
  cbn [negb]. left. exists src. split.
  - apply creation_allowed_checks. repeat split; try done. by exists pk.
  - eexists. split; [reflexivity |]. done.
Qed.

(** The view either leaves the tables as they are and answers with an
    error, or appends one pending request under the next id. *)
Lemma create_cases rt db user (body : option json_value) :
  ((create_write_back_request rt db user body).2 = db
   ∧ ((create_write_back_request rt db user body).1 = ServerError
      ∨ ∃ status error,
          (create_write_back_request rt db user body).1
          = JsonError status error)
   ∧ ∀ entries src, body = Some (JObj entries) →
                    ¬ creation_allowed rt db user entries src)
  ∨ ∃ entries src req,
      body = Some (JObj entries)
      ∧ creation_allowed rt db user entries src
      ∧ wb_id req = next_id db
      ∧ wb_status req = "pending"
      ∧ wb_requested_by req = user_pk user
      ∧ create_write_back_request rt db user body
        = (JsonCreated (next_id db) "pending" (wb_operation req),
           {| data_sources := data_sources db;
              permissions := permissions db;
              write_back_requests := (write_back_requests db ++ [req])%list;
              next_id := (next_id db + 1)%Z |}).
Proof.
  destruct body as [payload|]; cycle 1.
  { left. split; [done |]. split; [by eauto |]. by intros ? ? [=]. }
  destruct (is_dict payload) eqn:Hdict; cycle 1.
  { left. destruct (create_not_a_dict rt db user payload Hdict) as [-> Herr].
    split; [done |]. split; [done |].
    intros entries src [= ->]. done. }
  apply is_dict_obj in Hdict as [entries ->].
  unfold create_write_back_request.
  destruct (missing_fields (JObj entries)) as [[|m ms]|] eqn:Hmiss;
    cycle 1.
  { left. split; [done |]. split; [by eauto |].
    intros ? src [= <-] (? & _)%creation_allowed_checks. congruence. }
  { left. split; [done |]. split; [by eauto |].
    intros ? src [= <-] (? & _)%creation_allowed_checks. congruence. }
  destruct (create_from_dict_cases rt db user entries Hmiss)
    as [(src & Hallowed & req & -> & Hid & Hst & Hby)
       | (Hnot & -> & Herr)].
  - right. by exists entries, src, req.
  - left. split; [done |]. split; [done |].
    intros ? src [= <-]. apply Hnot.
Qed.
End creation.

(** C8, as stated, fails on the raw fields: an operation written
    [" INSERT "] and a table name written [" graphs_node "] are accepted,
    because the view trims both and lower-cases the operation before it
    checks them. *)
Lemma create_raw_fields_counterexample :
  (" INSERT " ∉ ["insert"; "update"; "delete"])
  ∧ Workflow.is_identifier " graphs_node " = false
  ∧ (Workflow.create_write_back_request Demo.plain_runtime
       (Demo.tables_with "approved") Demo.root (Some Demo.padded_body)).1
    = Workflow.JsonCreated 2 "pending" "insert".
Proof.
  split; [| split; reflexivity].
  intros Hin. apply list_elem_of_In in Hin. simpl in Hin.
  destruct Hin as [?|[?|[?|[]]]]; discriminate.
Qed.

(** C8 (amended): a creation request is answered "created" exactly when
    its body is a JSON object with the required keys, the [source_id] names
    an active source with write-back enabled, the caller is superuser or
    holds [write_back] or [admin] on that source, the operation, read as
    text, trimmed and lower-cased, is insert, update or delete, the table
    name, read as text and trimmed, is an identifier, [new_values] is an
    object and [old_values], when given and not null, is an object; the
    request is then stored with status pending. In every other case the
    answer is an error and the tables are unchanged. *)
Theorem create_write_back_request_spec (rt : Workflow.runtime)
    (db : Workflow.database) (user : Workflow.User)
    (body : option Workflow.json_value) :
  let answer := Workflow.create_write_back_request rt db user body in
  (∀ id status operation,
     answer.1 = Workflow.JsonCreated id status operation →
     status = "pending"
     ∧ (∃ entries src, body = Some (Workflow.JObj entries)
                       ∧ creation_allowed rt db user entries src)
     ∧ ∃ req, Workflow.write_back_requests answer.2
              = (Workflow.write_back_requests db ++ [req])%list
              ∧ Workflow.wb_id req = id
              ∧ Workflow.wb_status req = "pending"
              ∧ Workflow.wb_operation req = operation
              ∧ Workflow.wb_requested_by req = Workflow.user_pk user)
  ∧ (∀ entries src, body = Some (Workflow.JObj entries) →
       creation_allowed rt db user entries src →
       ∃ id operation, answer.1 = Workflow.JsonCreated id "pending" operation)
  ∧ ((∀ entries src, body = Some (Workflow.JObj entries) →
        ¬ creation_allowed rt db user entries src) →
     (answer.1 = Workflow.ServerError
      ∨ ∃ status error, answer.1 = Workflow.JsonError status error)
     ∧ answer.2 = db).
Proof.
  intros answer. subst answer.
  destruct (create_cases rt db user body)
    as [(Hdb & Herr & Hnot)
       | (entries & src & req & -> & Hallowed & Hid & Hst & Hby & ->)].
  - split; [| split].
    + intros id status op Hcreated. rewrite Hcreated in Herr.
      by destruct Herr as [? | (? & ? & ?)].
    + intros entries src -> Hallowed. by destruct (Hnot entries src).
    + done.
  - cbn [fst snd]. split; [| split].
    + intros id status op [= <- <- <-]. split; [done |].
      split; [by eauto |]. by exists req.
    + intros _ _ _ _. eauto.
    + intros Hnot. by destruct (Hnot entries src).
Qed.

Lemma create_write_back_request_spec_witness :
  ∃ id operation,
    (Workflow.create_write_back_request Demo.plain_runtime
       (Demo.tables_with "approved") Demo.root (Some Demo.insert_body)).1
    = Workflow.JsonCreated id "pending" operation.
Proof.
  refine (proj1 (proj2 (create_write_back_request_spec Demo.plain_runtime
                          (Demo.tables_with "approved") Demo.root
                          (Some Demo.insert_body)))
            _ {| Workflow.ds_pk := 5; Workflow.ds_name := "ontop";
                 Workflow.ds_is_active := true;
                 Workflow.ds_allow_write_back := true |} eq_refl _).
  repeat split; try reflexivity.
  - intros field Hfield.
    repeat (apply elem_of_cons in Hfield as [-> | Hfield]; [by eexists |]).
    by apply elem_of_nil in Hfield.
  - by exists 5%Z.
  - by left.
  - refine (bool_decide_unpack _ _). by vm_compute.
  - by eexists.
  - by left.
Defined.

(** A value that is no string is read through [str]: a body whose table
    name is JSON [null] is accepted and stored for the table [None]. *)
Example create_null_table_name :
  (λ answer, (answer.1, Workflow.wb_table_name <$> last
                           (Workflow.write_back_requests answer.2)))
    (Workflow.create_write_back_request Demo.plain_runtime
       (Demo.tables_with "approved") Demo.root (Some Demo.null_table_body))
  = (Workflow.JsonCreated 2 "pending" "insert", Some "None").
Proof. reflexivity. Qed.

(** The message for missing fields names each of them. *)
Example create_missing_fields :
  (Workflow.create_write_back_request Demo.plain_runtime
     (Demo.tables_with "approved") Demo.root
     (Some (Workflow.JObj [("source_id", Workflow.JNum 5);
                           ("table_name", Workflow.JStr "graphs_node")]))).1
  = Workflow.JsonError 400 "Missing required fields: operation, new_values".
Proof. reflexivity. Qed.

(** ** Listing the data sources *)

Section registry.
Implicit Types adapters : gmap string adapter.
Implicit Types s : source.
Implicit Types l : list source.

Lemma ensure_settled adapters s :
  settled adapters s → _ensure_adapter_for_source adapters s = adapters.
Proof.
  unfold settled, _ensure_adapter_for_source.
  intros [Hname|[[a Ha]|Hcls]].
  - by rewrite Hname.
  - destruct (PyStr.nonempty _); [| done]. by rewrite Ha.
  - destruct (PyStr.nonempty _); [| done].
    destruct (adapters !! _); [done |]. by rewrite Hcls.
Qed.

Lemma ensure_cases adapters s :
  _ensure_adapter_for_source adapters s = adapters
  ∨ ∃ a, adapters !! _normalize_source_name (src_name s) = None
         ∧ _ensure_adapter_for_source adapters s
           = <[_normalize_source_name (src_name s) := a]> adapters.
Proof.
  unfold _ensure_adapter_for_source.
  destruct (PyStr.nonempty _); [| by left]. cbn [negb].
  destruct (adapters !! _) eqn:Ha; [by left |].
  destruct (_adapter_classes _); [| by left].
  right. eauto.
Qed.

Lemma ensure_settles adapters s :
  settled (_ensure_adapter_for_source adapters s) s.
Proof.
  destruct (ensure_cases adapters s) as [Heq|(a & Hnone & Heq)].
  - rewrite Heq. unfold settled.
    unfold _ensure_adapter_for_source in Heq.
    destruct (_normalize_source_name (src_name s)) as [|c n] eqn:Hname;
      [by left |].
    cbn [PyStr.nonempty negb] in Heq.
    destruct (adapters !! String c n) as [a|] eqn:Ha; [right; left; eauto |].
    destruct (_adapter_classes _) eqn:Hcls; [| by right; right].
    exfalso. apply (f_equal (λ m, m !! String c n)) in Heq.
    rewrite lookup_insert_eq, Ha in Heq. discriminate.
  - rewrite Heq. right. left. rewrite lookup_insert_eq. eauto.
Qed.

Lemma ensure_keeps_settled adapters s s' :
  settled adapters s → settled (_ensure_adapter_for_source adapters s') s.
Proof.
  intros [Hname|[Ha|Hcls]]; [by left | | by right; right].
  right. left.
  destruct (ensure_cases adapters s') as [->|(a & _ & ->)]; [done |].
  apply lookup_insert_is_Some'. by right.
Qed.

Lemma ensure_all_keeps_settled adapters l s :
  settled adapters s → settled (ensure_all adapters l) s.
Proof.
  unfold ensure_all. revert adapters.
  induction l as [|x l IH]; intros adapters Hs; [done |].
  simpl. by apply IH, ensure_keeps_settled.
Qed.

Lemma ensure_all_settles adapters l s :
  s ∈ l → settled (ensure_all adapters l) s.
Proof.
  unfold ensure_all. revert adapters.
  induction l as [|x l IH]; intros adapters Hin; [by apply elem_of_nil in Hin |].
  simpl. apply elem_of_cons in Hin as [->|Hin].
  - apply (ensure_all_keeps_settled _ l), ensure_settles.
  - by apply IH.
Qed.

Lemma ensure_all_fixed adapters l :
  (∀ s, s ∈ l → settled adapters s) → ensure_all adapters l = adapters.
Proof.
  unfold ensure_all. induction l as [|x l IH]; intros Hl; [done |].
  simpl. rewrite ensure_settled by (apply Hl; left).
  apply IH. intros s Hs. apply Hl. by right.
Qed.

(** Ensuring the adapters of the same sources a second time changes
    nothing. *)
Lemma ensure_all_idempotent adapters l :
  ensure_all (ensure_all adapters l) l = ensure_all adapters l.
Proof. apply ensure_all_fixed. intros s Hs. by apply ensure_all_settles. Qed.
End registry.

Section listing.
Implicit Types records : gmap string source.

Lemma precedes_le_ne (a b : string) : (a ≤ b)%string → a ≠ b → precedes a b.
Proof.
  unfold String.le, precedes, String.leb, String.ltb.
  destruct (a ?= b)%string eqn:Hcmp; [| done | done].
  intros _ Hne. by apply String.compare_eq_iff in Hcmp.
Qed.

Lemma sorted_set_precedes (names : gset string) :
  StronglySorted precedes (sorted_set names).
Proof.
  unfold sorted_set.
  assert (NoDup (merge_sort String.le (elements names))) as Hnd.
  { rewrite merge_sort_Permutation. apply NoDup_elements. }
  assert (StronglySorted String.le (merge_sort String.le (elements names)))
    as Hs by (apply StronglySorted_merge_sort; apply _).
  induction Hs as [|a l Hs IH Hall]; constructor.
  - apply IH. by apply NoDup_cons in Hnd as [_ ?].
  - apply NoDup_cons in Hnd as [Ha _].
    apply Forall_forall. intros b Hb. apply precedes_le_ne.
    + by eapply Forall_forall in Hall.
    + intros ->. done.
Qed.

Lemma elem_of_sorted_set (names : gset string) (n : string) :
  n ∈ sorted_set names ↔ n ∈ names.
Proof.
  unfold sorted_set. by rewrite merge_sort_Permutation, elem_of_elements.
Qed.

Lemma make_source_payload_name (api : adapter_api)
    (adapters : gmap string adapter) records (n : string) :
  n ∈ dom records →
  ∃ p, make_source_payload api adapters records n = Some p ∧ sp_name p = n.
Proof.
  intros [r Hr]%elem_of_dom. unfold make_source_payload. rewrite Hr.
  destruct (adapters !! n); eexists; split; reflexivity.
Qed.

Lemma payload_names (api : adapter_api) (adapters : gmap string adapter)
    records (names : list string) :
  (∀ n, n ∈ names → n ∈ dom records) →
  map sp_name (omap (make_source_payload api adapters records) names) = names.
Proof.
  induction names as [|n names IH]; intros Hdom; [done |].
  destruct (make_source_payload_name api adapters records n) as (p & Hp & Hn).
  { apply Hdom. left. }
  cbn [omap list_omap]. rewrite Hp. simpl. rewrite Hn. f_equal.
  apply IH. intros k Hk. apply Hdom. by right.
Qed.

Lemma dom_source_records (l : list source) (n : string) :
  n ∈ dom (source_records_of l) →
  ∃ s, s ∈ l ∧ n = _normalize_source_name (src_name s).
Proof.
  unfold source_records_of.
  assert (∀ (l' : list source) (m : gmap string source),
            n ∈ dom (foldl (λ m s, <[_normalize_source_name (src_name s) := s]> m)
                           m l') →
            n ∈ dom m
            ∨ ∃ s, s ∈ l' ∧ n = _normalize_source_name (src_name s)) as Hgen.
  { induction l' as [|x l' IH]; intros m Hn; [by left |].
    simpl in Hn. apply IH in Hn as [Hn|(s & Hs & ->)].
    - apply dom_insert in Hn. apply elem_of_union in Hn as [Hn|Hn].
      + apply elem_of_singleton in Hn. right. exists x. split; [left | done].
      + by left.
    - right. exists s. split; [by right | done]. }
  intros Hn. apply Hgen in Hn as [Hn|(s & Hs & ->)].
  - by rewrite dom_empty in Hn.
  - apply list_elem_of_filter in Hs as [_ Hs]. eauto.
Qed.
End listing.

(** C9: calling the listing twice against the same Django state gives
    the same answer twice, whatever adapters the first call registered; the
    payloads come in strictly ascending order of their names, and each name
    is the normalized name of a source listed for the caller. *)
Theorem get_data_sources_idempotent (W : django) (api : adapter_api)
    (adapters : gmap string adapter) (authorization : option string) :
  let first := get_data_sources W api adapters authorization in
  let second := get_data_sources W api first.2 authorization in
  second.1 = first.1
  ∧ second.2 = first.2
  ∧ ∀ payloads, first.1 = Ok payloads →
      StronglySorted precedes (map sp_name payloads)
      ∧ ∀ p, p ∈ payloads →
          ∃ user_id s, s ∈ _fetch_accessible_sources_for_user W user_id
                       ∧ sp_name p = _normalize_source_name (src_name s).
Proof.
  intros first second. subst first second. unfold get_data_sources.
  destruct (_resolve_request_user W authorization) as [caller|st d]; [| done].
  destruct (payload_truthy caller); cbn [fst snd];
    rewrite ensure_all_idempotent; (split; [done |]); (split; [done |]).
  - intros payloads [= <-]. rewrite payload_names
      by (intros n Hn; by apply elem_of_sorted_set in Hn).
    split; [apply sorted_set_precedes |].
    intros p Hp. apply list_elem_of_omap in Hp as (n & Hn & Hp).
    apply elem_of_sorted_set in Hn.
    destruct (make_source_payload_name api
                (ensure_all adapters
                   (_fetch_accessible_sources_for_user W
                      (dict_get "user_id" (default [] caller))))
                _ n Hn) as (p' & Hp' & Hname).
    assert (p' = p) as -> by congruence.
    apply dom_source_records in Hn as (s & Hs & ->). eauto.
  - intros payloads [= <-]. rewrite payload_names
      by (intros n Hn; by apply elem_of_sorted_set in Hn).
    split; [apply sorted_set_precedes |].
    intros p Hp. apply list_elem_of_omap in Hp as (n & Hn & Hp).
    apply elem_of_sorted_set in Hn.
    destruct (make_source_payload_name api
                (ensure_all adapters
                   (filter (λ s, _is_public_source_record s = true)
                      (_fetch_accessible_sources_for_user W PNone)))
                _ n Hn) as (p' & Hp' & Hname).
    assert (p' = p) as -> by congruence.
    apply dom_source_records in Hn as (s & Hs & ->).
    apply list_elem_of_filter in Hs as [_ Hs]. eauto.
Qed.

(** An anonymous caller of the example service sees the two public
    sources, in name order, on every call. *)
Example get_data_sources_twice :
  let first := get_data_sources Demo.demo_django Demo.demo_api ∅ None in
  let second :=
    get_data_sources Demo.demo_django Demo.demo_api first.2 None in
  Demo.listed_names first.1 = Some ["open_terms"; "wikidata"]
  ∧ Demo.listed_names second.1 = Some ["open_terms"; "wikidata"].
Proof. vm_compute. split; reflexivity. Qed.

Lemma get_data_sources_idempotent_witness :
  ∃ payloads,
    (get_data_sources Demo.demo_django Demo.demo_api ∅ None).1
    = Ok payloads
    ∧ StronglySorted precedes (map sp_name payloads).
Proof.
  eexists. split; [vm_compute; reflexivity |].
  refine (proj1 (proj2 (proj2 (get_data_sources_idempotent Demo.demo_django
                                 Demo.demo_api ∅ None)) _ _)).
  vm_compute. reflexivity.
Defined.

Lemma resolve_rejects_every_offender_witness :
  (_resolve_sources_for_request Demo.demo_django ∅
     (Some ["Wikidata"; "Private Ontop"; " "; "Ghost"]) None).1
  = Err 401 "Authentication required for sources: private_ontop, ghost".
Proof.
  refine (proj1 (resolve_rejects_every_offender Demo.demo_django ∅
                   ["Wikidata"; "Private Ontop"; " "; "Ghost"] None None
                   eq_refl _)).
  exists "Ghost". split; [| split].
  - refine (bool_decide_unpack _ _). by vm_compute.
  - by vm_compute.
  - refine (bool_decide_unpack _ _). by vm_compute.
Defined.

Lemma is_public_source_record_spec_witness :
  _is_public_source_record Demo.open_terms = true.
Proof.
  apply (proj2 (is_public_source_record_spec Demo.open_terms)).
  right. right. left. split; [reflexivity | discriminate].
Defined.

(** * Further properties of the gateway and of the views *)

(** ** Characters and trimming *)

Ltac each_char c := destruct c as [[] [] [] [] [] [] [] []].

Section trimming.
Implicit Types s u : string.
Implicit Types c : ascii.

Lemma lower_char_is_space c :
  PyStr.is_space (PyStr.lower_char c) = PyStr.is_space c.
Proof. each_char c; reflexivity. Qed.

Lemma map_chars_compose (f g : ascii → ascii) s :
  PyStr.map_chars f (PyStr.map_chars g s) = PyStr.map_chars (λ c, f (g c)) s.
Proof. induction s as [|c s IH]; simpl; congruence. Qed.

Lemma map_chars_ext (f g : ascii → ascii) s :
  (∀ c, f c = g c) → PyStr.map_chars f s = PyStr.map_chars g s.
Proof. intros Hfg. induction s as [|c s IH]; simpl; congruence. Qed.

Lemma lstrip_length s :
  (String.length (PyStr.lstrip s) ≤ String.length s)%nat.
Proof.
  induction s as [|c s IH]; simpl; [done |].
  destruct (PyStr.is_space c); simpl; lia.
Qed.

Lemma lstrip_fixed_head c s :
  PyStr.lstrip (String c s) = String c s → PyStr.is_space c = false.
Proof.
  simpl. destruct (PyStr.is_space c); [| done].
  intros Heq. pose proof (lstrip_length s) as Hlen.
  rewrite Heq in Hlen. simpl in Hlen. lia.
Qed.

Lemma lstrip_idempotent s : PyStr.lstrip (PyStr.lstrip s) = PyStr.lstrip s.
Proof.
  induction s as [|c s IH]; simpl; [done |].
  destruct (PyStr.is_space c) eqn:Hc; [done |]. simpl. by rewrite Hc.
Qed.

Lemma rstrip_cons_nonspace c s :
  PyStr.is_space c = false →
  PyStr.rstrip (String c s) = String c (PyStr.rstrip s).
Proof. intros Hc. simpl. rewrite Hc. by destruct (PyStr.rstrip s). Qed.

Lemma rstrip_idempotent s : PyStr.rstrip (PyStr.rstrip s) = PyStr.rstrip s.
Proof.
  induction s as [|c s IH]; [done |].
  simpl. destruct (PyStr.rstrip s) as [|d r] eqn:Hr.
  - destruct (PyStr.is_space c) eqn:Hc; [done |]. simpl. by rewrite Hc.
  - change (PyStr.rstrip (String c (String d r)))
      with (match PyStr.rstrip (String d r) with
            | EmptyString =>
                if PyStr.is_space c then EmptyString else String c EmptyString
            | r' => String c r'
            end).
    by rewrite IH.
Qed.

Lemma strip_trimmed s : trimmed (PyStr.strip s).
Proof.
  unfold trimmed, PyStr.strip. split; [| apply rstrip_idempotent].
  pose proof (lstrip_idempotent s) as Hl.
  destruct (PyStr.lstrip s) as [|c t]; [done |].
  apply lstrip_fixed_head in Hl.
  rewrite rstrip_cons_nonspace by done. simpl. by rewrite Hl.
Qed.

Lemma trimmed_strip u : trimmed u → PyStr.strip u = u.
Proof. intros [Hl Hr]. unfold PyStr.strip. by rewrite Hl, Hr. Qed.

Lemma rstrip_map_fixed (f : ascii → ascii) u :
  (∀ c, PyStr.is_space c = false → PyStr.is_space (f c) = false) →
  PyStr.rstrip u = u →
  PyStr.rstrip (PyStr.map_chars f u) = PyStr.map_chars f u.
Proof.
  intros Hf. induction u as [|c u IH]; [done |].
  simpl. destruct (PyStr.rstrip u) as [|d r] eqn:Hr.
  - destruct (PyStr.is_space c) eqn:Hc; [done |].
    intros [= <-]. simpl. by rewrite Hf.
  - intros [= <-]. rewrite IH by done. reflexivity.
Qed.

(** A character map that keeps non-space characters non-space keeps a
    trimmed string trimmed. *)
Lemma trimmed_map_chars (f : ascii → ascii) u :
  (∀ c, PyStr.is_space c = false → PyStr.is_space (f c) = false) →
  trimmed u → trimmed (PyStr.map_chars f u).
Proof.
  intros Hf [Hl Hr]. split; [| by apply rstrip_map_fixed].
  destruct u as [|c u]; [done |].
  apply lstrip_fixed_head in Hl. simpl. by rewrite Hf.
Qed.

Lemma no_blank_replace_space s : no_blank (PyStr.replace_space s).
Proof.
  unfold no_blank, PyStr.replace_space.
  induction s as [|c s IH]; simpl; [done |].
  rewrite IH, andb_true_r. by destruct (Ascii.eqb c " ") eqn:Hc; [| rewrite Hc].
Qed.
End trimming.

(** X1: normalizing a source name twice gives the same key as
    normalizing it once, and the key has no blank and no white space at
    either end. *)
Theorem normalize_source_name_idempotent (name : option string) :
  _normalize_source_name (Some (_normalize_source_name name))
  = _normalize_source_name name
  ∧ no_blank (_normalize_source_name name)
  ∧ trimmed (_normalize_source_name name).
Proof.
  assert (trimmed (_normalize_source_name name)) as Htrim.
  { unfold _normalize_source_name, PyStr.replace_space, PyStr.lower.
    apply trimmed_map_chars.
    { intros c Hc. destruct (Ascii.eqb c " ") eqn:Heq; [| done].
      apply Ascii.eqb_eq in Heq. by subst c. }
    apply trimmed_map_chars; [| apply strip_trimmed].
    intros c Hc. by rewrite lower_char_is_space. }
  split; [| split; [apply no_blank_replace_space | done]].
  unfold _normalize_source_name at 1. cbn [PyStr.or_empty].
  rewrite trimmed_strip by done.
  unfold _normalize_source_name, PyStr.replace_space, PyStr.lower.
  rewrite !map_chars_compose. apply map_chars_ext.
  intros c. each_char c; reflexivity.
Qed.

(** ** Bearer tokens *)

Section bearer.
Implicit Types s a b : string.

Lemma split_first_space_app a b :
  no_blank a → split_first_space (a ++ " " ++ b) = Some (a, b).
Proof.
  unfold no_blank. induction a as [|c a IH]; [done |].
  simpl. intros [Hc Ha]%andb_true_iff.
  change (String c a ++ " " ++ b) with (String c (a ++ " " ++ b)).
  simpl. apply negb_true_iff in Hc. rewrite Hc. by rewrite IH.
Qed.

Lemma split_first_space_inv s a b :
  split_first_space s = Some (a, b) → s = a ++ " " ++ b ∧ no_blank a.
Proof.
  unfold no_blank. revert a. induction s as [|c s IH]; intros a; [done |].
  simpl. destruct (Ascii.eqb c " ") eqn:Hc.
  - intros [= <- <-]. apply Ascii.eqb_eq in Hc. by subst c.
  - destruct (split_first_space s) as [[a' b']|]; [| done].
    intros [= <- <-]. destruct (IH a' eq_refl) as [-> Ha].
    split; [done |]. simpl. by rewrite Hc, Ha.
Qed.

Lemma no_blank_lower s : no_blank (PyStr.lower s) → no_blank s.
Proof.
  unfold no_blank, PyStr.lower. induction s as [|c s IH]; [done |].
  simpl. intros [Hc Hs]%andb_true_iff. rewrite IH by done.
  rewrite andb_true_r. destruct (Ascii.eqb c " ") eqn:Heq; [| done].
  apply Ascii.eqb_eq in Heq. by subst c.
Qed.
End bearer.

(** X2: a bearer token is extracted exactly from a header made of a
    scheme that reads "bearer" in any case, one space, and a rest that is
    not blank; the token is that rest without surrounding white space. *)
Theorem extract_bearer_token_spec (authorization : option string)
    (token : string) :
  _extract_bearer_token authorization = Some token ↔
    ∃ scheme rest,
      authorization = Some (scheme ++ " " ++ rest)
      ∧ PyStr.lower scheme = "bearer"
      ∧ token = PyStr.strip rest
      ∧ token ≠ "".
Proof.
  unfold _extract_bearer_token. split.
  - destruct authorization as [a|]; [| done].
    destruct (PyStr.nonempty a); [| done]. cbn [negb].
    destruct (split_first_space a) as [[scheme rest]|] eqn:Hsplit; [| done].
    apply split_first_space_inv in Hsplit as [-> _].
    destruct (String.eqb (PyStr.lower scheme) "bearer") eqn:Hs; [| done].
    destruct (PyStr.nonempty (PyStr.strip rest)) eqn:Hr; [| done].
    intros [= <-]. exists scheme, rest. apply eqb_string_true in Hs.
    repeat split; try done. intros Hempty. by rewrite Hempty in Hr.
  - intros (scheme & rest & -> & Hs & -> & Hne).
    assert (no_blank scheme) as Hnb by (apply no_blank_lower; by rewrite Hs).
    assert (PyStr.nonempty (scheme ++ " " ++ rest) = true) as ->.
    { destruct scheme; [by destruct rest | done]. }
    cbn [negb]. rewrite split_first_space_app by done.
    rewrite Hs. destruct (PyStr.strip rest); done.
Qed.

(** ** Query classification *)

Section classification.
Implicit Types q t ws k rest : Uni.text.
Implicit Types s w kw : string.

Lemma lstrip_app_spaces w s :
  PyStr.all_chars PyStr.is_space w = true →
  PyStr.lstrip (w ++ s) = PyStr.lstrip s.
Proof.
  induction w as [|c w IH]; [done |].
  simpl. intros [Hc Hw]%andb_true_iff.
  change (String c w ++ s) with (String c (w ++ s)).
  simpl. rewrite Hc. by apply IH.
Qed.

Lemma text_lstrip_app_spaces ws t :
  forallb Uni.is_space ws = true →
  Uni.lstrip (ws ++ t)%list = Uni.lstrip t.
Proof.
  induction ws as [|c ws IH]; [done |].
  simpl. intros [Hc Hws]%andb_true_iff. rewrite Hc. by apply IH.
Qed.

Lemma strip_keyword_intro kw k rest :
  reads_ignoring_case kw k →
  Uni.strip_keyword kw (k ++ rest)%list = Some rest.
Proof.
  unfold reads_ignoring_case. revert k.
  induction kw as [|p kw IH]; intros k Hk; simpl in *.
  - by apply Forall2_nil_inv_l in Hk as ->.
  - apply Forall2_cons_inv_l in Hk as (c & k' & Hc & Hk' & ->).
    simpl. rewrite Hc. by apply IH.
Qed.

Lemma matches_letter_cases (p : ascii) (c : N) :
  Uni.matches_letter p c = true →
  (c = PyStr.code p ∨ c = PyStr.code p - 32 ∨ c = 304 ∨ c = 305
   ∨ c = 8490 ∨ c = 383)%N.
Proof.
  unfold Uni.matches_letter. cbv zeta.
  rewrite !orb_true_iff, !andb_true_iff, !orb_true_iff, !N.eqb_eq. tauto.
Qed.

(** A text that reads as one of the keywords begins with a code point
    that is no white space. *)
Lemma keyword_head kw k rest :
  kw ∈ sparql_keywords →
  reads_ignoring_case kw k →
  Uni.lstrip (k ++ rest)%list = (k ++ rest)%list.
Proof.
  unfold sparql_keywords, reads_ignoring_case.
  rewrite !elem_of_cons, elem_of_nil.
  intros [->|[->|[->|[->|[->|[]]]]]]; cbn [list_ascii_of_string];
    intros (c & k' & Hc%matches_letter_cases & _ & ->)%Forall2_cons_inv_l;
    cbn in Hc; destruct Hc as [->|[->|[->|[->|[->| ->]]]]]; reflexivity.
Qed.

Lemma match_keyword_intro ws kw k rest :
  forallb Uni.is_space ws = true →
  kw ∈ sparql_keywords →
  reads_ignoring_case kw k →
  Uni.at_word_end rest = true →
  Uni.match_keyword kw (ws ++ k ++ rest)%list = true.
Proof.
  intros Hws Hkw Hk Hend. unfold Uni.match_keyword.
  rewrite text_lstrip_app_spaces by done.
  rewrite (keyword_head kw) by done.
  by rewrite strip_keyword_intro.
Qed.
End classification.

(** X3: a text, of any code points, is classified as SPARQL exactly when,
    after optional leading white space, it begins with one of the five
    keywords, case being ignored the way [re.IGNORECASE] ignores it (so
    that the long s, the Kelvin sign and the dotted and dotless i also
    stand for s, k and i), and the keyword ends the text or is followed by
    a code point that is not alphanumeric and not an underscore. *)
Theorem is_sparql_query_spec (query_text : Uni.text) :
  _is_sparql_query query_text = true ↔
    ∃ ws k rest,
      query_text = (ws ++ k ++ rest)%list
      ∧ forallb Uni.is_space ws = true
      ∧ (∃ kw, kw ∈ sparql_keywords ∧ reads_ignoring_case kw k)
      ∧ Uni.at_word_end rest = true.
Proof.
  unfold _is_sparql_query. fold sparql_keywords. rewrite existsb_exists. split.
  - intros (kw & Hin & Hm). apply list_elem_of_In in Hin.
    unfold Uni.match_keyword in Hm.
    destruct (Uni.strip_keyword kw (Uni.lstrip query_text)) as [rest|] eqn:Hkw;
      [| done].
    apply strip_keyword_split in Hkw as (k & Hk & Hread).
    destruct (text_lstrip_split query_text) as (ws & Hq & Hws).
    exists ws, k, rest. rewrite <- Hk.
    split; [done |]. split; [done |]. split; [by exists kw | done].
  - intros (ws & k & rest & -> & Hws & (kw & Hkw & Hread) & Hend).
    exists kw. split; [by apply list_elem_of_In |].
    by apply match_keyword_intro.
Qed.

(** The classification agrees with the interpreter on texts that
    [str.lower] would not turn into a keyword. *)
Example is_sparql_query_examples :
  _is_sparql_query [97; 383; 107; 32; 123; 125]%N = true
  ∧ _is_sparql_query [97; 115; 8490]%N = true
  ∧ _is_sparql_query [12288; 100; 101; 115; 99; 114; 304; 98; 101; 32]%N = true
  ∧ _is_sparql_query [97; 115; 8490; 1234]%N = false
  ∧ _is_sparql_query (Uni.of_string "selection") = false.
Proof. repeat split. Qed.

(** ** Terms derived from table patterns *)

Lemma remove_chars_clean (drop : ascii → bool) (s : string) :
  PyStr.all_chars (λ c, negb (drop c)) (remove_chars drop s) = true.
Proof.
  induction s as [|c s IH]; simpl; [done |].
  destruct (drop c) eqn:Hc; [done |]. simpl. by rewrite Hc, IH.
Qed.

(** X4: when a policy gives no explicit admin-only terms, every term
    that is checked comes from one of its table patterns, is not empty and
    holds none of the wildcard characters [%], [*] and [_]; a pattern made of
    wildcards only yields no term. *)
Theorem derived_admin_terms_clean (p : security_policy) (term : string) :
  admin_only_sparql_terms p = [] →
  term ∈ admin_only_terms_of p →
  term ≠ ""
  ∧ PyStr.all_chars (λ c, negb (is_wildcard c)) term = true
  ∧ ∃ pattern, pattern ∈ admin_only_table_patterns p
               ∧ term = _to_term_from_pattern pattern.
Proof.
  intros Hdirect. unfold admin_only_terms_of. rewrite Hdirect.
  intros [Hne Hin]%list_elem_of_filter.
  apply list_elem_of_fmap in Hin as (pattern & -> & Hin).
  split; [by intros Heq; rewrite Heq in Hne |].
  split; [apply remove_chars_clean | eauto].
Qed.

Lemma derived_admin_terms_clean_witness :
  "admin" ≠ ""
  ∧ PyStr.all_chars (λ c, negb (is_wildcard c)) "admin" = true
  ∧ ∃ pattern,
      pattern ∈ admin_only_table_patterns (policy_of Demo.pattern_policy_ontop)
      ∧ "admin" = _to_term_from_pattern pattern.
Proof.
  apply (derived_admin_terms_clean (policy_of Demo.pattern_policy_ontop) "admin").
  - reflexivity.
  - refine (bool_decide_unpack _ _). by vm_compute.
Defined.

(** ** Outbound calls of the SPARQL handlers *)

Section suffixes.
Implicit Types s a b : string.

Lemma append_assoc a b s : (a ++ b) ++ s = a ++ (b ++ s).
Proof.
  induction a as [|c a IH]; [done |].
  change ((String c a ++ b) ++ s) with (String c ((a ++ b) ++ s)).
  by rewrite IH.
Qed.

Lemma append_empty_r a : a ++ "" = a.
Proof.
  induction a as [|c a IH]; [done |].
  change (String c a ++ "") with (String c (a ++ "")). by rewrite IH.
Qed.

Lemma rev_app_acc a s :
  String.rev_app a s = String.rev_app a "" ++ s.
Proof.
  revert s. induction a as [|c a IH]; intros s; [done |].
  simpl. rewrite (IH (String c s)), (IH (String c "")).
  by rewrite append_assoc.
Qed.

Lemma rev_append a b : String.rev (a ++ b) = String.rev b ++ String.rev a.
Proof.
  unfold String.rev. induction a as [|c a IH].
  - change ("" ++ b) with b. simpl. by rewrite append_empty_r.
  - change (String c a ++ b) with (String c (a ++ b)). simpl.
    rewrite (rev_app_acc (a ++ b)), IH, (rev_app_acc a (String c "")).
    by rewrite append_assoc.
Qed.

Lemma ends_with_app s suffix : ends_with suffix (s ++ suffix) = true.
Proof. unfold ends_with. rewrite rev_append. apply prefix_app_same. Qed.
End suffixes.

(** X5: the triple-store and virtual-RDF handlers make at most one
    outbound call, only for a text classified as SPARQL; the call carries
    the query text unchanged and goes to an address that ends in [/sparql]
    or [/query]. *)
Theorem sparql_handlers_call_shape (client : http_client) (sparql : string)
    (user_info : user_payload) (source_data : source) :
  ∀ calls,
    calls = (query_ontop client sparql user_info source_data).2
    ∨ calls = (query_oxigraph client sparql user_info source_data).2 →
    calls = []
    ∨ ∃ url, calls = [PostSparql url sparql]
             ∧ _is_sparql_query (Uni.of_string sparql) = true
             ∧ (ends_with "/sparql" url = true ∨ ends_with "/query" url = true).
Proof.
  intros calls [-> | ->].
  - unfold query_ontop.
    destruct (_is_sparql_query (Uni.of_string sparql)) eqn:Hs; [| by left].
    cbn [negb].
    destruct (_ && _ && _); [by left |]. right. cbn [snd].
    eexists. split; [reflexivity |]. split; [done |].
    destruct (negb (ends_with "/sparql" _) && negb (ends_with "/query" _))
      eqn:Hsuffix.
    + left. apply ends_with_app.
    + apply andb_false_iff in Hsuffix as [H|H]; apply negb_false_iff in H; eauto.
  - unfold query_oxigraph.
    destruct (_is_sparql_query (Uni.of_string sparql)) eqn:Hs; [| by left].
    cbn [negb].
    right. cbn [snd].
    eexists. split; [reflexivity |]. split; [done |].
    destruct (negb (ends_with "/sparql" _) && negb (ends_with "/query" _))
      eqn:Hsuffix.
    + right. apply ends_with_app.
    + apply andb_false_iff in Hsuffix as [H|H]; apply negb_false_iff in H; eauto.
Qed.

Lemma sparql_handlers_call_shape_witness :
  (query_oxigraph Demo.ok_client Demo.admin_query [] Demo.open_terms).2 = []
  ∨ ∃ url,
      (query_oxigraph Demo.ok_client Demo.admin_query [] Demo.open_terms).2
      = [PostSparql url Demo.admin_query]
      ∧ _is_sparql_query (Uni.of_string Demo.admin_query) = true
      ∧ (ends_with "/sparql" url = true ∨ ends_with "/query" url = true).
Proof.
  apply (sparql_handlers_call_shape Demo.ok_client Demo.admin_query []
           Demo.open_terms).
  right. reflexivity.
Defined.

(** X6: the virtual-RDF handler answers with the policy restriction only
    to a caller without admin rights whose query contains, in any case, one
    of the admin-only terms in force for the source: an explicit term, or,
    when the policy gives none, a term derived from a table pattern. In that
    case no call is made. A caller with admin rights is never answered this
    way. *)
Theorem ontop_policy_restriction_only_when_due (client : http_client)
    (sparql : string) (user_info : user_payload) (source_data : source)
    (detail : string) :
  (query_ontop client sparql user_info source_data).1
  = ErrorEnvelope "Ontop policy restriction" detail →
  src_can_admin source_data = false
  ∧ (query_ontop client sparql user_info source_data).2 = []
  ∧ ∃ term, term_in_force (policy_of source_data) term
            ∧ PyStr.strip term ≠ ""
            ∧ PyStr.contains (PyStr.lower (PyStr.strip term))
                (PyStr.lower sparql) = true.
Proof.
  unfold query_ontop.
  destruct (_is_sparql_query (Uni.of_string sparql)); [| done]. cbn [negb].
  destruct (list_nonempty _ && negb (src_can_admin source_data)
            && _query_mentions_admin_term sparql _) eqn:Hgate.
  - intros _. apply andb_true_iff in Hgate as [Hgate Hmention].
    apply andb_true_iff in Hgate as [_ Hadmin].
    apply negb_true_iff in Hadmin. split; [done |]. split; [done |].
    unfold _query_mentions_admin_term in Hmention.
    apply existsb_exists in Hmention as (term & Hin & Hterm).
    apply andb_true_iff in Hterm as [Hne Hsub].
    exists term. split.
    { apply checked_term_in_force. by apply list_elem_of_In. }
    split; [| done].
    intros Hblank. by rewrite Hblank in Hne.
  - cbn [fst]. destruct (client _) as [response|message]; [| done].
    destruct (negb (status_code response =? 200)%Z); [done |].
    destruct (String.prefix _ (content_type response)); [| done].
    by destruct (json response).
Qed.

Lemma ontop_policy_restriction_only_when_due_witness :
  src_can_admin Demo.mixed_policy_ontop = false
  ∧ (query_ontop Demo.ok_client Demo.secret_query []
       Demo.mixed_policy_ontop).2 = []
  ∧ ∃ term, term_in_force (policy_of Demo.mixed_policy_ontop) term
            ∧ PyStr.strip term ≠ ""
            ∧ PyStr.contains (PyStr.lower (PyStr.strip term))
                (PyStr.lower Demo.secret_query) = true.
Proof.
  apply (ontop_policy_restriction_only_when_due Demo.ok_client
           Demo.secret_query [] Demo.mixed_policy_ontop
           "This query targets admin-only mapped tables and requires datasource admin rights.").
  reflexivity.
Defined.

(** X7: the triple-store handler never reports the legacy type name: a
    successful answer for a source typed [fuseki] carries the type
    [oxigraph], and a text that is not SPARQL is refused without a call. *)
Theorem oxigraph_reports_canonical_type (client : http_client)
    (sparql : string) (user_info : user_payload) (source_data : source) :
  (∀ results total source_type,
     (query_oxigraph client sparql user_info source_data).1
     = SuccessEnvelope results total source_type →
     source_type ≠ "fuseki"
     ∧ (src_type source_data = Some "fuseki" → source_type = "oxigraph"))
  ∧ (_is_sparql_query (Uni.of_string sparql) = false →
     query_oxigraph client sparql user_info source_data
     = (ErrorEnvelope "Unsupported query" "Oxigraph expects SPARQL query text",
        [])).
Proof.
  unfold query_oxigraph. split.
  - intros results total source_type.
    destruct (_is_sparql_query (Uni.of_string sparql)); [| done].
    cbn [negb fst].
    destruct (client _) as [response|message]; [| done].
    destruct (negb (status_code response =? 200)%Z); [done |].
    set (t := default "oxigraph" _).
    assert (∀ st, (if String.eqb t "fuseki" then "oxigraph" else t) = st →
                  st ≠ "fuseki"
                  ∧ (src_type source_data = Some "fuseki" → st = "oxigraph"))
      as Htype.
    { intros st <-. destruct (String.eqb t "fuseki") eqn:Ht.
      - split; [done | done].
      - apply eqb_string_false in Ht. split; [done |].
        intros Hf. exfalso. apply Ht. unfold t. by rewrite Hf. }
    destruct (String.prefix _ (content_type response)).
    + destruct (json response); [| done]. intros [= _ _ H]. by apply Htype.
    + intros [= _ _ H]. by apply Htype.
  - by intros ->.
Qed.

Lemma oxigraph_reports_canonical_type_witness :
  query_oxigraph Demo.ok_client "DROP ALL" [] Demo.open_terms
  = (ErrorEnvelope "Unsupported query" "Oxigraph expects SPARQL query text", []).
Proof.
  apply (proj2 (oxigraph_reports_canonical_type Demo.ok_client "DROP ALL" []
                  Demo.open_terms)).
  reflexivity.
Defined.

(** ** The external API handler *)

Lemma replace_absent (old new s : string) :
  old ≠ "" → PyStr.contains old s = false → PyMore.replace old new s = s.
Proof.
  intros Hold. unfold PyMore.replace.
  induction s as [|c s IH]; [done |].
  rewrite contains_unfold. intros [Hhere Hrest]%orb_false_iff.
  cbn [PyMore.replace_go]. rewrite Hhere. by rewrite IH.
Qed.

(** X8: the external API handler serves Wikidata only, and makes at most
    one backend call. For any other source it answers "Unsupported API"
    without a call. For a Wikidata source, SPARQL text goes out in one HTTP
    request, unchanged when it does not mention the [knowbrow:] prefix; any
    other text is not posted but handed, as it is and with limit 20, to the
    search of the adapter registered as [wikidata], and when there is none
    no call is made. *)
Theorem external_api_calls (api : adapter_api)
    (render : Z → string → string) (adapters : gmap string adapter)
    (client : http_client) (sparql : string) (user_info : user_payload)
    (source_data : source) :
  let is_wikidata :=
    PyStr.contains "wikidata" (PyStr.lower (PyStr.or_empty (src_name source_data)))
    || PyStr.contains "wikidata"
         (default "" (assoc_get "api_url" (src_connection_config source_data))) in
  let answer :=
    query_external_api api render adapters client sparql user_info source_data in
  (List.length answer.2 ≤ 1)%nat
  ∧ (is_wikidata = false →
     answer = (ReplyError "Unsupported API"
                 (Some "Only Wikidata external API is currently supported"), []))
  ∧ (is_wikidata = true → _is_sparql_query (Uni.of_string sparql) = false →
     answer.2 = match adapters !! "wikidata" with
                | Some a => [AdapterSearch a sparql 20]
                | None => []
                end)
  ∧ (is_wikidata = true → _is_sparql_query (Uni.of_string sparql) = true →
     (∃ url text, answer.2 = [Http (PostSparql url text)])
     ∧ (PyStr.contains "knowbrow:" sparql = false →
        ∃ url, answer.2 = [Http (PostSparql url sparql)])).
Proof.
  intros is_wikidata answer. subst answer. unfold query_external_api.
  assert (PyStr.or_empty (or_str (src_name source_data) None)
          = PyStr.or_empty (src_name source_data)) as ->.
  { by destruct (src_name source_data) as [[|]|]. }
  fold is_wikidata. unfold get_adapter.
  destruct is_wikidata, (_is_sparql_query (Uni.of_string sparql));
    cbn [andb fst snd];
    destruct (adapters !! "wikidata") as [a|]; cbn [fst snd List.length];
    (split; [lia |]); (split; [done |]); (split; [done |]);
    try done; intros _ _; (split; [by eauto |]);
    intros Habsent; rewrite replace_absent by done; eauto.
Qed.

Lemma external_api_calls_witness :
  (query_external_api Demo.demo_api Demo2.render
     {["wikidata" := Demo2.wikidata_adapter]} Demo.ok_client
     "heart" [] Demo2.wikidata_api).2
  = [AdapterSearch Demo2.wikidata_adapter "heart" 20].
Proof.
  exact (proj1 (proj2 (proj2 (external_api_calls Demo.demo_api Demo2.render
                                {["wikidata" := Demo2.wikidata_adapter]}
                                Demo.ok_client "heart" [] Demo2.wikidata_api)))
           eq_refl eq_refl).
Defined.

(** ** The unified query endpoint *)

Section unified.
Implicit Types s a b : string.

Lemma lower_append a b :
  PyStr.lower (a ++ b) = PyStr.lower a ++ PyStr.lower b.
Proof.
  unfold PyStr.lower. induction a as [|c a IH]; [done |].
  change (String c a ++ b) with (String c (a ++ b)). simpl.
  rewrite IH. reflexivity.
Qed.

Lemma lower_char_colon (c : ascii) :
  PyStr.lower_char c = ":"%char → c = ":"%char.
Proof. each_char c; by intros [=]. Qed.

Lemma lower_char_not_colon (c d : ascii) :
  PyStr.lower_char c = d → d ≠ ":"%char → Ascii.eqb c ":" = false.
Proof.
  intros <- Hd. apply Ascii.eqb_neq. intros ->. by apply Hd.
Qed.

Lemma append_cons (c : ascii) a b : String c a ++ b = String c (a ++ b).
Proof. reflexivity. Qed.

Lemma split_first_skip (sep c : ascii) s :
  Ascii.eqb c sep = false →
  PyMore.split_first sep (String c s)
  = match PyMore.split_first sep s with
    | Some (a, b) => Some (String c a, b)
    | None => None
    end.
Proof. intros H. cbn [PyMore.split_first]. by rewrite H. Qed.

Lemma split_first_here (sep : ascii) s :
  PyMore.split_first sep (String sep s) = Some ("", s).
Proof. cbn [PyMore.split_first]. by rewrite Ascii.eqb_refl. Qed.

Lemma split_after_marker (marker rest : string) :
  PyStr.lower marker = "search:" →
  ∃ before, PyMore.split_first ":" (marker ++ rest) = Some (before, rest).
Proof.
  unfold PyStr.lower.
  destruct marker as [|c1 [|c2 [|c3 [|c4 [|c5 [|c6 [|c7 [|]]]]]]]];
    try discriminate.
  intros [= H1 H2 H3 H4 H5 H6 H7].
  apply lower_char_colon in H7 as ->.
  rewrite !append_cons.
  rewrite (split_first_skip _ c1) by (by eapply lower_char_not_colon).
  rewrite (split_first_skip _ c2) by (by eapply lower_char_not_colon).
  rewrite (split_first_skip _ c3) by (by eapply lower_char_not_colon).
  rewrite (split_first_skip _ c4) by (by eapply lower_char_not_colon).
  rewrite (split_first_skip _ c5) by (by eapply lower_char_not_colon).
  rewrite (split_first_skip _ c6) by (by eapply lower_char_not_colon).
  rewrite split_first_here. eauto.
Qed.
End unified.

(** X9: a query that begins with the marker [search:], written in any
    case, asks for the adapter search whatever the declared query type; the
    text searched for is what follows the marker, without surrounding white
    space, so that taking it never fails. *)
Theorem search_marker_text (request : QueryRequest) (marker rest : string) :
  rq_query request = marker ++ rest →
  PyStr.lower marker = "search:" →
  wants_search request = true
  ∧ search_text_of request = Some (PyStr.strip rest).
Proof.
  intros Hq Hmarker.
  assert (PyMore.starts_with "search:" (PyStr.lower (rq_query request)) = true)
    as Hstart.
  { rewrite Hq, lower_append, Hmarker. apply prefix_app_same. }
  unfold wants_search, search_text_of. rewrite Hstart, orb_true_r.
  split; [done |]. rewrite Hq.
  by destruct (split_after_marker marker rest Hmarker) as (before & ->).
Qed.

Lemma search_marker_text_witness :
  wants_search Demo2.search_request = true
  ∧ search_text_of Demo2.search_request = Some "heart".
Proof.
  apply (search_marker_text Demo2.search_request "Search:" " heart ");
    reflexivity.
Defined.

Lemma query_ontop_one_call (client : http_client) (sparql : string)
    (user_info : user_payload) (source_data : source) :
  (List.length (query_ontop client sparql user_info source_data).2 ≤ 1)%nat.
Proof.
  unfold query_ontop.
  destruct (negb (_is_sparql_query (Uni.of_string sparql))); [simpl; lia |].
  destruct (_ && _ && _); simpl; lia.
Qed.

Lemma query_oxigraph_one_call (client : http_client) (sparql : string)
    (user_info : user_payload) (source_data : source) :
  (List.length (query_oxigraph client sparql user_info source_data).2 ≤ 1)%nat.
Proof.
  unfold query_oxigraph.
  destruct (negb (_is_sparql_query (Uni.of_string sparql))); simpl; lia.
Qed.

Lemma query_external_api_one_call (api : adapter_api)
    (render : Z → string → string) (adapters : gmap string adapter)
    (client : http_client) (sparql : string) (user_info : user_payload)
    (source_data : source) :
  (List.length (query_external_api api render adapters client sparql
                  user_info source_data).2 ≤ 1)%nat.
Proof.
  unfold query_external_api.
  destruct (_ && _); [simpl; lia |]. destruct (_ || _); [| simpl; lia].
  destruct (get_adapter adapters "wikidata"); simpl; lia.
Qed.

Ltac kinds_subset :=
  let k := fresh "k" in
  let Hk := fresh "Hk" in
  intros k Hk; apply list_elem_of_In in Hk; apply list_elem_of_In;
  simpl in *; tauto.

(** X10: apart from its two requests to Django, the unified endpoint
    makes at most one backend call, an HTTP request of a query handler or a
    search through an adapter. It makes none when the token is rejected
    (the answer is "Invalid token" and the adapter registry stays as it
    was) and when the source type is none of the five it dispatches on. A
    request that asks for a search sends no HTTP request to a query backend:
    its only call is the search, with limit 20, of the adapter registered
    under the normalized name of the source, for the search text. *)
Theorem unified_query_backend_calls (W : django)
    (detail_endpoint : Z → option pyval → option source)
    (api : adapter_api) (render : Z → string → string)
    (client : http_client) (adapters : gmap string adapter)
    (request : QueryRequest) :
  let answer :=
    unified_query W detail_endpoint api render client adapters request in
  (List.length answer.2 ≤ 1)%nat
  ∧ (auth_validate W (rq_token request) = None →
     answer = (ReplyError "Invalid token" None, adapters, []))
  ∧ (∀ payload source_data,
       auth_validate W (rq_token request) = Some payload →
       _fetch_data_source_for_user detail_endpoint (rq_source_id request)
         (dict_get "user_id" payload) = Ok source_data →
       (wants_search request = true →
        ∀ call, call ∈ answer.2 →
          ∃ a search_text,
            answer.1.2 !! _normalize_source_name (src_name source_data) = Some a
            ∧ search_text_of request = Some search_text
            ∧ call = AdapterSearch a search_text 20)
       ∧ (wants_search request = false →
          type_in (or_str (src_type source_data) (src_source_type source_data))
            ["django_db"; "fuseki"; "oxigraph"; "external_api"; "ontop"]
          = false →
          answer.1.1
          = ReplyError "Unsupported source"
              (Some ("Source type "
                     ++ str_opt (or_str (src_type source_data)
                                        (src_source_type source_data))
                     ++ " not supported"))
          ∧ answer.2 = [])).
Proof.
  intros answer. subst answer. unfold unified_query, _validate_user_token.
  destruct (auth_validate W (rq_token request)) as [payload|] eqn:Hval;
    cycle 1.
  { cbn. repeat split; try done; lia. }
  destruct (_fetch_data_source_for_user detail_endpoint (rq_source_id request)
              (dict_get "user_id" payload)) as [source_data|st d] eqn:Hsrc;
    cycle 1.
  { cbn. split; [lia |]. split; [done |].
    intros p s [= <-] Hs. by rewrite Hsrc in Hs. }
  remember (or_str (src_type source_data) (src_source_type source_data))
    as source_type eqn:Hst.
  destruct (wants_search request) eqn:Hsearch.
  { destruct (search_text_of request) as [search_text|].
    - unfold get_adapter.
      destruct (_ensure_adapter_for_source adapters source_data
                  !! _normalize_source_name (src_name source_data))
        as [a|] eqn:Ha; cbn [fst snd List.length];
        (split; [lia |]); (split; [done |]);
        intros p s [= <-] Hs; rewrite Hsrc in Hs; injection Hs as <-;
        (split; [| done]); intros _ call Hcall.
      + apply list_elem_of_singleton in Hcall as ->. eauto.
      + by apply elem_of_nil in Hcall.
    - cbn [fst snd List.length]. split; [lia |]. split; [done |].
      intros p s _ _. split; [| done].
      intros _ call Hcall. by apply elem_of_nil in Hcall. }
  assert (∀ kinds,
            type_in source_type kinds = true →
            (∀ k, k ∈ kinds →
               k ∈ ["django_db"; "fuseki"; "oxigraph"; "external_api"; "ontop"]) →
            ∀ (p : user_payload) (s : source),
              Some payload = Some p →
              _fetch_data_source_for_user detail_endpoint (rq_source_id request)
                (dict_get "user_id" p) = Ok s →
              type_in (or_str (src_type s) (src_source_type s))
                ["django_db"; "fuseki"; "oxigraph"; "external_api"; "ontop"]
              = false → False) as Hclash.
  { intros kinds Hin Hsub p s [= <-] Hs Hty.
    rewrite Hsrc in Hs. injection Hs as <-. rewrite <- Hst in Hty.
    destruct source_type as [t|]; [| done]. simpl in Hin.
    apply existsb_exists in Hin as (k & Hk & Heq).
    apply eqb_string_true in Heq as <-.
    assert (existsb (String.eqb t)
              ["django_db"; "fuseki"; "oxigraph"; "external_api"; "ontop"]
            = true) as Hall.
    { apply existsb_exists. exists t. split; [| apply String.eqb_refl].
      apply list_elem_of_In, Hsub. by apply list_elem_of_In. }
    simpl in Hty, Hall. congruence. }
  destruct (type_in source_type ["django_db"]) eqn:H1.
  { destruct (query_django_db _ _ _) as [e calls] eqn:Hq.
    cbn [fst snd]. split; [| split; [done |]].
    - rewrite length_map. replace calls with (e, calls).2 by done.
      rewrite <- Hq. unfold query_django_db. destruct (negb _); simpl; lia.
    - intros p s Hp Hs. split; [done |]. intros _ Hty. exfalso.
      eapply (Hclash _ H1); [| done..]. kinds_subset. }
  destruct (type_in source_type ["fuseki"; "oxigraph"]) eqn:H2.
  { destruct (query_oxigraph _ _ _ _) as [e calls] eqn:Hq.
    cbn [fst snd]. split; [| split; [done |]].
    - rewrite length_map. replace calls with (e, calls).2 by done.
      rewrite <- Hq. apply query_oxigraph_one_call.
    - intros p s Hp Hs. split; [done |]. intros _ Hty. exfalso.
      eapply (Hclash _ H2); [| done..]. kinds_subset. }
  destruct (type_in source_type ["external_api"]) eqn:H3.
  { destruct (query_external_api _ _ _ _ _ _ _) as [e calls] eqn:Hq.
    cbn [fst snd]. split; [| split; [done |]].
    - replace calls with (e, calls).2 by done.
      rewrite <- Hq. apply query_external_api_one_call.
    - intros p s Hp Hs. split; [done |]. intros _ Hty. exfalso.
      eapply (Hclash _ H3); [| done..]. kinds_subset. }
  destruct (type_in source_type ["ontop"]) eqn:H4.
  { destruct (query_ontop _ _ _ _) as [e calls] eqn:Hq.
    cbn [fst snd]. split; [| split; [done |]].
    - rewrite length_map. replace calls with (e, calls).2 by done.
      rewrite <- Hq. apply query_ontop_one_call.
    - intros p s Hp Hs. split; [done |]. intros _ Hty. exfalso.
      eapply (Hclash _ H4); [| done..]. kinds_subset. }
  cbn. split; [lia |]. split; [done |].
  intros p s [= <-] Hs. rewrite Hsrc in Hs. injection Hs as <-.
  split; [done |]. intros _ _. by rewrite <- Hst.
Qed.

Lemma unified_query_backend_calls_witness :
  unified_query Demo.demo_django Demo2.detail_endpoint Demo.demo_api
    Demo2.render Demo.ok_client ∅
    {| rq_token := "stale"; rq_source_id := 1;
       rq_query := "SELECT 1"; rq_query_type := "SQL" |}
  = (ReplyError "Invalid token" None, ∅, []).
Proof.
  apply (proj1 (proj2 (unified_query_backend_calls Demo.demo_django
                         Demo2.detail_endpoint Demo.demo_api Demo2.render
                         Demo.ok_client ∅
                         {| rq_token := "stale"; rq_source_id := 1;
                            rq_query := "SELECT 1"; rq_query_type := "SQL" |}))).
  reflexivity.
Defined.

(** A search request against the OLS source: the one backend call is the
    search of the adapter that the endpoint has just registered. *)
Example unified_query_search_call :
  (unified_query Demo.demo_django Demo2.detail_endpoint Demo.demo_api
     Demo2.render Demo.ok_client ∅ Demo2.search_request).2
  = [AdapterSearch
       {| ad_class := OLSAdapter;
          ad_config := {| cfg_source := Demo.open_terms; cfg_overrides := [];
                          cfg_name := "open_terms";
                          cfg_source_type := Some "ols";
                          cfg_endpoint_url := None |} |}
       "heart" 20].
Proof. by vm_compute. Qed.

(** ** Name lists of the capability snapshot *)

Lemma sorted_unique_sorted (values : list string) :
  StronglySorted precedes (_sorted_unique values).
Proof. apply sorted_set_precedes. Qed.

Lemma elem_of_sorted_unique (values : list string) (v : string) :
  v ∈ _sorted_unique values ↔ v ∈ values ∧ v ≠ "".
Proof.
  unfold _sorted_unique.
  rewrite elem_of_sorted_set, elem_of_list_to_set, list_elem_of_filter.
  destruct v; simpl; split; intros [? ?]; done.
Qed.

(** X11: [_sorted_unique] returns the non-empty strings of its argument,
    each once, in strictly ascending order. *)
Theorem sorted_unique_spec (values : list string) :
  StronglySorted precedes (_sorted_unique values)
  ∧ ∀ v, v ∈ _sorted_unique values ↔ v ∈ values ∧ v ≠ "".
Proof.
  split; [apply sorted_unique_sorted | apply elem_of_sorted_unique].
Qed.

Section snapshot.
Implicit Types c : capabilities.

(** The sources the snapshot is computed from: the listing for the
    caller that the token, if any, resolves to. *)
Lemma capabilities_inv (W : django) (authorization : option string) c :
  get_capabilities W authorization = Ok c →
  ∃ caller : option user_payload,
    _resolve_request_user W authorization = Ok caller
    ∧ authenticated c = (if caller is Some _ then true else false)
    ∧ public (sources c)
      = _sorted_unique
          (map (λ s, _normalize_source_name (src_name s))
               (filter (λ s, _is_public_source_record s = true)
                  (listed_for W caller)))
    ∧ private (sources c)
      = (if caller is Some _ then
           _sorted_unique
             (filter (λ n, n ∉ (list_to_set (public (sources c)) : gset string))
                (_sorted_unique
                   (map (λ s, _normalize_source_name (src_name s))
                      (listed_for W caller))))
         else [])
    ∧ accessible (sources c)
      = (if caller is Some _ then
           _sorted_unique
             (map (λ s, _normalize_source_name (src_name s))
                (listed_for W caller))
         else public (sources c))
    ∧ can_write_back (features c)
      = (if caller is Some _ then true else false)
        && existsb (λ s, src_allow_write_back s
                         && (src_can_admin s || src_can_manage s))
             (listed_for W caller)
    ∧ can_manage_sources (features c)
      = (if caller is Some _ then true else false)
        && existsb (λ s, src_can_admin s || src_can_manage s)
             (listed_for W caller).
Proof.
  unfold get_capabilities, _resolve_request_user, listed_for.
  destruct (_extract_bearer_token authorization) as [token|] eqn:Htoken.
  - rewrite (extracted_token_nonempty _ _ Htoken).
    destruct (_validate_user_token W token) as [payload|st d]; [| done].
    intros [= <-]. exists (Some payload). split; [done |]. cbn. done.
  - intros [= <-]. exists None. split; [done |]. cbn. done.
Qed.
End snapshot.

(** X12: in every capability snapshot the three name lists are strictly
    ascending and no name is both public and private. With [caller] the
    identity the request resolves to: a name is public exactly when it is
    the non-empty normalized name of a source that is listed for that
    caller and classifies as public; a private name is the name of a source
    listed for that caller and of no such source that classifies as public;
    and for an authenticated caller the accessible names are exactly the
    public and the private ones. *)
Theorem capabilities_name_lists (W : django) (authorization : option string)
    (caller : option user_payload) (c : capabilities) :
  _resolve_request_user W authorization = Ok caller →
  get_capabilities W authorization = Ok c →
  StronglySorted precedes (public (sources c))
  ∧ StronglySorted precedes (private (sources c))
  ∧ StronglySorted precedes (accessible (sources c))
  ∧ (∀ n, n ∈ private (sources c) → n ∉ public (sources c))
  ∧ (∀ n, n ∈ public (sources c) ↔
          n ≠ "" ∧ ∃ s, s ∈ listed_for W caller
                        ∧ _is_public_source_record s = true
                        ∧ n = _normalize_source_name (src_name s))
  ∧ (∀ n, n ∈ private (sources c) →
       (∃ s, s ∈ listed_for W caller
             ∧ n = _normalize_source_name (src_name s))
       ∧ ∀ s, s ∈ listed_for W caller →
              n = _normalize_source_name (src_name s) →
              _is_public_source_record s = false)
  ∧ (authenticated c = true →
     ∀ n, n ∈ accessible (sources c)
          ↔ (n ∈ public (sources c) ∨ n ∈ private (sources c))).
Proof.
  intros Hcaller
    (caller' & Hcaller' & Hauth & Hpub & Hpriv & Hacc & _)%capabilities_inv.
  assert (caller' = caller) as -> by congruence. clear Hcaller'.
  set (l := listed_for W caller) in *.
  assert (∀ n, n ∈ public (sources c) ↔
               n ≠ "" ∧ ∃ s, s ∈ l ∧ _is_public_source_record s = true
                             ∧ n = _normalize_source_name (src_name s))
    as Hpub_in.
  { intros n. rewrite Hpub. rewrite elem_of_sorted_unique.
    rewrite list_elem_of_fmap. split.
    - intros [(s & -> & [? ?]%list_elem_of_filter) ?]. eauto.
    - intros [? (s & ? & ? & ->)]. split; [| done].
      exists s. split; [done |]. by apply list_elem_of_filter. }
  assert (∀ n, n ∈ private (sources c) →
               (n ∉ public (sources c))
               ∧ n ≠ "" ∧ ∃ s, s ∈ l ∧ n = _normalize_source_name (src_name s))
    as Hpriv_in.
  { intros n. rewrite Hpriv. destruct caller; [| by intros ?%elem_of_nil].
    rewrite elem_of_sorted_unique, list_elem_of_filter.
    rewrite elem_of_sorted_unique, list_elem_of_fmap.
    rewrite elem_of_list_to_set.
    intros [[? [(s & -> & ?) ?]] ?]. eauto. }
  split; [rewrite Hpub; apply sorted_unique_sorted |].
  split. { rewrite Hpriv. destruct caller; [apply sorted_unique_sorted | constructor]. }
  split. { rewrite Hacc. destruct caller; [apply sorted_unique_sorted |].
           rewrite Hpub. apply sorted_unique_sorted. }
  split; [intros n Hn; by apply Hpriv_in |].
  split; [exact Hpub_in |].
  split.
  - intros n Hn.
    destruct (Hpriv_in n Hn) as (Hnot & Hne & s & Hs & ->).
    split; [eauto |]. intros s' Hs' Heq.
    destruct (_is_public_source_record s') eqn:Hp; [| done].
    exfalso. apply Hnot, Hpub_in. eauto.
  - rewrite Hauth. destruct caller; [| done]. intros _ n.
    rewrite Hacc, Hpriv.
    rewrite !elem_of_sorted_unique, list_elem_of_filter.
    rewrite elem_of_sorted_unique, elem_of_list_to_set.
    destruct (decide (n ∈ public (sources c))) as [Hin|Hout].
    + split; [intros _; by left |]. intros _.
      apply Hpub_in in Hin as (? & s & ? & ? & ->). split; [| done].
      apply list_elem_of_fmap. eauto.
    + split; [intros [? ?]; by right | intros [? | [[_ ?] _]]; done].
Qed.

Lemma capabilities_name_lists_witness :
  ∃ c, get_capabilities Demo.demo_django (Some "Bearer token123") = Ok c
       ∧ StronglySorted precedes (accessible (sources c))
       ∧ ∀ n, n ∈ private (sources c) →
           ∃ s, s ∈ listed_for Demo.demo_django (Some Demo.alice)
                ∧ n = _normalize_source_name (src_name s).
Proof.
  eexists. split; [vm_compute; reflexivity |].
  refine (let H := capabilities_name_lists Demo.demo_django
                     (Some "Bearer token123") (Some Demo.alice) _ _ _ in
          conj (proj1 (proj2 (proj2 H)))
               (λ n Hn, proj1 (proj1 (proj2 (proj2 (proj2 (proj2 (proj2 H)))))
                                 n Hn))).
  - reflexivity.
  - vm_compute. reflexivity.
Defined.

(** X13: a snapshot offers write-back only to an authenticated caller,
    only together with source management, and only when some source that
    is listed for the identity the request resolves to has write-back
    enabled and grants admin or manage rights. *)
Theorem capabilities_write_back_flag (W : django)
    (authorization : option string) (caller : option user_payload)
    (c : capabilities) :
  _resolve_request_user W authorization = Ok caller →
  get_capabilities W authorization = Ok c →
  can_write_back (features c) = true →
  authenticated c = true
  ∧ caller ≠ None
  ∧ can_manage_sources (features c) = true
  ∧ ∃ s, s ∈ listed_for W caller
         ∧ src_allow_write_back s = true
         ∧ (src_can_admin s = true ∨ src_can_manage s = true).
Proof.
  intros Hcaller
    (caller' & Hcaller' & Hauth & _ & _ & _ & Hwb & Hman)%capabilities_inv.
  assert (caller' = caller) as -> by congruence. clear Hcaller'.
  rewrite Hwb, Hman, Hauth.
  intros [Hsome (s & Hs & [Hallow Hrights]%andb_true_iff)%existsb_exists]
    %andb_true_iff.
  rewrite Hsome. split; [done |]. split; [by destruct caller |]. split.
  - apply existsb_exists. eauto.
  - exists s. split; [by apply list_elem_of_In |].
    split; [done |]. by apply orb_true_iff.
Qed.

Lemma capabilities_write_back_flag_witness :
  ∃ c, get_capabilities Demo2.managed_django (Some "Bearer token123") = Ok c
       ∧ authenticated c = true
       ∧ ∃ s, s ∈ listed_for Demo2.managed_django (Some Demo.alice)
              ∧ src_allow_write_back s = true
              ∧ (src_can_admin s = true ∨ src_can_manage s = true).
Proof.
  eexists. split; [vm_compute; reflexivity |].
  refine (let H := capabilities_write_back_flag Demo2.managed_django
                     (Some "Bearer token123") (Some Demo.alice) _ _ _ _ in
          conj (proj1 H) (proj2 (proj2 (proj2 H)))).
  - reflexivity.
  - vm_compute. reflexivity.
  - reflexivity.
Defined.

(** ** What source resolution returns and what it registers *)

Section resolution.
Implicit Types adapters : gmap string adapter.
Implicit Types l : list source.

Lemma check_requested_ok (status : Z) (prefix : string)
    (allowed : gset string) (requested : option (list string))
    (names : list string) :
  check_requested status prefix allowed requested = Ok names →
  (∀ n, n ∈ names → n ∈ allowed)
  ∧ match requested with
    | Some req => names = req
    | None => names = sorted_set allowed
    end.
Proof.
  unfold check_requested. destruct requested as [req|].
  - destruct (filter (λ n, n ∉ allowed) req) as [|x f] eqn:Hf; [| done].
    intros [= <-].
    assert (∀ n, n ∈ req → n ∈ allowed) as Hall.
    { intros n Hn. destruct (decide (n ∈ allowed)) as [|Hout]; [done |].
      assert (n ∈ filter (λ n, n ∉ allowed) req) as Hin
        by (by apply list_elem_of_filter).
      rewrite Hf in Hin. by apply elem_of_nil in Hin. }
    split.
    + intros n [? ?]%list_elem_of_filter. done.
    + clear Hf. induction req as [|x req IH]; [done |].
      rewrite filter_cons_True by (apply Hall; left).
      f_equal. apply IH. intros n Hn. apply Hall. by right.
  - intros [= <-]. split; [| done].
    intros n Hn. by apply elem_of_sorted_set in Hn.
Qed.

Lemma resolve_unfold (W : django) adapters
    (requested : option (list string)) (authorization : option string)
    (caller : option user_payload) :
  _resolve_request_user W authorization = Ok caller →
  _resolve_sources_for_request W adapters requested authorization
  = (check_requested (if payload_truthy caller then 403 else 401)%Z
       (if payload_truthy caller then "Access denied for sources: "
        else "Authentication required for sources: ")
       (allowed_names W caller) (normalize_requested requested),
     ensure_all adapters
       (if payload_truthy caller then
          _fetch_accessible_sources_for_user W
            (dict_get "user_id" (default [] caller))
        else
          filter (λ s, _is_public_source_record s = true)
            (_fetch_accessible_sources_for_user W PNone))).
Proof.
  intros Huser. unfold _resolve_sources_for_request, allowed_names.
  rewrite Huser. by destruct (payload_truthy caller).
Qed.

Lemma ensure_lookup adapters (s : source) (k : string) (a : adapter) :
  _ensure_adapter_for_source adapters s !! k = Some a →
  adapters !! k = Some a
  ∨ (adapters !! k = None
     ∧ k = _normalize_source_name (src_name s)
     ∧ cfg_source (ad_config a) = s
     ∧ cfg_name (ad_config a) = k).
Proof.
  unfold _ensure_adapter_for_source.
  destruct (PyStr.nonempty _); [| by left]. cbn [negb].
  destruct (adapters !! _normalize_source_name (src_name s)) eqn:Hk;
    [by left |].
  destruct (_adapter_classes _); [| by left].
  destruct (decide (k = _normalize_source_name (src_name s))) as [->|Hne].
  - rewrite lookup_insert_eq. intros [= <-]. right. done.
  - rewrite lookup_insert_ne by done. by left.
Qed.

Lemma ensure_keeps adapters (s : source) (k : string) (a : adapter) :
  adapters !! k = Some a → _ensure_adapter_for_source adapters s !! k = Some a.
Proof.
  intros Hk. destruct (ensure_cases adapters s) as [->|(b & Hnone & ->)];
    [done |].
  rewrite lookup_insert_ne; [done |]. intros <-. congruence.
Qed.

Lemma ensure_all_keeps adapters l (k : string) (a : adapter) :
  adapters !! k = Some a → ensure_all adapters l !! k = Some a.
Proof.
  unfold ensure_all. revert adapters.
  induction l as [|s l IH]; intros adapters Hk; [done |].
  simpl. by apply IH, ensure_keeps.
Qed.

Lemma ensure_all_lookup adapters l (k : string) (a : adapter) :
  ensure_all adapters l !! k = Some a →
  adapters !! k = Some a
  ∨ (adapters !! k = None
     ∧ ∃ s, s ∈ l ∧ k = _normalize_source_name (src_name s)
            ∧ cfg_source (ad_config a) = s
            ∧ cfg_name (ad_config a) = k).
Proof.
  unfold ensure_all. revert adapters.
  induction l as [|s l IH]; intros adapters Hk; [by left |].
  simpl in Hk. apply IH in Hk as [Hk | (Hnone & s' & Hs' & Hrest)].
  - apply ensure_lookup in Hk as [Hk | (Hnone & Hrest)]; [by left |].
    right. split; [done |]. exists s. split; [left | done].
  - right. split.
    + destruct (adapters !! k) as [b|] eqn:Hb; [| done].
      apply (ensure_keeps _ s) in Hb. congruence.
    + exists s'. split; [by right | done].
Qed.
End resolution.

(** X14: when source resolution succeeds, every name it returns is in
    the caller's accessible set; with explicit sources it returns the
    requested names, normalized, in request order, and without them the
    whole accessible set in ascending order. *)
Theorem resolve_returns_allowed_names (W : django)
    (adapters : gmap string adapter) (requested : option (list string))
    (authorization : option string) (caller : option user_payload)
    (names : list string) :
  _resolve_request_user W authorization = Ok caller →
  (_resolve_sources_for_request W adapters requested authorization).1
  = Ok names →
  (∀ n, n ∈ names → n ∈ allowed_names W caller)
  ∧ match requested with
    | Some (r :: rs) => names = requested_names (r :: rs)
    | _ => names = sorted_set (allowed_names W caller)
    end.
Proof.
  intros Huser. rewrite (resolve_unfold _ _ _ _ _ Huser). cbn [fst].
  intros [Hall Hshape]%check_requested_ok. split; [done |].
  destruct requested as [[|r rs]|]; [done | | done].
  rewrite normalize_requested_names in Hshape; done.
Qed.

Lemma resolve_returns_allowed_names_witness :
  "open_terms" ∈ allowed_names Demo.demo_django None.
Proof.
  refine (proj1 (resolve_returns_allowed_names Demo.demo_django ∅
                   (Some ["Wikidata"; "Open Terms"]) None None
                   ["wikidata"; "open_terms"] eq_refl _) "open_terms" _).
  - vm_compute. reflexivity.
  - do 2 constructor.
Defined.

(** X15: source resolution only adds to the adapter registry. An adapter
    that was registered stays under its name unchanged. With [caller] the
    identity the request resolves to, an adapter that is new was built from
    a source that Django lists for that caller (and that classifies as
    public when there is no identity), is stored under that source's
    normalized name and carries this name in its configuration. When the
    token is rejected the registry stays as it was. *)
Theorem resolve_extends_registry (W : django)
    (adapters : gmap string adapter) (requested : option (list string))
    (authorization : option string) :
  let adapters' :=
    (_resolve_sources_for_request W adapters requested authorization).2 in
  (∀ k a, adapters !! k = Some a → adapters' !! k = Some a)
  ∧ (∀ caller, _resolve_request_user W authorization = Ok caller →
       ∀ k a, adapters' !! k = Some a →
         adapters !! k = Some a
         ∨ (adapters !! k = None
            ∧ ∃ s, s ∈ listed_for W caller
                   ∧ (payload_truthy caller = false →
                      _is_public_source_record s = true)
                   ∧ k = _normalize_source_name (src_name s)
                   ∧ cfg_source (ad_config a) = s
                   ∧ cfg_name (ad_config a) = k))
  ∧ (∀ status detail,
       _resolve_request_user W authorization = Err status detail →
       adapters' = adapters).
Proof.
  intros adapters'. subst adapters'.
  destruct (_resolve_request_user W authorization) as [caller|st d] eqn:Huser.
  - rewrite (resolve_unfold _ _ _ _ _ Huser). cbn [snd].
    split; [| split; [| done]].
    + intros k a. apply ensure_all_keeps.
    + intros ? [= <-] k a Hk.
      apply ensure_all_lookup in Hk as [Hk | (Hnone & s & Hs & Hrest)];
        [by left |].
      right. split; [done |]. exists s. unfold listed_for.
      destruct (payload_truthy caller).
      * done.
      * apply list_elem_of_filter in Hs as [Hpub Hs]. done.
  - unfold _resolve_sources_for_request. rewrite Huser. cbn [snd].
    split; [done |]. split; [done |]. done.
Qed.

(** X16: a request without a bearer token never makes the gateway build
    an adapter for a source that does not classify as public. *)
Theorem anonymous_resolution_registers_public_only (W : django)
    (adapters : gmap string adapter) (requested : option (list string))
    (authorization : option string) (k : string) (a : adapter) :
  _extract_bearer_token authorization = None →
  (_resolve_sources_for_request W adapters requested authorization).2 !! k
  = Some a →
  adapters !! k = Some a
  ∨ ∃ s, s ∈ _fetch_accessible_sources_for_user W PNone
         ∧ _is_public_source_record s = true
         ∧ k = _normalize_source_name (src_name s)
         ∧ cfg_source (ad_config a) = s.
Proof.
  intros Htoken.
  assert (_resolve_request_user W authorization = Ok None) as Huser.
  { unfold _resolve_request_user. by rewrite Htoken. }
  rewrite (resolve_unfold _ _ _ _ _ Huser). cbn [snd payload_truthy].
  intros [Hk | (_ & s & Hs & -> & Hsrc & _)]%ensure_all_lookup; [by left |].
  apply list_elem_of_filter in Hs as [Hpub Hs]. right. eauto.
Qed.

Lemma anonymous_resolution_registers_public_only_witness :
  ∃ s, s ∈ _fetch_accessible_sources_for_user Demo.demo_django PNone
       ∧ _is_public_source_record s = true
       ∧ "wikidata" = _normalize_source_name (src_name s)
       ∧ cfg_source (ad_config Demo2.wikidata_adapter) = s.
Proof.
  destruct (anonymous_resolution_registers_public_only Demo.demo_django ∅ None
              None "wikidata" Demo2.wikidata_adapter eq_refl) as [Hk | H].
  - vm_compute. reflexivity.
  - by rewrite lookup_empty in Hk.
  - exact H.
Defined.

Lemma resolve_extends_registry_witness :
  Demo2.legacy_registry !! "wikidata" = Some Demo2.wikidata_adapter
  ∨ (Demo2.legacy_registry !! "wikidata" = None
     ∧ ∃ s, s ∈ listed_for Demo.demo_django None
            ∧ (payload_truthy None = false → _is_public_source_record s = true)
            ∧ "wikidata" = _normalize_source_name (src_name s)
            ∧ cfg_source (ad_config Demo2.wikidata_adapter) = s
            ∧ cfg_name (ad_config Demo2.wikidata_adapter) = "wikidata").
Proof.
  refine (proj1 (proj2 (resolve_extends_registry Demo.demo_django
                          Demo2.legacy_registry None None))
            None eq_refl "wikidata" Demo2.wikidata_adapter _).
  by vm_compute.
Defined.

(** ** Search results *)

Section search_results.
Implicit Types l : list QuickSearchResult.

Lemma key_ltb_irrefl (a b : Qc * Qc) : key_ltb a b = true → a ≠ b.
Proof.
  intros Hlt ->. pose proof (key_ltb_asym _ _ Hlt). congruence.
Qed.

Lemma insert_desc_filter_key (k : Qc * Qc) (x : QuickSearchResult) l :
  filter (λ r, sort_key r = k) (insert_desc x l)
  = filter (λ r, sort_key r = k) (x :: l).
Proof.
  induction l as [|y l IH]; [done |].
  simpl. destruct (key_ltb (sort_key x) (sort_key y)) eqn:Hlt; [| done].
  apply key_ltb_irrefl in Hlt.
  rewrite (filter_cons _ y (insert_desc x l)), IH.
  rewrite (filter_cons _ x (y :: l)), (filter_cons _ y l),
    (filter_cons _ x l).
  destruct (decide (sort_key x = k)) as [Hx|Hx];
    destruct (decide (sort_key y = k)) as [Hy|Hy]; try done.
  congruence.
Qed.
End search_results.

(** X17: sorting the search results is stable: results with the same
    confidence and the same relevance score stay in the order in which the
    sources delivered them. *)
Theorem sort_desc_stable (k : Qc * Qc) (l : list QuickSearchResult) :
  filter (λ r, sort_key r = k) (sort_desc l) = filter (λ r, sort_key r = k) l.
Proof.
  unfold sort_desc. induction l as [|x l IH]; [done |].
  simpl. rewrite insert_desc_filter_key.
  rewrite !(filter_cons _ x). by rewrite IH.
Qed.

(** X18: a search answers with at most [limit] results, and each of them
    was returned by the adapter of a source that is in the caller's
    accessible set. *)
Theorem search_results_from_allowed_sources (W : django) (api : adapter_api)
    (adapters : gmap string adapter) (query : string)
    (sources : option (list string)) (limit : nat)
    (authorization : option string) (caller : option user_payload)
    (results : list QuickSearchResult) :
  _resolve_request_user W authorization = Ok caller →
  (search W api adapters query sources limit authorization).1 = Ok results →
  (List.length results ≤ limit)%nat
  ∧ ∀ r, r ∈ results →
      ∃ name a found,
        name ∈ allowed_names W caller
        ∧ (search W api adapters query sources limit authorization).2 !! name
          = Some a
        ∧ adapter_search api a query limit = Returned found
        ∧ r ∈ found.
Proof.
  intros Huser. unfold search.
  rewrite (resolve_unfold _ _ _ _ _ Huser).
  destruct (check_requested _ _ _ _) as [names|st d] eqn:Hcheck; [| done].
  cbn [fst snd]. intros [= <-].
  apply check_requested_ok in Hcheck as [Hall _].
  split; [rewrite length_take; lia |].
  intros r Hr. apply elem_of_take in Hr as (i & Hr & _).
  apply list_elem_of_lookup_2 in Hr.
  rewrite sort_desc_Permutation in Hr.
  apply list_elem_of_In, in_flat_map in Hr as (name & Hname & Hr).
  apply list_elem_of_In in Hname, Hr.
  unfold search_one, get_adapter in Hr.
  set (registry := ensure_all adapters _) in *.
  destruct (registry !! name) as [a|] eqn:Ha; [| by apply elem_of_nil in Hr].
  destruct (adapter_search api a query limit) as [found| |] eqn:Hfound;
    try (by apply elem_of_nil in Hr).
  exists name, a, found. eauto.
Qed.

Lemma search_results_from_allowed_sources_witness :
  (List.length [Demo.hit_b; Demo.hit_a; Demo.hit_c] ≤ 10)%nat
  ∧ ∀ r, r ∈ [Demo.hit_b; Demo.hit_a; Demo.hit_c] →
      ∃ name a found,
        name ∈ allowed_names Demo.demo_django None
        ∧ (search Demo.demo_django Demo.demo_api ∅ "term" None 10 None).2
          !! name = Some a
        ∧ adapter_search Demo.demo_api a "term" 10 = Returned found
        ∧ r ∈ found.
Proof.
  apply (search_results_from_allowed_sources Demo.demo_django Demo.demo_api ∅
           "term" None 10 None None).
  - reflexivity.
  - vm_compute. reflexivity.
Defined.

(** ** Bundled edges of a map node *)

Section bundling.
Implicit Types r : Relationship.
Implicit Types rels rs : list Relationship.
Implicit Types g : list (string * list Relationship).

Lemma rels_of_type_snoc k rels r :
  rels_of_type k (rels ++ [r])
  = (rels_of_type k rels
     ++ (if decide (relation_type r = k) then [r] else []))%list.
Proof.
  unfold rels_of_type. rewrite filter_app. by f_equal.
Qed.

Lemma group_add_keys r g :
  map fst (group_add r g)
  = if decide (relation_type r ∈ map fst g) then map fst g
    else (map fst g ++ [relation_type r])%list.
Proof.
  induction g as [|[k rs] g IH]; cbn [group_add map fst].
  - case_decide as Hin; [by apply elem_of_nil in Hin | done].
  - destruct (String.eqb k (relation_type r)) eqn:Hk.
    + apply eqb_string_true in Hk as ->.
      rewrite decide_True by left. done.
    + apply eqb_string_false in Hk. cbn [map fst]. rewrite IH.
      destruct (decide (relation_type r ∈ map fst g)) as [Hin|Hout].
      * rewrite decide_True by (by right). done.
      * rewrite decide_False; [done |].
        intros [?|?]%elem_of_cons; congruence.
Qed.

Lemma group_lookup_add r g k :
  group_lookup k (group_add r g)
  = if decide (relation_type r = k)
    then Some (default [] (group_lookup k g) ++ [r])%list
    else group_lookup k g.
Proof.
  induction g as [|[k' rs] g IH]; cbn [group_add group_lookup].
  - case_decide as Hk.
    + apply eqb_string_true in Hk. by rewrite Hk.
    + apply eqb_string_false in Hk. by rewrite Hk.
  - destruct (String.eqb k' (relation_type r)) eqn:Hr;
      cbn [group_lookup]; destruct (String.eqb k' k) eqn:Hk.
    + apply eqb_string_true in Hr, Hk. rewrite decide_True by congruence. done.
    + apply eqb_string_true in Hr. apply eqb_string_false in Hk.
      rewrite decide_False by congruence. done.
    + apply eqb_string_false in Hr. apply eqb_string_true in Hk.
      rewrite decide_False by congruence. done.
    + apply IH.
Qed.

Lemma group_lookup_elem g k rs :
  NoDup (map fst g) → (k, rs) ∈ g ↔ group_lookup k g = Some rs.
Proof.
  induction g as [|[k' rs'] g IH]; cbn [map fst group_lookup]; intros Hnd.
  - split; [by intros ?%elem_of_nil | done].
  - apply NoDup_cons in Hnd as [Hk' Hnd]. rewrite elem_of_cons, (IH Hnd).
    destruct (String.eqb k' k) eqn:Hk.
    + apply eqb_string_true in Hk as ->. split.
      * intros [[= ->] | Hin]; [done |]. exfalso. apply Hk'.
        apply list_elem_of_fmap. exists (k, rs). split; [done |].
        by apply IH.
      * intros [= ->]. by left.
    + apply eqb_string_false in Hk. split.
      * intros [[= ? ?] | ?]; [congruence | done].
      * by right.
Qed.

Lemma groups_of_add rels g r :
  groups_of rels g → groups_of (rels ++ [r]) (group_add r g).
Proof.
  intros [Hnd Hg]. split.
  - rewrite group_add_keys. destruct (decide _) as [|Hout]; [done |].
    apply NoDup_app. split; [done |]. split.
    + intros k Hk ?%list_elem_of_singleton. by subst k.
    + apply NoDup_singleton.
  - intros k. rewrite group_lookup_add, rels_of_type_snoc, Hg.
    destruct (decide (relation_type r = k)) as [Hk|Hk].
    + by destruct (rels_of_type k rels).
    + by rewrite app_nil_r.
Qed.

Lemma relation_groups_spec rels : groups_of rels (relation_groups rels).
Proof.
  unfold relation_groups.
  induction rels as [|r rels IH] using rev_ind.
  - split; [constructor | done].
  - rewrite foldl_snoc. by apply groups_of_add.
Qed.

Lemma relation_groups_elem rels k rs :
  (k, rs) ∈ relation_groups rels ↔ rs = rels_of_type k rels ∧ rs ≠ [].
Proof.
  destruct (relation_groups_spec rels) as [Hnd Hg].
  rewrite (group_lookup_elem _ _ _ Hnd), Hg.
  destruct (rels_of_type k rels) as [|x xs]; split.
  - done.
  - by intros [-> ?].
  - by intros [= <-].
  - by intros [-> _].
Qed.
End bundling.

Lemma bundle_types (node : string) (g : list (string * list Relationship)) :
  map bundle_relationType (map (make_bundle node) g) = map fst g.
Proof.
  induction g as [|[k rs] g IH]; [done |]. simpl. by rewrite IH.
Qed.

Lemma NoDup_keys_filter {A B} (P : A * B → Prop) `{∀ x, Decision (P x)}
    (g : list (A * B)) :
  NoDup (map fst g) → NoDup (map fst (filter P g)).
Proof.
  induction g as [|x g IH]; [done |].
  cbn [map]. intros [Hx Hnd]%NoDup_cons. rewrite filter_cons.
  destruct (decide (P x)); [| by apply IH].
  cbn [map]. apply NoDup_cons. split; [| by apply IH].
  intros Hin. apply Hx.
  apply list_elem_of_fmap in Hin as (y & Hy & [_ Hin]%list_elem_of_filter).
  apply list_elem_of_fmap. eauto.
Qed.

Lemma bundle_edge_ids_any (node k : string) (rs : list Relationship) :
  map relatedItemId (bundle_bundledEdges (make_bundle node (k, rs)))
  = map (λ r, node_id (target_node r)) rs.
Proof.
  cbn [make_bundle bundle_bundledEdges].
  assert (∀ (f : nat → nat) l,
            map relatedItemId
              (imap (λ i rel,
                       {| relatedItemId := node_id (target_node rel);
                          relatedItemLabel := node_label (target_node rel);
                          originalIndex := pretty (f i) |}) l)
            = map (λ r : Relationship, node_id (target_node r)) l) as Hgen.
  { intros f l. revert f. induction l as [|x l IH]; intros f; [done |].
    cbn [imap map]. f_equal. apply (IH (λ i, f (S i))). }
  apply (Hgen (λ i, i)).
Qed.

(** X19: the bundled edges of a node hold one bundle for every relation
    type that two or more of its relationships have, and no other; the
    bundle counts exactly the relationships of its type and lists one edge
    for each of them. *)
Theorem make_bundles_spec (node : string) (rels : list Relationship) :
  NoDup (map bundle_relationType (make_bundles node rels))
  ∧ (∀ b, b ∈ make_bundles node rels →
       bundle_sourceNode b = node
       ∧ bundle_count b
         = List.length (rels_of_type (bundle_relationType b) rels)
       ∧ (2 ≤ bundle_count b)%nat
       ∧ map relatedItemId (bundle_bundledEdges b)
         = map (λ r, node_id (target_node r))
               (rels_of_type (bundle_relationType b) rels))
  ∧ (∀ k, (2 ≤ List.length (rels_of_type k rels))%nat →
       ∃ b, b ∈ make_bundles node rels ∧ bundle_relationType b = k).
Proof.
  destruct (relation_groups_spec rels) as [Hnd _].
  pose proof (relation_groups_elem rels) as Hg.
  unfold make_bundles. split; [| split].
  - rewrite bundle_types. by apply NoDup_keys_filter.
  - intros b (g & -> & [Hlen Hin]%list_elem_of_filter)%list_elem_of_fmap.
    destruct g as [k rs]. apply Hg in Hin as [-> _]. simpl in Hlen.
    split; [done |]. split; [done |]. split; [simpl; lia |].
    apply (bundle_edge_ids_any node k).
  - intros k Hk.
    exists (make_bundle node (k, rels_of_type k rels)). split; [| done].
    apply list_elem_of_fmap. eexists. split; [done |].
    apply list_elem_of_filter. split; [simpl; lia |].
    apply Hg. split; [done |]. intros Hnil. rewrite Hnil in Hk. simpl in Hk. lia.
Qed.

Lemma make_bundles_spec_witness :
  ∃ b, b ∈ make_bundles "Q42" Demo2.some_rels
       ∧ bundle_relationType b = "part of".
Proof.
  apply (proj2 (proj2 (make_bundles_spec "Q42" Demo2.some_rels)) "part of").
  vm_compute. lia.
Defined.

(** ** What the source listing shows *)

Section listing_content.
Implicit Types records : gmap string source.

Lemma source_records_lookup (l : list source) (n : string) (r : source) :
  source_records_of l !! n = Some r →
  r ∈ l ∧ n = _normalize_source_name (src_name r).
Proof.
  unfold source_records_of.
  assert (∀ (l' : list source) (m : gmap string source),
            foldl (λ m s, <[_normalize_source_name (src_name s) := s]> m) m l'
            !! n = Some r →
            m !! n = Some r
            ∨ (r ∈ l' ∧ n = _normalize_source_name (src_name r))) as Hgen.
  { induction l' as [|x l' IH]; intros m Hn; [by left |].
    simpl in Hn. apply IH in Hn as [Hn|[Hr ->]].
    - destruct (decide (_normalize_source_name (src_name x) = n)) as [<-|Hne].
      + rewrite lookup_insert_eq in Hn. injection Hn as ->.
        right. split; [left | done].
      + rewrite lookup_insert_ne in Hn by done. by left.
    - right. split; [by right | done]. }
  intros Hn. apply Hgen in Hn as [Hn|[Hr ->]].
  - by rewrite lookup_empty in Hn.
  - apply list_elem_of_filter in Hr as [_ Hr]. done.
Qed.

Lemma make_source_payload_inv (api : adapter_api)
    (adapters : gmap string adapter) records (n : string)
    (p : source_payload) :
  make_source_payload api adapters records n = Some p →
  ∃ r, records !! n = Some r
       ∧ sp_name p = n
       ∧ sp_id p = src_id r
       ∧ sp_active p = true
       ∧ sp_can_manage p = src_can_manage r
       ∧ sp_can_admin p = src_can_admin r
       ∧ (sp_connection_config p ≠ None ∨ sp_security_policy p ≠ None →
          n = "ontop" ∧ src_can_manage r = true).
Proof.
  unfold make_source_payload.
  destruct (records !! n) as [r|]; [| done].
  destruct (match adapters !! n with Some _ => _ | None => _ end)
    as [config_type ui].
  intros [= <-]. exists r. cbn.
  repeat split; try done.
  all: destruct (bool_decide (n = "ontop")) eqn:Hn;
    destruct (src_can_manage r); cbn in *;
    try (by apply bool_decide_eq_true in Hn);
    try done; by destruct H.
Qed.
End listing_content.

(** X20: with [caller] the identity the request resolves to, every
    entry of the source listing describes a source that Django lists for
    that caller, under that source's normalized name and with its id and
    its manage and admin flags; when there is no identity that source
    classifies as public. Connection parameters and security policy are
    shown only in the entry named [ontop], and only when the caller may
    manage that source. *)
Theorem data_sources_listing_content (W : django) (api : adapter_api)
    (adapters : gmap string adapter) (authorization : option string)
    (caller : option user_payload)
    (payloads : list source_payload) (p : source_payload) :
  _resolve_request_user W authorization = Ok caller →
  (get_data_sources W api adapters authorization).1 = Ok payloads →
  p ∈ payloads →
  (∃ r, r ∈ listed_for W caller
        ∧ sp_name p = _normalize_source_name (src_name r)
        ∧ sp_id p = src_id r
        ∧ sp_can_manage p = src_can_manage r
        ∧ sp_can_admin p = src_can_admin r
        ∧ (payload_truthy caller = false → _is_public_source_record r = true))
  ∧ sp_active p = true
  ∧ (sp_connection_config p ≠ None ∨ sp_security_policy p ≠ None →
     sp_name p = "ontop" ∧ sp_can_manage p = true).
Proof.
  intros Hcaller. unfold get_data_sources, listed_for. rewrite Hcaller.
  destruct (payload_truthy caller); cbn [fst];
    intros [= <-] (n & _ & Hp)%list_elem_of_omap;
    apply make_source_payload_inv
      in Hp as (r & Hr & Hn & Hid & Hact & Hman & Hadm & Hcfg);
    apply source_records_lookup in Hr as [Hr Hname];
    (split; [| split; [done |]]).
  - exists r. repeat split; try done; congruence.
  - intros H. destruct (Hcfg H) as [-> ?]. split; congruence.
  - apply list_elem_of_filter in Hr as [Hpub Hr].
    exists r. repeat split; try done; congruence.
  - intros H. destruct (Hcfg H) as [-> ?]. split; congruence.
Qed.

Lemma data_sources_listing_content_witness :
  ∃ payloads,
    (get_data_sources Demo.demo_django Demo.demo_api ∅
       (Some "Bearer token123")).1 = Ok payloads
    ∧ ∀ p, p ∈ payloads →
        ∃ r, r ∈ listed_for Demo.demo_django (Some Demo.alice)
             ∧ sp_name p = _normalize_source_name (src_name r)
             ∧ sp_id p = src_id r
             ∧ sp_can_manage p = src_can_manage r
             ∧ sp_can_admin p = src_can_admin r
             ∧ (payload_truthy (Some Demo.alice) = false →
                _is_public_source_record r = true).
Proof.
  eexists. split; [vm_compute; reflexivity |].
  intros p Hp.
  refine (proj1 (data_sources_listing_content Demo.demo_django
                   Demo.demo_api ∅ (Some "Bearer token123")
                   (Some Demo.alice) _ p _ _ Hp)).
  - reflexivity.
  - vm_compute. reflexivity.
Defined.

(** ** The views of the write-back workflow *)

(** X21: only a superuser can act for another user. For any other
    request user the effective user is the request user, whatever the
    [X-User-ID] header says; and an effective user that differs from the
    request user is an active user whose key the header names. *)
Theorem effective_user_spec (parse_int : string → option Z)
    (users : list Views.account) (request_user : Workflow.User)
    (x_user_id : option string) :
  let user := Views._get_effective_user parse_int users request_user x_user_id in
  (Workflow.is_superuser request_user = false → user = request_user)
  ∧ (user ≠ request_user →
     ∃ header account,
       x_user_id = Some header
       ∧ parse_int header = Some (Workflow.user_pk user)
       ∧ account ∈ users
       ∧ Views.acct_user account = user
       ∧ Views.acct_active account = true).
Proof.
  intros user. subst user. unfold Views._get_effective_user.
  destruct x_user_id as [header|]; [| done].
  destruct (Workflow.is_superuser request_user) eqn:Hsuper.
  - split; [done |]. destruct (PyStr.nonempty header); [| done]. cbn [andb].
    destruct (parse_int header) as [pk|] eqn:Hparse; [| done].
    unfold Views.find_active_user.
    destruct (find _ users) as [account|] eqn:Hfind; [| done].
    intros _. apply find_some in Hfind as [Hin [Hpk Hact]%andb_true_iff].
    apply Z.eqb_eq in Hpk. exists header, account. simpl.
    rewrite Hpk. split; [done |]. split; [done |].
    split; [by apply list_elem_of_In | done].
  - rewrite andb_false_r. done.
Qed.

Lemma effective_user_spec_witness :
  Views._get_effective_user Demo2.parse_small Demo2.users Demo2.bob (Some "1")
  = Demo2.bob.
Proof.
  apply (proj1 (effective_user_spec Demo2.parse_small Demo2.users Demo2.bob
                  (Some "1"))).
  reflexivity.
Defined.

(** X22: the detail view shows a stored request exactly to a superuser,
    to the user who made the request and to a holder of [admin] on its
    source; everybody else is answered 403. Whoever is entitled to decide on
    a request can therefore read it. *)
Theorem request_detail_visibility (db : Workflow.database)
    (user : Workflow.User) (request_id : Z) (req : Workflow.WriteBackRequest) :
  Workflow.find_request db request_id = Some req →
  let can_view :=
    Workflow.is_superuser user = true
    ∨ Workflow.wb_requested_by req = Workflow.user_pk user
    ∨ Workflow.has_permission db (Workflow.wb_data_source req)
        (Workflow.user_pk user) ["admin"] = true in
  (can_view → Views.write_back_request_detail db user request_id
              = Views.DetailOk req)
  ∧ (¬ can_view → Views.write_back_request_detail db user request_id
                  = Views.DetailError 403 "Permission denied")
  ∧ (may_approve db user (Workflow.wb_data_source req) → can_view).
Proof.
  intros Hfind can_view. subst can_view.
  unfold Views.write_back_request_detail, may_approve. rewrite Hfind.
  destruct (Z.eqb_spec (Workflow.wb_requested_by req) (Workflow.user_pk user))
    as [Hr|Hr];
    destruct (Workflow.is_superuser user) eqn:Hs;
    destruct (Workflow.has_permission db _ _ ["admin"]) eqn:Hp; cbn;
    (split; [| split]);
    first [ done
          | by (intros H; exfalso; apply H; auto)
          | by auto
          | by (intros [H | [H | H]]; congruence)
          | by (intros [H | H]; congruence) ].
Qed.

Lemma request_detail_visibility_witness :
  Views.write_back_request_detail (Demo.tables_with "pending") Demo2.bob 1
  = Views.DetailOk (Demo.request_in "pending").
Proof.
  refine (proj1 (request_detail_visibility (Demo.tables_with "pending")
                   Demo2.bob 1 (Demo.request_in "pending") eq_refl) _).
  right. left. reflexivity.
Defined.

(** ** The read-only SQL endpoint *)

Section sql_gate.
Implicit Types q s : string.

Lemma rstrip_split s :
  ∃ ws, s = PyStr.rstrip s ++ ws.
Proof.
  induction s as [|c s (ws & Hs)]; [by exists "" |].
  simpl. destruct (PyStr.rstrip s) as [|d r] eqn:Hr.
  - destruct (PyStr.is_space c).
    + by exists (String c s).
    + exists s. done.
  - exists ws. rewrite append_cons. by rewrite <- Hs.
Qed.

Lemma contains_strip n s :
  PyStr.contains n (PyStr.strip s) = true → PyStr.contains n s = true.
Proof.
  unfold PyStr.strip. intros H.
  destruct (lstrip_split s) as (ws & Hs & _). rewrite Hs.
  apply contains_app_r.
  destruct (rstrip_split (PyStr.lstrip s)) as (ws' & Hs'). rewrite Hs'.
  by apply contains_app_l.
Qed.

Lemma lower_char_nonspace (c d : ascii) :
  PyStr.lower_char c = d → PyStr.is_space d = false → PyStr.is_space c = false.
Proof. intros <-. by rewrite lower_char_is_space. Qed.

(** On code points below 256 the tables of the two kinds of text agree,
    and a letter of "select" is matched exactly by its two cases. *)
Lemma is_space_code (c : ascii) :
  Uni.is_space (PyStr.code c) = PyStr.is_space c.
Proof. each_char c; reflexivity. Qed.

Lemma semicolon_code (c : ascii) :
  (59 =? PyStr.code c)%N = String.prefix ";" (String c "").
Proof. each_char c; reflexivity. Qed.

Lemma matches_select_letter (p c : ascii) :
  p ∈ list_ascii_of_string "select" →
  Uni.matches_letter p (PyStr.code c) = true → PyStr.lower_char c = p.
Proof.
  cbn [list_ascii_of_string]. rewrite !elem_of_cons, elem_of_nil.
  intros [->|[->|[->|[->|[->|[->|[]]]]]]]; each_char c; intros H;
    vm_compute in H; first [discriminate H | reflexivity].
Qed.

Lemma lstrip_of_string s :
  Uni.lstrip (Uni.of_string s) = Uni.of_string (PyStr.lstrip s).
Proof.
  induction s as [|c s IH]; [done |].
  cbn [Uni.of_string Uni.lstrip PyStr.lstrip]. rewrite is_space_code.
  by destruct (PyStr.is_space c).
Qed.

Lemma prefix_semicolon (c : ascii) s :
  String.prefix ";" (String c s) = String.prefix ";" (String c "").
Proof. each_char c; by destruct s. Qed.

Lemma contains_of_string s :
  Uni.contains (Uni.of_string ";") (Uni.of_string s) = PyStr.contains ";" s.
Proof.
  induction s as [|c s IH]; [done |].
  rewrite (contains_unfold ";" (String c s)), prefix_semicolon.
  cbn [Uni.of_string Uni.contains Uni.prefix].
  change (PyStr.code ";") with 59%N.
  rewrite andb_true_r, semicolon_code. f_equal. exact IH.
Qed.

Lemma select_survives_strip q :
  Uni.match_keyword "select" (Uni.of_string q) = true →
  PyMore.starts_with "select" (PyStr.lower (PyStr.strip q)) = true.
Proof.
  unfold Uni.match_keyword, PyStr.strip. rewrite lstrip_of_string.
  destruct (Uni.strip_keyword "select" (Uni.of_string (PyStr.lstrip q)))
    as [after|] eqn:Hkw; [| intros [=]].
  intros _.
  destruct (PyStr.lstrip q) as [|c1 [|c2 [|c3 [|c4 [|c5 [|c6 rest]]]]]];
    cbn [Uni.of_string Uni.strip_keyword] in Hkw;
    repeat match type of Hkw with
           | context [if Uni.matches_letter ?p ?c then _ else _] =>
               destruct (Uni.matches_letter p c) eqn:?
           end;
    try discriminate Hkw.
  clear Hkw.
  repeat match goal with
         | H : Uni.matches_letter _ _ = true |- _ =>
             apply matches_select_letter in H;
             [| cbn [list_ascii_of_string]; set_solver]
         end.
  rewrite (rstrip_cons_nonspace c1) by (by eapply lower_char_nonspace).
  rewrite (rstrip_cons_nonspace c2) by (by eapply lower_char_nonspace).
  rewrite (rstrip_cons_nonspace c3) by (by eapply lower_char_nonspace).
  rewrite (rstrip_cons_nonspace c4) by (by eapply lower_char_nonspace).
  rewrite (rstrip_cons_nonspace c5) by (by eapply lower_char_nonspace).
  rewrite (rstrip_cons_nonspace c6) by (by eapply lower_char_nonspace).
  unfold PyMore.starts_with, PyStr.lower. cbn [PyStr.map_chars].
  repeat match goal with
         | H : PyStr.lower_char _ = _ |- _ => rewrite H; clear H
         end.
  apply (prefix_app_same "select").
Qed.
End sql_gate.

(** X23: the SQL endpoint sends statements to the database only for a
    request that carries the configured, non-empty internal key and whose
    [sql], once trimmed, begins with "select" in any case, holds no semicolon
    and matches no blocked pattern; it then sets the 5000 ms statement
    timeout and runs exactly the trimmed text. With no key configured every
    request is answered 403. *)
Theorem sql_query_statements (expected_key : string)
    (run : string → list row + string) (request : Views.sql_request) :
  let answer := Views.sql_query expected_key run request in
  (expected_key = "" → answer = (Views.SqlError 403 "Forbidden", []))
  ∧ (answer.2 = []
     ∨ ∃ raw sql,
         answer.2 = [Views.SetStatementTimeout 5000; Views.Execute sql]
         ∧ expected_key ≠ ""
         ∧ Views.sq_key request = expected_key
         ∧ Views.sq_body request = Some (Some raw)
         ∧ sql = PyStr.strip raw
         ∧ PyMore.starts_with "select" (PyStr.lower sql) = true
         ∧ PyStr.contains ";" sql = false
         ∧ ∀ pattern, pattern ∈ Views.blocked_patterns →
             Views.search_from pattern None
               (Views.collapse_blanks false (PyStr.lower sql)) = false).
Proof.
  intros answer. subst answer. unfold Views.sql_query. split.
  - intros ->. reflexivity.
  - unfold Views._has_valid_internal_key.
    destruct expected_key as [|c k] eqn:Hkey; [by left |].
    cbn [PyStr.nonempty negb].
    destruct (String.eqb (Views.sq_key request) (String c k)) eqn:Hk;
      [| by left].
    apply eqb_string_true in Hk. cbn [negb].
    destruct (Views.sq_body request) as [[raw|]|] eqn:Hbody;
      [| by left | by left].
    assert (PyStr.or_empty (or_str (Some raw) None) = raw) as ->
      by (by destruct raw).
    destruct (PyStr.nonempty (PyStr.strip raw)) eqn:Hne; [| by left].
    cbn [negb].
    destruct (PyMore.starts_with "select" _) eqn:Hsel; [| by left].
    cbn [negb].
    destruct (PyStr.contains ";" _) eqn:Hsemi; [by left |].
    destruct (existsb _ Views.blocked_patterns) eqn:Hblocked; [by left |].
    right. exists raw, (PyStr.strip raw). cbn [snd].
    repeat split; try done.
    intros pattern Hin.
    destruct (Views.search_from pattern None _) eqn:Hs; [| done].
    assert (existsb
              (λ pattern, Views.search_from pattern None
                 (Views.collapse_blanks false (PyStr.lower (PyStr.strip raw))))
              Views.blocked_patterns = true) as Hex.
    { apply existsb_exists. exists pattern.
      split; [by apply list_elem_of_In | done]. }
    congruence.
Qed.

Lemma sql_query_statements_witness :
  Views.sql_query "" Demo2.db_rows
    {| Views.sq_key := ""; Views.sq_body := Some (Some "select 1") |}
  = (Views.SqlError 403 "Forbidden", []).
Proof.
  apply (proj1 (sql_query_statements "" Demo2.db_rows
                  {| Views.sq_key := "";
                     Views.sq_body := Some (Some "select 1") |})).
  reflexivity.
Defined.

(** X24: for query text of code points below 256, what the gateway
    accepts as a single SELECT is never refused by the Django endpoint for
    being empty, for not being a SELECT or for holding several statements:
    with the right key it is either refused for a blocked pattern or run,
    trimmed, under the timeout. (Beyond that range the two sides differ:
    the gateway ignores case the way the regular expression does, the
    endpoint through [str.lower].) *)
Theorem gateway_select_reaches_database (expected_key : string)
    (run : string → list row + string) (sql : string) :
  _is_sql_select (Uni.of_string sql) = true →
  expected_key ≠ "" →
  let answer :=
    Views.sql_query expected_key run
      {| Views.sq_key := expected_key; Views.sq_body := Some (Some sql) |} in
  answer = (Views.SqlError 400 "Query contains blocked SQL pattern", [])
  ∨ answer.2 = [Views.SetStatementTimeout 5000; Views.Execute (PyStr.strip sql)].
Proof.
  intros Hsel Hkey answer. unfold _is_sql_select in Hsel.
  apply andb_true_iff in Hsel as [Hkw Hsemi].
  rewrite contains_of_string in Hsemi.
  subst answer. unfold Views.sql_query, Views._has_valid_internal_key.
  cbn [Views.sq_key Views.sq_body].
  destruct expected_key as [|c k]; [done |]. cbn [PyStr.nonempty negb].
  rewrite String.eqb_refl. cbn [negb].
  assert (PyStr.or_empty (or_str (Some sql) None) = sql) as ->
    by (by destruct sql).
  pose proof (select_survives_strip sql Hkw) as Hsel.
  destruct (PyStr.strip sql) as [|c' s'] eqn:Hstrip; [done |].
  cbn [PyStr.nonempty negb]. rewrite Hsel. cbn [negb].
  assert (PyStr.contains ";" (String c' s') = false) as ->.
  { destruct (PyStr.contains ";" (String c' s')) eqn:Hc; [| done].
    rewrite <- Hstrip in Hc. apply contains_strip in Hc.
    apply negb_true_iff in Hsemi. congruence. }
  destruct (existsb _ Views.blocked_patterns); [by left | by right].
Qed.

Lemma gateway_select_reaches_database_witness :
  Views.sql_query "k3y" Demo2.db_rows
    {| Views.sq_key := "k3y";
       Views.sq_body := Some (Some "  SELECT id FROM graphs_node ") |}
  = (Views.SqlError 400 "Query contains blocked SQL pattern", [])
  ∨ (Views.sql_query "k3y" Demo2.db_rows
       {| Views.sq_key := "k3y";
          Views.sq_body := Some (Some "  SELECT id FROM graphs_node ") |}).2
    = [Views.SetStatementTimeout 5000;
       Views.Execute (PyStr.strip "  SELECT id FROM graphs_node ")].
Proof.
  apply (gateway_select_reaches_database "k3y" Demo2.db_rows
           "  SELECT id FROM graphs_node "); [reflexivity | discriminate].
Defined.

(** The blocked patterns at work: a call of a blocked function is found
    across white space, a column that merely begins like a blocked word is
    not. *)
Example blocked_patterns_examples :
  (Views.sql_query "k3y" Demo2.db_rows
     {| Views.sq_key := "k3y";
        Views.sq_body := Some (Some "select PG_SLEEP  (10)") |}).1
  = Views.SqlError 400 "Query contains blocked SQL pattern"
  ∧ (Views.sql_query "k3y" Demo2.db_rows
       {| Views.sq_key := "k3y";
          Views.sq_body := Some (Some "select copyright from books") |}).2
    = [Views.SetStatementTimeout 5000;
       Views.Execute "select copyright from books"]
  ∧ (Views.sql_query "k3y" Demo2.db_rows
       {| Views.sq_key := "k3y";
          Views.sq_body := Some (Some "selection") |}).2
    = [Views.SetStatementTimeout 5000; Views.Execute "selection"].
Proof. vm_compute. repeat split; reflexivity. Qed.

(** ** Invariants of the request table *)

Section request_table.
Import Workflow.
Implicit Types db : database.
Implicit Types r req : WriteBackRequest.

Lemma approve_cases db (user : User) (request_id : Z)
    (body : option approve_body) (now : Z) :
  (approve_write_back_request db user request_id body now).2 = db
  ∨ ∃ req req',
      find_request db request_id = Some req
      ∧ may_approve db user (wb_data_source req)
      ∧ same_proposal req req'
      ∧ (approve_write_back_request db user request_id body now).2
        = save_request db req'.
Proof.
  unfold approve_write_back_request.
  destruct (find_request db request_id) as [req|] eqn:Hfind; [| by left].
  destruct (is_superuser user || has_permission db _ _ ["admin"]) eqn:Hperm;
    [| by left].
  cbn [negb]. destruct (negb _); [by left |].
  right. exists req.
  destruct (String.eqb _ "reject"); eexists;
    (split; [done |]); (split; [by apply orb_true_iff |]);
    (split; [| reflexivity]); by repeat split.
Qed.

Lemma find_unique db (request_id : Z) req r :
  unique_ids db →
  find_request db request_id = Some req →
  r ∈ write_back_requests db → wb_id r = wb_id req → r = req.
Proof.
  unfold unique_ids, find_request.
  induction (write_back_requests db) as [|x l IH]; [by intros _ [=] |].
  cbn [map find]. intros [Hx Hnd]%NoDup_cons Hfind Hin Hid.
  assert (∀ y, y ∈ l → wb_id y ≠ wb_id x) as Hfresh.
  { intros y Hy Heq. apply Hx. rewrite <- Heq.
    apply list_elem_of_fmap. eauto. }
  destruct (wb_id x =? request_id)%Z eqn:Hxid.
  - injection Hfind as <-. apply elem_of_cons in Hin as [-> | Hin]; [done |].
    exfalso. by apply (Hfresh r).
  - apply elem_of_cons in Hin as [-> | Hin].
    + apply find_some in Hfind as [Hreq _].
      exfalso. apply (Hfresh req); [by apply list_elem_of_In | done].
    + by apply IH.
Qed.
End request_table.

(** X25: creating a request keeps the request table well formed: if all
    stored ids are below the next id and no two requests share an id, the
    same holds afterwards; a new request gets an id no stored request has,
    the stored requests stay as they are, in place, and the source and
    permission tables are not touched. *)
Theorem create_keeps_request_table (rt : Workflow.runtime)
    (db : Workflow.database) (user : Workflow.User)
    (body : option Workflow.json_value) :
  fresh_ids db →
  unique_ids db →
  let answer := Workflow.create_write_back_request rt db user body in
  fresh_ids answer.2
  ∧ unique_ids answer.2
  ∧ (∃ added, Workflow.write_back_requests answer.2
              = (Workflow.write_back_requests db ++ added)%list
              ∧ ∀ r, r ∈ added →
                  Workflow.wb_status r = "pending"
                  ∧ ∀ r', r' ∈ Workflow.write_back_requests db →
                          Workflow.wb_id r' ≠ Workflow.wb_id r)
  ∧ Workflow.data_sources answer.2 = Workflow.data_sources db
  ∧ Workflow.permissions answer.2 = Workflow.permissions db.
Proof.
  intros Hfresh Huniq answer. subst answer.
  destruct (create_cases rt db user body)
    as [(-> & _ & _)
       | (entries & src & req & _ & _ & Hid & Hst & _ & ->)]; cbn [snd].
  - split; [done |]. split; [done |]. split; [| done].
    exists []. rewrite app_nil_r. split; [done |]. by intros r ?%elem_of_nil.
  - assert (∀ r', r' ∈ Workflow.write_back_requests db →
                  Workflow.wb_id r' ≠ Workflow.wb_id req) as Hnew.
    { intros r' Hr'. apply Hfresh in Hr'. lia. }
    split; [| split; [| split; [| done]]].
    + intros r. cbn. intros [Hr | ->%list_elem_of_singleton]%elem_of_app.
      * apply Hfresh in Hr. lia.
      * lia.
    + unfold unique_ids in *. cbn. rewrite map_app.
      apply NoDup_app. split; [done |]. split; [| apply NoDup_singleton].
      intros i (r' & -> & Hr')%list_elem_of_fmap ?%list_elem_of_singleton.
      by apply (Hnew r').
    + exists [req]. split; [done |].
      intros r ->%list_elem_of_singleton. done.
Qed.

Lemma create_keeps_request_table_witness :
  unique_ids
    (Workflow.create_write_back_request Demo.plain_runtime
       (Demo.tables_with "pending") Demo.root (Some Demo.insert_body)).2.
Proof.
  refine (proj1 (proj2 (create_keeps_request_table Demo.plain_runtime
                          (Demo.tables_with "pending")
                          Demo.root (Some Demo.insert_body) _ _))).
  - intros r Hr. apply list_elem_of_singleton in Hr as ->. reflexivity.
  - unfold unique_ids. simpl. apply NoDup_singleton.
Defined.

(** X26: a decision touches nothing but the decision fields of the
    request it names. With ids unique, every stored request keeps its
    place and its proposal (source, requester, operation, table, key and
    values), every request other than the named one is unchanged, and the
    other tables and the id sequence stay as they were. A caller who is
    not entitled to decide changes nothing at all. *)
Theorem approve_touches_only_the_decision (db : Workflow.database)
    (user : Workflow.User) (request_id : Z)
    (body : option Workflow.approve_body) (now : Z) :
  unique_ids db →
  let db' :=
    (Workflow.approve_write_back_request db user request_id body now).2 in
  Forall2 (λ r r', same_proposal r r'
                   ∧ (Workflow.wb_id r ≠ request_id → r' = r))
    (Workflow.write_back_requests db) (Workflow.write_back_requests db')
  ∧ Workflow.data_sources db' = Workflow.data_sources db
  ∧ Workflow.permissions db' = Workflow.permissions db
  ∧ Workflow.next_id db' = Workflow.next_id db
  ∧ unique_ids db'
  ∧ ((∀ req, Workflow.find_request db request_id = Some req →
             ¬ may_approve db user (Workflow.wb_data_source req)) →
     db' = db).
Proof.
  intros Huniq db'. subst db'.
  assert (∀ l : list Workflow.WriteBackRequest,
            Forall2 (λ r r', same_proposal r r'
                             ∧ (Workflow.wb_id r ≠ request_id → r' = r)) l l)
    as Hrefl.
  { intros l. apply Forall_Forall2_diag, Forall_forall.
    intros r _. by repeat split. }
  destruct (approve_cases db user request_id body now)
    as [-> | (req & req' & Hfind & Hmay & Hsame & ->)].
  { by repeat split. }
  pose proof (find_request_id _ _ _ Hfind) as Hid.
  assert (Workflow.wb_id req' = request_id) as Hid'
    by (destruct Hsame as [<- _]; done).
  assert (Forall2 (λ r r', same_proposal r r'
                           ∧ (Workflow.wb_id r ≠ request_id → r' = r))
            (Workflow.write_back_requests db)
            (map (λ r', if (Workflow.wb_id r' =? Workflow.wb_id req')%Z
                        then req' else r')
                 (Workflow.write_back_requests db))) as Hall.
  { apply Forall2_fmap_r, Forall_Forall2_diag, Forall_forall.
    intros r Hr. unfold compose. cbv beta. rewrite Hid'.
    destruct (Z.eqb_spec (Workflow.wb_id r) request_id) as [Heq|Hne].
    - assert (r = req) as -> by (eapply find_unique; eauto; congruence).
      split; [done | congruence].
    - split; [by repeat split | done]. }
  cbn. split; [done |]. repeat split; try done.
  - unfold unique_ids in *. cbn.
    assert (map Workflow.wb_id
              (map (λ r', if (Workflow.wb_id r' =? Workflow.wb_id req')%Z
                          then req' else r')
                   (Workflow.write_back_requests db))
            = map Workflow.wb_id (Workflow.write_back_requests db)) as ->;
      [| done].
    rewrite map_map. apply map_ext. intros r.
    destruct (Z.eqb_spec (Workflow.wb_id r) (Workflow.wb_id req')); congruence.
  - intros Hnot. exfalso. by apply (Hnot req).
Qed.

Lemma approve_touches_only_the_decision_witness :
  (Workflow.approve_write_back_request (Demo.tables_with "pending") Demo2.bob 1
     None 100).2
  = Demo.tables_with "pending".
Proof.
  refine (proj2 (proj2 (proj2 (proj2 (proj2
            (approve_touches_only_the_decision (Demo.tables_with "pending")
               Demo2.bob 1 None 100 _))))) _).
  - unfold unique_ids. simpl. apply NoDup_singleton.
  - intros req [= <-]. by intros [H | H].
Defined.

(** ** The list of requests and the detail view *)

Lemma has_admin_permission_ids (db : Workflow.database) (user : Workflow.User)
    (source_pk : Z) :
  Workflow.has_permission db source_pk (Workflow.user_pk user) ["admin"]
  = existsb (Z.eqb source_pk) (Views.admin_source_ids db user).
Proof.
  unfold Workflow.has_permission, Views.admin_source_ids.
  apply eq_true_iff_eq. rewrite !existsb_exists. split.
  - intros (p & Hin & [[Hsrc Husr]%andb_true_iff Hkind]%andb_true_iff).
    cbn [existsb] in Hkind. rewrite orb_false_r in Hkind.
    exists (Workflow.perm_data_source p). split.
    + apply in_map, filter_In. split; [done |]. by rewrite Husr, Hkind.
    + by rewrite Z.eqb_sym.
  - intros (i & (p & <- & [Hin [Husr Hkind]%andb_true_iff]%filter_In)%in_map_iff
            & Hsrc).
    exists p. split; [done |]. cbn [existsb].
    by rewrite Z.eqb_sym, Hsrc, Husr, Hkind.
Qed.

Lemma find_request_unique (db : Workflow.database)
    (req : Workflow.WriteBackRequest) :
  unique_ids db →
  req ∈ Workflow.write_back_requests db →
  Workflow.find_request db (Workflow.wb_id req) = Some req.
Proof.
  intros Huniq Hin.
  destruct (Workflow.find_request db (Workflow.wb_id req)) as [r|] eqn:Hfind.
  - f_equal. symmetry. eapply find_unique; eauto.
    symmetry. by apply find_request_id in Hfind.
  - exfalso. unfold Workflow.find_request in Hfind.
    pose proof (find_none _ _ Hfind req (proj1 (list_elem_of_In _ _) Hin))
      as Hne.
    cbv beta in Hne. by rewrite Z.eqb_refl in Hne.
Qed.

(** X27: the list and the detail view agree on who may see a request.
    With ids unique and the ordering a rearrangement, every entry of a
    caller's list describes a stored request that the detail view opens
    for the same caller; and when the table holds at most 200 requests,
    every stored request the detail view opens for them is in their
    list. *)
Theorem listed_requests_can_be_opened
    (newest_first : list Workflow.WriteBackRequest →
                    list Workflow.WriteBackRequest)
    (db : Workflow.database) (user : Workflow.User) :
  unique_ids db →
  (∀ l, newest_first l ≡ₚ l) →
  (∀ row, row ∈ Views.write_back_requests_list newest_first db user →
     ∃ req, req ∈ Workflow.write_back_requests db
            ∧ row = Views.row_of req
            ∧ Views.write_back_request_detail db user (Workflow.wb_id req)
              = Views.DetailOk req)
  ∧ ((List.length (Workflow.write_back_requests db) ≤ 200)%nat →
     ∀ req, req ∈ Workflow.write_back_requests db →
       Views.write_back_request_detail db user (Workflow.wb_id req)
       = Views.DetailOk req →
       Views.row_of req ∈ Views.write_back_requests_list newest_first db user).
Proof.
  intros Huniq Hperm.
  assert (∀ req, req ∈ Workflow.write_back_requests db →
            (Views.write_back_request_detail db user (Workflow.wb_id req)
             = Views.DetailOk req
             ↔ req ∈ (if Workflow.is_superuser user
                      then Workflow.write_back_requests db
                      else List.filter
                             (λ req,
                                (Workflow.wb_requested_by req
                                 =? Workflow.user_pk user)%Z
                                || existsb (Z.eqb (Workflow.wb_data_source req))
                                     (Views.admin_source_ids db user))
                             (Workflow.write_back_requests db)))) as Hview.
  { intros req Hin. unfold Views.write_back_request_detail.
    rewrite (find_request_unique db req Huniq Hin), has_admin_permission_ids.
    destruct (Workflow.is_superuser user); cbn [orb]; [done |].
    rewrite list_elem_of_In, filter_In, <- list_elem_of_In.
    destruct (_ || _); split; try done; by intros [_ ?]. }
  unfold Views.write_back_requests_list. split.
  - intros row (req & -> & Hreq)%list_elem_of_fmap.
    apply elem_of_take in Hreq as (i & Hreq & _).
    apply list_elem_of_lookup_2 in Hreq. rewrite Hperm in Hreq.
    assert (req ∈ Workflow.write_back_requests db) as Hin.
    { destruct (Workflow.is_superuser user); [done |].
      apply list_elem_of_In, filter_In in Hreq as [Hreq _].
      by apply list_elem_of_In. }
    exists req. split; [done |]. split; [done |]. by apply Hview.
  - intros Hlen req Hin Hopen. apply list_elem_of_fmap. exists req.
    split; [done |]. apply Hview in Hopen; [| done].
    rewrite take_ge.
    + by rewrite Hperm.
    + rewrite (Permutation_length (Hperm _)).
      destruct (Workflow.is_superuser user); [done |].
      etrans; [apply List.filter_length_le | done].
Qed.

Lemma listed_requests_can_be_opened_witness :
  Views.row_of (Demo.request_in "pending")
  ∈ Views.write_back_requests_list reverse (Demo.tables_with "pending")
      Demo2.bob.
Proof.
  refine (proj2 (listed_requests_can_be_opened reverse
                   (Demo.tables_with "pending") Demo2.bob _ _)
            _ (Demo.request_in "pending") _ _).
  - unfold unique_ids. simpl. apply NoDup_singleton.
  - intros l. apply reverse_Permutation.
  - simpl. lia.
  - constructor.
  - reflexivity.
Defined.
